(** * saharaclient/osc/v1/clusters.py: the cluster commands of the
    data-processing CLI plugin, embedded in Rocq.

    Python values are [value]s, Python dicts with string keys are association
    lists ([pydict]) with first-match lookup, in-place update of an existing
    key and insertion at the end otherwise.  Every command's [take_action] is
    a computation in a small state-and-error monad [M]: the state is the
    chronological trace of collaborator calls (REST client, lookups, file
    reads, wait helpers) with their answers and of the error-log lines, and
    the error is the Python exception that escapes [take_action].  The
    collaborators are an [oracle]: it answers each call from the calls made
    so far, so it may be any deterministic remote service. *)

From Stdlib Require Import String Ascii List ZArith Bool Lia Permutation.
Import ListNotations.
Local Open Scope string_scope.
Local Open Scope list_scope.
Local Open Scope Z_scope.

Infix "+++" := String.append (at level 60, right associativity).

(** ** Python values *)

Set Warnings "-register-all".

Inductive value : Type :=
| VNone
| VBool (b : bool)
| VInt (z : Z)
| VStr (s : string)
| VList (l : list value)
| VDict (d : list (string * value)).

Definition pydict := list (string * value).

Inductive exc : Type :=
| CommandError (msg : string)
| KeyError (key : string)
| AttributeError (attr : string)
| TypeError
| ValueError (msg : string)
| ApiError (msg : string).

Inductive result (A : Type) : Type :=
| Ok (a : A)
| Err (e : exc).
Arguments Ok {A} a.
Arguments Err {A} e.

Definition rbind {A B} (m : result A) (f : A -> result B) : result B :=
  match m with Ok a => f a | Err e => Err e end.

Notation "'let*' x ':=' m 'in' k" := (rbind m (fun x => k))
  (at level 200, x name, m at level 100, k at level 200).

Fixpoint rmapM {A B} (f : A -> result B) (l : list A) : result (list B) :=
  match l with
  | [] => Ok []
  | x :: l' => let* y := f x in let* ys := rmapM f l' in Ok (y :: ys)
  end.

(** Python truthiness. *)
Definition py_truthy (v : value) : bool :=
  match v with
  | VNone => false
  | VBool b => b
  | VInt z => negb (Z.eqb z 0)
  | VStr s => negb (String.eqb s "")
  | VList l => match l with [] => false | _ => true end
  | VDict d => match d with [] => false | _ => true end
  end.

(** Python [==] (a [bool] equals the [int] 0 or 1; dicts compare as maps). *)
Fixpoint py_eqb (a b : value) {struct a} : bool :=
  match a, b with
  | VNone, VNone => true
  | VBool x, VBool y => Bool.eqb x y
  | VInt x, VInt y => Z.eqb x y
  | VBool x, VInt y | VInt y, VBool x => Z.eqb (if x then 1 else 0) y
  | VStr x, VStr y => String.eqb x y
  | VList l1, VList l2 =>
      (fix go (l1 l2 : list value) : bool :=
         match l1, l2 with
         | [], [] => true
         | x :: r1, y :: r2 => py_eqb x y && go r1 r2
         | _, _ => false
         end) l1 l2
  | VDict d1, VDict d2 =>
      Nat.eqb (length d1) (length d2) &&
      (fix go (d1 : list (string * value)) : bool :=
         match d1 with
         | [] => true
         | (k, v) :: r =>
             (fix find (d : list (string * value)) : bool :=
                match d with
                | [] => false
                | (k', v') :: d' =>
                    if String.eqb k k' then py_eqb v v' else find d'
                end) d2 && go r
         end) d1
  | _, _ => false
  end.

(** [x in l] for a list [l]. *)
Definition py_in (x : value) (l : list value) : bool := existsb (py_eqb x) l.

(** ** Dicts with string keys *)

Fixpoint dict_get (k : string) (d : pydict) : option value :=
  match d with
  | [] => None
  | (k', v) :: d' => if String.eqb k k' then Some v else dict_get k d'
  end.

(** [d[k] = v]: an existing key keeps its place, a new key goes last. *)
Fixpoint dict_set (k : string) (v : value) (d : pydict) : pydict :=
  match d with
  | [] => [(k, v)]
  | (k', v') :: d' =>
      if String.eqb k k' then (k, v) :: d' else (k', v') :: dict_set k v d'
  end.

(** [del d[k]] once the key is known to be present. *)
Definition dict_del (k : string) (d : pydict) : pydict :=
  filter (fun kv => negb (String.eqb k (fst kv))) d.

Definition dict_in (k : string) (d : pydict) : bool :=
  match dict_get k d with Some _ => true | None => false end.

(** [d.pop(k)] *)
Definition dict_pop (k : string) (d : pydict) : result (value * pydict) :=
  match dict_get k d with
  | Some v => Ok (v, dict_del k d)
  | None => Err (KeyError k)
  end.

(** [d[k]] *)
Definition getitem (d : pydict) (k : string) : result value :=
  match dict_get k d with Some v => Ok v | None => Err (KeyError k) end.

(** [v[k]] for a value that should be a dict. *)
Definition getitem_v (v : value) (k : string) : result value :=
  match v with VDict d => getitem d k | _ => Err TypeError end.

(** [for x in v]: a list yields its items, a dict its keys, a string its
    characters. *)
Definition iter_value (v : value) : result (list value) :=
  match v with
  | VList l => Ok l
  | VDict d => Ok (map (fun kv => VStr (fst kv)) d)
  | VStr s => Ok (map (fun c => VStr (String c EmptyString)) (list_ascii_of_string s))
  | _ => Err TypeError
  end.

(** A record returned by the REST client: attributes are its fields. *)
Definition getattr (r : value) (a : string) : result value :=
  match r with
  | VDict d => match dict_get a d with Some v => Ok v | None => Err (AttributeError a) end
  | _ => Err (AttributeError a)
  end.

(** [resource.to_dict()] *)
Definition to_dict (r : value) : result pydict :=
  match r with VDict d => Ok d | _ => Err (AttributeError "to_dict") end.

Definition as_dict (v : value) : result pydict :=
  match v with VDict d => Ok d | _ => Err TypeError end.

Definition as_str (v : value) : result string :=
  match v with VStr s => Ok s | _ => Err TypeError end.

(** ** Dicts with arbitrary hashable keys (the batch output of
    [CreateCluster]: [data[cluster.name] = cluster.id]). *)

Definition hashable (v : value) : bool :=
  match v with VList _ | VDict _ => false | _ => true end.

Fixpoint vdict_set (k v : value) (d : list (value * value)) : list (value * value) :=
  match d with
  | [] => [(k, v)]
  | (k', v') :: d' =>
      if py_eqb k k' then (k', v) :: d' else (k', v') :: vdict_set k v d'
  end.

Definition vdict_setitem (k v : value) (d : list (value * value))
  : result (list (value * value)) :=
  if hashable k then Ok (vdict_set k v d) else Err TypeError.

(** ** Collaborator calls and the command monad *)

(** The calls a command makes to the world outside this module: the REST
    client managers ([client.clusters], [client.cluster_templates], ...), the
    name-or-ID lookups of [saharaclient.osc.v1.utils], the network client,
    the blob-file reader and the waiting helpers. *)
Inductive client_call : Type :=
| CReadBlob (path : string)                      (* osc_utils.read_blob_file_contents *)
| CGetResource (manager : string) (ref : value)   (* utils.get_resource *)
| CGetResourceId (manager : string) (ref : value) (* utils.get_resource_id *)
| CFindAttr (kind : string) (ref : value)         (* network_client.api.find_attr *)
| CCreate (kwargs : pydict)                       (* client.clusters.create *)
| CGet (id : value)                               (* client.clusters.get *)
| CList (search_opts : pydict)                    (* client.clusters.list *)
| CUpdate (id : value) (kwargs : pydict)          (* client.clusters.update *)
| CDelete (id : value)                            (* client.clusters.delete *)
| CScale (id : value) (scale_object : value)      (* client.clusters.scale *)
| CWaitStatus (id : value)                        (* osc_utils.wait_for_status *)
| CWaitDelete (id : value).                       (* utils.wait_for_delete *)

Inductive event : Type :=
| EvCall (c : client_call) (r : result value)
| EvLog (fmt : string) (arg : value).             (* self.log.error(fmt, arg) *)

Fixpoint calls_of (tr : list event) : list client_call :=
  match tr with
  | [] => []
  | EvCall c _ :: tr' => c :: calls_of tr'
  | EvLog _ _ :: tr' => calls_of tr'
  end.

(** The world answers a call from the calls made before it. *)
Definition oracle := list client_call -> client_call -> result value.

Definition M (A : Type) := list event -> list event * result A.

Definition ret {A} (a : A) : M A := fun tr => (tr, Ok a).
Definition raise {A} (e : exc) : M A := fun tr => (tr, Err e).
Definition lift {A} (r : result A) : M A := fun tr => (tr, r).
Definition bind {A B} (m : M A) (f : A -> M B) : M B :=
  fun tr => match m tr with
            | (tr', Ok a) => f a tr'
            | (tr', Err e) => (tr', Err e)
            end.

Notation "x <- m ;; k" := (bind m (fun x => k))
  (at level 61, m at next level, right associativity).
Notation "m ;;; k" := (bind m (fun _ => k))
  (at level 61, right associativity).

Definition log_error (fmt : string) (arg : value) : M unit :=
  fun tr => (tr ++ [EvLog fmt arg], Ok tt).

Fixpoint mapM {A B} (f : A -> M B) (l : list A) : M (list B) :=
  match l with
  | [] => ret []
  | x :: l' => y <- f x ;; ys <- mapM f l' ;; ret (y :: ys)
  end.

Fixpoint iterM {A} (f : A -> M unit) (l : list A) : M unit :=
  match l with
  | [] => ret tt
  | x :: l' => f x ;;; iterM f l'
  end.

(** ** The command arguments, as argparse leaves them *)

Record create_args : Type := {
  ca_name : option string;
  ca_cluster_template : option string;
  ca_image : option string;
  ca_description : option string;
  ca_user_keypair : option string;
  ca_neutron_network : option string;
  ca_count : option Z;
  ca_public : bool;
  ca_protected : bool;
  ca_transient : bool;
  ca_json : option string;
  ca_wait : bool }.

Record list_args : Type := {
  la_long : bool;
  la_plugin : option string;
  la_version : option string;
  la_name : option string }.

Record delete_args : Type := {
  da_cluster : list string;
  da_wait : bool }.

Record update_args : Type := {
  ua_cluster : string;
  ua_name : option string;
  ua_description : option string;
  ua_is_public : option bool;
  ua_is_protected : option bool }.

Record scale_args : Type := {
  sa_cluster : string;
  sa_node_groups : option (list string);
  sa_json : option string;
  sa_wait : bool }.

Definition opt_str (o : option string) : value :=
  match o with Some s => VStr s | None => VNone end.

Definition opt_bool (o : option bool) : value :=
  match o with Some b => VBool b | None => VNone end.

Definition opt_int (o : option Z) : value :=
  match o with Some z => VInt z | None => VNone end.

(** [parsed_args.count > 1] once [parsed_args.count] is truthy. *)
Definition py_gt1 (v : value) : result bool :=
  match v with
  | VInt z => Ok (1 <? z)
  | VBool _ => Ok false
  | _ => Err TypeError
  end.

Definition CLUSTER_FIELDS : list string :=
  ["cluster_template_id"; "use_autoconfig"; "user_keypair_id";
   "status"; "image"; "node_groups"; "id";
   "anti_affinity"; "version"; "name"; "is_transient";
   "is_protected"; "description"; "is_public";
   "neutron_management_network"; "plugin_name"].

(** Modelled from the spec: [utils.prepare_data] of
    saharaclient/osc/v1/utils.py, the fixed whitelist of fields a command
    displays: the whitelisted fields the record has, in whitelist order. *)
Fixpoint prepare_data (data : pydict) (fields : list string) : pydict :=
  match fields with
  | [] => []
  | f :: fs =>
      match dict_get f data with Some v => [(f, v)] | None => [] end
      ++ prepare_data data fs
  end.

Definition keys_str (d : pydict) : list (value * value) :=
  map (fun kv => (VStr (fst kv), snd kv)) d.

Definition json_error_message (path e : string) : string :=
  "An error occurred when reading template from file " +++ path +++ ": " +++ e.

Definition create_missing_message : string :=
  "At least --name , --cluster-template, --image arguments should be specified or json template should be provided with --json argument".

(** [template['net_id'] = template.pop('neutron_management_network')] *)
Definition rename_network (t : pydict) : pydict :=
  match dict_get "neutron_management_network" t with
  | Some v => dict_set "net_id" v (dict_del "neutron_management_network" t)
  | None => t
  end.

(** [x.split(':', 1)] fed to [dict()]: a string without ':' gives a
    one-element sequence, which [dict()] refuses. *)
Fixpoint split_colon (s : string) : option (string * string) :=
  match s with
  | EmptyString => None
  | String c s' =>
      if Ascii.eqb c ":"%char then Some ("", s')
      else match split_colon s' with
           | Some (a, b) => Some (String c a, b)
           | None => None
           end
  end.

(** [dict(map(lambda x: x.split(':', 1), parsed_args.node_groups))] *)
Definition node_group_pairs (ngs : option (list string)) : result pydict :=
  match ngs with
  | None => Err TypeError
  | Some l =>
      let* ps := rmapM (fun x => match split_colon x with
                                  | Some p => Ok p
                                  | None => Err (ValueError "dictionary update sequence element has length 1; 2 is required")
                                  end) l in
      Ok (fold_left (fun d p => dict_set (fst p) (VStr (snd p)) d) ps [])
  end.

(** [[ng['name'] for ng in cluster.node_groups]] *)
Definition cluster_node_group_names (cl : value) : result (list value) :=
  let* ngs := getattr cl "node_groups" in
  let* l := iter_value ngs in
  rmapM (fun ng => getitem_v ng "name") l.

(** The scale object once the empty lists are deleted. *)
Definition scale_object (add resize : list value) : pydict :=
  let o := [("add_node_groups", VList add); ("resize_node_groups", VList resize)] in
  let o := if py_truthy (VList add) then o else dict_del "add_node_groups" o in
  if py_truthy (VList resize) then o else dict_del "resize_node_groups" o.

Section Commands.

(** The remote service and the lookup helpers. *)
Variable w : oracle.
(** [json.loads]: the error text of its [ValueError], or the document. *)
Variable json_loads : string -> string + value.
(** [str()] as used by ['%s' % x]. *)
Variable py_str : value -> string.
(** [osc_utils.format_list] *)
Variable format_list : value -> result value.
(** [int()] of a string. *)
Variable py_int : string -> option Z.
(** [utils.get_by_name_substring] and [utils.prepare_column_headers]. *)
Variable get_by_name_substring : value -> string -> result value.
Variable prepare_column_headers : list string -> list (string * string) -> list string.

Definition call (c : client_call) : M value :=
  fun tr => let r := w (calls_of tr) c in (tr ++ [EvCall c r], r).

(** [_format_node_groups_list] *)
Definition format_node_groups_list (node_groups : value) : result string :=
  let* l := iter_value node_groups in
  let* strs := rmapM (fun ng => let* n := getitem_v ng "name" in
                                let* c := getitem_v ng "count" in
                                Ok (py_str n +++ ":" +++ py_str c)) l in
  Ok (String.concat ", " strs).

(** [_format_cluster_output], which rewrites [data] in place. *)
Definition format_cluster_output (data : pydict) : result pydict :=
  let* p := dict_pop "hadoop_version" data in
  let data := dict_set "version" (fst p) (snd p) in
  let* q := dict_pop "default_image_id" data in
  let data := dict_set "image" (fst q) (snd q) in
  let* ngs := getitem data "node_groups" in
  let* s := format_node_groups_list ngs in
  let data := dict_set "node_groups" (VStr s) data in
  let* aa := getitem data "anti_affinity" in
  let* fa := format_list aa in
  Ok (dict_set "anti_affinity" fa data).

(** [_format_cluster_output(data); data = utils.prepare_data(data, CLUSTER_FIELDS)] *)
Definition cluster_display (data : pydict) : result pydict :=
  let* d := format_cluster_output data in
  Ok (prepare_data d CLUSTER_FIELDS).

(** [osc_utils.read_blob_file_contents] then [json.loads]. *)
Definition load_json (path : string) : M value :=
  blob <- call (CReadBlob path) ;;
  s <- lift (as_str blob) ;;
  match json_loads s with
  | inl e => raise (CommandError (json_error_message path e))
  | inr t => ret t
  end.

(** ** CreateCluster.take_action *)

(** Up to the create call: the record it answers and the effective count.
    A JSON document that is not an object fails before the create call
    (on ['... ' in template], on [template.pop] or on [**template]). *)
Definition create_request (a : create_args) : M (pydict * value) :=
  if py_truthy (opt_str a.(ca_json)) then
    t <- load_json (match a.(ca_json) with Some p => p | None => "" end) ;;
    template <- lift (as_dict t) ;;
    let template := rename_network template in
    let count := match dict_get "count" template with
                 | Some c => c
                 | None => opt_int a.(ca_count)
                 end in
    r <- call (CCreate template) ;;
    data <- lift (to_dict r) ;;
    ret (data, count)
  else
    if negb (py_truthy (opt_str a.(ca_name)))
       || negb (py_truthy (opt_str a.(ca_cluster_template)))
       || negb (py_truthy (opt_str a.(ca_image)))
    then raise (CommandError create_missing_message)
    else
      ct <- call (CGetResource "cluster_templates" (opt_str a.(ca_cluster_template))) ;;
      plugin <- lift (getattr ct "plugin_name") ;;
      version <- lift (getattr ct "hadoop_version") ;;
      template_id <- lift (getattr ct "id") ;;
      image_id <- call (CGetResourceId "images" (opt_str a.(ca_image))) ;;
      net_id <- (if py_truthy (opt_str a.(ca_neutron_network))
                 then n <- call (CFindAttr "networks" (opt_str a.(ca_neutron_network))) ;;
                      lift (getitem_v n "id")
                 else ret VNone) ;;
      r <- call (CCreate [("name", opt_str a.(ca_name));
                          ("plugin_name", plugin);
                          ("hadoop_version", version);
                          ("cluster_template_id", template_id);
                          ("default_image_id", image_id);
                          ("description", opt_str a.(ca_description));
                          ("is_transient", VBool a.(ca_transient));
                          ("user_keypair_id", opt_str a.(ca_user_keypair));
                          ("net_id", net_id);
                          ("count", opt_int a.(ca_count));
                          ("is_public", VBool a.(ca_public));
                          ("is_protected", VBool a.(ca_protected))]) ;;
      data <- lift (to_dict r) ;;
      ret (data, opt_int a.(ca_count)).

(** [data = {}; for cluster in clusters: data[cluster.name] = cluster.id] *)
Fixpoint name_map_from (acc : list (value * value)) (clusters : list value)
  : result (list (value * value)) :=
  match clusters with
  | [] => Ok acc
  | cl :: cls =>
      let* i := getattr cl "id" in
      let* n := getattr cl "name" in
      let* acc := vdict_setitem n i acc in
      name_map_from acc cls
  end.

Definition name_map (clusters : list value) := name_map_from [] clusters.

(** The batch branch ([parsed_args.count > 1]). *)
Definition create_batch (wait : bool) (data : pydict) : M (list (value * value)) :=
  ids <- lift (let* c := getitem data "clusters" in iter_value c) ;;
  clusters <- mapM (fun id => call (CGetResource "clusters" id)) ids ;;
  (if wait then
     iterM (fun cl =>
              cid <- lift (getattr cl "id") ;;
              ok <- call (CWaitStatus cid) ;;
              if py_truthy ok then ret tt
              else x <- lift (getitem data "id") ;;
                   log_error "Error occurred during cluster creation: %s" x)
           clusters
   else ret tt) ;;;
  lift (name_map clusters).

(** The single-cluster branch. *)
Definition create_single (wait : bool) (data : pydict) : M (list (value * value)) :=
  data <- (if wait then
             did <- lift (getitem data "id") ;;
             ok <- call (CWaitStatus did) ;;
             (if py_truthy ok then ret tt
              else x <- lift (getitem data "id") ;;
                   log_error "Error occurred during cluster creation: %s" x) ;;;
             did <- lift (getitem data "id") ;;
             r <- call (CGet did) ;;
             lift (to_dict r)
           else ret data) ;;
  out <- lift (cluster_display data) ;;
  ret (keys_str out).

(** What [take_action] hands to [self.dict2columns]. *)
Definition create_take_action (a : create_args) : M (list (value * value)) :=
  p <- create_request a ;;
  let (data, count) := p in
  if py_truthy count then
    gt <- lift (py_gt1 count) ;;
    if gt then create_batch a.(ca_wait) data else create_single a.(ca_wait) data
  else create_single a.(ca_wait) data.

(** ** ListClusters.take_action: the column headers, the columns and the
    records; the rows themselves are a generator the host consumes. *)
Definition list_take_action (a : list_args)
  : M (list string * list string * value) :=
  let search_opts :=
    if py_truthy (opt_str a.(la_plugin))
    then dict_set "plugin_name" (opt_str a.(la_plugin)) [] else [] in
  let search_opts :=
    if py_truthy (opt_str a.(la_version))
    then dict_set "hadoop_version" (opt_str a.(la_version)) search_opts
    else search_opts in
  data <- call (CList search_opts) ;;
  data <- (if py_truthy (opt_str a.(la_name))
           then lift (get_by_name_substring data
                        (match a.(la_name) with Some n => n | None => "" end))
           else ret data) ;;
  let columns :=
    if a.(la_long)
    then ["name"; "id"; "plugin_name"; "hadoop_version"; "status";
          "description"; "default_image_id"]
    else ["name"; "id"; "plugin_name"; "hadoop_version"; "status"] in
  let column_headers :=
    prepare_column_headers columns
      [("hadoop_version", "version"); ("default_image_id", "image")] in
  ret (column_headers, columns, data).

(** ** ShowCluster.take_action *)
Definition show_take_action (cluster : string) : M (list (value * value)) :=
  r <- call (CGetResource "clusters" (VStr cluster)) ;;
  data <- lift (to_dict r) ;;
  out <- lift (cluster_display data) ;;
  ret (keys_str out).

(** ** DeleteCluster.take_action *)
Definition delete_take_action (a : delete_args) : M unit :=
  clusters <- mapM (fun cluster =>
                      cluster_id <- call (CGetResourceId "clusters" (VStr cluster)) ;;
                      call (CDelete cluster_id) ;;;
                      ret cluster_id) a.(da_cluster) ;;
  if a.(da_wait) then
    iterM (fun cluster_id =>
             ok <- call (CWaitDelete cluster_id) ;;
             if py_truthy ok then ret tt
             else log_error "Error occurred during cluster deleting: %s" cluster_id)
          clusters
  else ret tt.

(** ** UpdateCluster.take_action *)
Definition update_kwargs (a : update_args) : pydict :=
  [("name", opt_str a.(ua_name));
   ("description", opt_str a.(ua_description));
   ("is_public", opt_bool a.(ua_is_public));
   ("is_protected", opt_bool a.(ua_is_protected))].

Definition update_take_action (a : update_args) : M (list (value * value)) :=
  cluster_id <- call (CGetResourceId "clusters" (VStr a.(ua_cluster))) ;;
  r <- call (CUpdate cluster_id (update_kwargs a)) ;;
  c <- lift (getattr r "cluster") ;;
  data <- lift (as_dict c) ;;
  out <- lift (cluster_display data) ;;
  ret (keys_str out).

(** ** ScaleCluster.take_action *)

(** [int(count)] *)
Definition py_int_v (v : value) : result Z :=
  match v with
  | VStr s => match py_int s with
              | Some z => Ok z
              | None => Err (ValueError "invalid literal for int()")
              end
  | VInt z => Ok z
  | _ => Err TypeError
  end.

(** The loop over [scale_node_groups.items()], with the two lists it
    appends to. *)
Fixpoint scale_loop (cluster_node_groups : list value) (items : pydict)
    (add resize : list value) : M (list value * list value) :=
  match items with
  | [] => ret (add, resize)
  | (name, count) :: items' =>
      ng <- call (CGetResource "node_group_templates" (VStr name)) ;;
      ng_name <- lift (getattr ng "name") ;;
      if py_in ng_name cluster_node_groups then
        c <- lift (py_int_v count) ;;
        scale_loop cluster_node_groups items' add
          (resize ++ [VDict [("name", ng_name); ("count", VInt c)]])
      else
        ng_id <- lift (getattr ng "id") ;;
        c <- lift (py_int_v count) ;;
        scale_loop cluster_node_groups items'
          (add ++ [VDict [("node_group_template_id", ng_id);
                          ("name", ng_name); ("count", VInt c)]]) resize
  end.

Definition scale_take_action (a : scale_args) : M (list (value * value)) :=
  cluster <- call (CGetResource "clusters" (VStr a.(sa_cluster))) ;;
  data <- (if py_truthy (opt_str a.(sa_json)) then
             template <- load_json (match a.(sa_json) with Some p => p | None => "" end) ;;
             cid <- lift (getattr cluster "id") ;;
             r <- call (CScale cid template) ;;
             lift (to_dict r)
           else
             scale_node_groups <- lift (node_group_pairs a.(sa_node_groups)) ;;
             cluster_node_groups <- lift (cluster_node_group_names cluster) ;;
             lists <- scale_loop cluster_node_groups scale_node_groups [] [] ;;
             cid <- lift (getattr cluster "id") ;;
             r <- call (CScale cid (VDict (scale_object (fst lists) (snd lists)))) ;;
             c <- lift (getattr r "cluster") ;;
             lift (as_dict c)) ;;
  data <- (if a.(sa_wait) then
             did <- lift (getitem data "id") ;;
             ok <- call (CWaitStatus did) ;;
             (if py_truthy ok then ret tt
              else cid <- lift (getattr cluster "id") ;;
                   log_error "Error occurred during cluster scaling: %s" cid) ;;;
             cid <- lift (getattr cluster "id") ;;
             r <- call (CGet cid) ;;
             lift (to_dict r)
           else ret data) ;;
  out <- lift (cluster_display data) ;;
  ret (keys_str out).

End Commands.

(** ** UpdateCluster.get_parser

    The options of [cluster update] after the positional [cluster], as
    argparse reads them: [--public]/[--private] store into [is_public] and
    form a mutually exclusive group, as do [--protected]/[--unprotected]
    into [is_protected]; [parser.set_defaults(is_public=None,
    is_protected=None)].  A repeated option keeps its last value; an option
    of a group after the other option of the same group is an argparse
    error ([None]). *)
Inductive update_opt : Type :=
| OptName (s : string)
| OptDescription (s : string)
| OptPublic
| OptPrivate
| OptProtected
| OptUnprotected.

Definition with_name (a : update_args) (s : string) : update_args :=
  {| ua_cluster := a.(ua_cluster); ua_name := Some s;
     ua_description := a.(ua_description); ua_is_public := a.(ua_is_public);
     ua_is_protected := a.(ua_is_protected) |}.

Definition with_description (a : update_args) (s : string) : update_args :=
  {| ua_cluster := a.(ua_cluster); ua_name := a.(ua_name);
     ua_description := Some s; ua_is_public := a.(ua_is_public);
     ua_is_protected := a.(ua_is_protected) |}.

Definition with_public (a : update_args) (b : bool) : update_args :=
  {| ua_cluster := a.(ua_cluster); ua_name := a.(ua_name);
     ua_description := a.(ua_description); ua_is_public := Some b;
     ua_is_protected := a.(ua_is_protected) |}.

Definition with_protected (a : update_args) (b : bool) : update_args :=
  {| ua_cluster := a.(ua_cluster); ua_name := a.(ua_name);
     ua_description := a.(ua_description); ua_is_public := a.(ua_is_public);
     ua_is_protected := Some b |}.

(** [seen_public]/[seen_protected]: the option of each group met so far
    ([Some true] for [--public]/[--protected]). *)
Fixpoint parse_update_opts (opts : list update_opt) (a : update_args)
    (seen_public seen_protected : option bool) : option update_args :=
  match opts with
  | [] => Some a
  | OptName s :: opts' =>
      parse_update_opts opts' (with_name a s) seen_public seen_protected
  | OptDescription s :: opts' =>
      parse_update_opts opts' (with_description a s) seen_public seen_protected
  | OptPublic :: opts' =>
      match seen_public with
      | Some false => None
      | _ => parse_update_opts opts' (with_public a true) (Some true) seen_protected
      end
  | OptPrivate :: opts' =>
      match seen_public with
      | Some true => None
      | _ => parse_update_opts opts' (with_public a false) (Some false) seen_protected
      end
  | OptProtected :: opts' =>
      match seen_protected with
      | Some false => None
      | _ => parse_update_opts opts' (with_protected a true) seen_public (Some true)
      end
  | OptUnprotected :: opts' =>
      match seen_protected with
      | Some true => None
      | _ => parse_update_opts opts' (with_protected a false) seen_public (Some false)
      end
  end.

Definition update_defaults (cluster : string) : update_args :=
  {| ua_cluster := cluster; ua_name := None; ua_description := None;
     ua_is_public := None; ua_is_protected := None |}.

Definition parse_update (cluster : string) (opts : list update_opt)
  : option update_args :=
  parse_update_opts opts (update_defaults cluster) None None.

(** ** A concrete service and concrete Python builtins, used to run the
    commands on sample invocations. *)
Module Demo.

Fixpoint digits (fuel n : nat) : string :=
  match fuel with
  | O => ""
  | S f =>
      if Nat.ltb n 10 then String (ascii_of_nat (48 + n)) ""
      else digits f (Nat.div n 10) +++ String (ascii_of_nat (48 + Nat.modulo n 10)) ""
  end.

Definition z_str (z : Z) : string :=
  if z <? 0 then "-" +++ digits 20 (Z.to_nat (- z)) else digits 20 (Z.to_nat z).

Definition py_str (v : value) : string :=
  match v with
  | VStr s => s
  | VInt z => z_str z
  | VBool true => "True"
  | VBool false => "False"
  | VNone => "None"
  | _ => "[...]"
  end.

Definition format_list (v : value) : result value :=
  match v with
  | VNone => Ok VNone
  | VList l => Ok (VStr (String.concat ", " (map py_str l)))
  | _ => Err TypeError
  end.

Fixpoint parse_digits (s : string) (acc : Z) : option Z :=
  match s with
  | EmptyString => Some acc
  | String c s' =>
      let n := Z.of_nat (nat_of_ascii c) - 48 in
      if (0 <=? n) && (n <=? 9) then parse_digits s' (10 * acc + n) else None
  end.

Definition py_int (s : string) : option Z :=
  match s with EmptyString => None | _ => parse_digits s 0 end.

Definition json_loads (s : string) : string + value :=
  if String.eqb s "doc-count-2" then
    inr (VDict [("name", VStr "batch"); ("plugin_name", VStr "vanilla");
                ("count", VInt 2)])
  else if String.eqb s "doc-net" then
    inr (VDict [("name", VStr "one"); ("neutron_management_network", VStr "net-1");
                ("net_id", VStr "ignored")])
  else inl "Expecting value: line 1 column 1 (char 0)".

Definition get_by_name_substring (v : value) (_ : string) : result value := Ok v.

Definition prepare_column_headers (cols : list string) (_ : list (string * string))
  : list string := cols.

Definition node_groups_value : value :=
  VList [VDict [("name", VStr "master"); ("count", VInt 1)];
         VDict [("name", VStr "worker"); ("count", VInt 3)]].

Definition cluster_record : pydict :=
  [("id", VStr "cid-1"); ("name", VStr "demo"); ("status", VStr "Active");
   ("plugin_name", VStr "vanilla"); ("hadoop_version", VStr "2.7.1");
   ("default_image_id", VStr "img-1"); ("cluster_template_id", VStr "ct-1");
   ("node_groups", node_groups_value); ("anti_affinity", VList [VStr "worker"]);
   ("use_autoconfig", VBool true); ("user_keypair_id", VNone);
   ("is_transient", VBool false); ("is_protected", VBool false);
   ("description", VNone); ("is_public", VBool false);
   ("neutron_management_network", VStr "net-1")].

(** A cluster without a Neutron network (nova-network deployment): the
    record carries no [neutron_management_network] field. *)
Definition record_without_network : pydict :=
  dict_del "neutron_management_network" cluster_record.

Definition template_record : value :=
  VDict [("id", VStr "ct-1"); ("plugin_name", VStr "vanilla");
         ("hadoop_version", VStr "2.7.1")].

Definition is_batch (kw : pydict) : bool :=
  match dict_get "count" kw with Some (VInt z) => 1 <? z | _ => false end.

(** [wait_ok]: what the waiting helpers report; [name1], [name2]: the names
    of the two clusters of a batch; [found]: whether name-or-ID lookups of
    clusters succeed. *)
Definition world (wait_ok : bool) (name1 name2 : string) (found : bool) : oracle :=
  fun _ c =>
    match c with
    | CReadBlob p => Ok (VStr p)
    | CGetResource m r =>
        if String.eqb m "cluster_templates" then Ok template_record
        else if String.eqb m "node_group_templates" then
          match r with
          | VStr s => Ok (VDict [("id", VStr ("ngt-" +++ s)); ("name", VStr s)])
          | _ => Err (ApiError "not found")
          end
        else if negb found then Err (ApiError "Cluster not found")
        else if py_eqb r (VStr "c1") then Ok (VDict [("id", VStr "c1"); ("name", VStr name1)])
        else if py_eqb r (VStr "c2") then Ok (VDict [("id", VStr "c2"); ("name", VStr name2)])
        else Ok (VDict cluster_record)
    | CGetResourceId m r =>
        if String.eqb m "images" then Ok (VStr "img-1")
        else if found then
          match r with VStr s => Ok (VStr ("id-" +++ s)) | _ => Ok r end
        else Err (ApiError "Cluster not found")
    | CFindAttr _ _ => Ok (VDict [("id", VStr "net-1")])
    | CCreate kw =>
        if is_batch kw then Ok (VDict [("clusters", VList [VStr "c1"; VStr "c2"])])
        else Ok (VDict cluster_record)
    | CGet _ => Ok (VDict cluster_record)
    | CList _ => Ok (VList [VDict cluster_record])
    | CUpdate _ _ => Ok (VDict [("cluster", VDict cluster_record)])
    | CDelete _ => Ok VNone
    | CScale _ _ => Ok (VDict [("cluster", VDict cluster_record)])
    | CWaitStatus _ | CWaitDelete _ => Ok (VBool wait_ok)
    end.

Definition create_flags (count : option Z) (json : option string) (wait : bool)
  : create_args :=
  {| ca_name := Some "demo"; ca_cluster_template := Some "vanilla-tmpl";
     ca_image := Some "ubuntu"; ca_description := None; ca_user_keypair := None;
     ca_neutron_network := Some "private"; ca_count := count; ca_public := false;
     ca_protected := false; ca_transient := false; ca_json := json;
     ca_wait := wait |}.

Definition create (wd : oracle) (a : create_args) :=
  create_take_action wd json_loads py_str format_list a [].

(** [cluster create --name demo --cluster-template vanilla-tmpl
    --image ubuntu --neutron-network private --count 2 --wait] *)
Definition batch_wait_args : create_args := create_flags (Some 2%Z) None true.

(** The waiting helper reports failure for every cluster. *)
Definition failing_world : oracle := world false "demo-1" "demo-2" true.

Definition scale_json_args (path : string) : scale_args :=
  {| sa_cluster := "demo"; sa_node_groups := None; sa_json := Some path;
     sa_wait := false |}.

Definition scale (wd : oracle) (a : scale_args) :=
  scale_take_action wd json_loads py_str format_list py_int a [].

Definition json_error : string := "Expecting value: line 1 column 1 (char 0)".

Definition ok_world : oracle := world true "demo-1" "demo-2" true.

Definition update_demo_args : update_args :=
  {| ua_cluster := "demo"; ua_name := Some "renamed"; ua_description := None;
     ua_is_public := Some true; ua_is_protected := None |}.

(** [cluster scale demo --node-groups worker:4 edge:1 worker:5] *)
Definition scale_ng_args : scale_args :=
  {| sa_cluster := "demo"; sa_node_groups := Some ["worker:4"; "edge:1"; "worker:5"];
     sa_json := None; sa_wait := true |}.

Definition list_demo_args : list_args :=
  {| la_long := true; la_plugin := Some "vanilla"; la_version := None;
     la_name := Some "de" |}.

Definition delete_demo_args : delete_args :=
  {| da_cluster := ["c-a"; "c-b"]; da_wait := true |}.

End Demo.

(** ** Reading traces *)

Definition is_create (c : client_call) : bool :=
  match c with CCreate _ => true | _ => false end.
Definition is_update (c : client_call) : bool :=
  match c with CUpdate _ _ => true | _ => false end.
Definition is_scale (c : client_call) : bool :=
  match c with CScale _ _ => true | _ => false end.
Definition is_delete (c : client_call) : bool :=
  match c with CDelete _ => true | _ => false end.
Definition is_list (c : client_call) : bool :=
  match c with CList _ => true | _ => false end.
Definition any_call (c : client_call) : bool := true.

Definition count_calls (p : client_call -> bool) (tr : list event) : nat :=
  length (filter p (calls_of tr)).

(** The same world, with every failure a waiting helper reports turned into
    success. *)
Definition fix_waits (w : oracle) : oracle :=
  fun h c =>
    match c with
    | CWaitStatus _ | CWaitDelete _ =>
        match w h c with Ok _ => Ok (VBool true) | Err e => Err e end
    | _ => w h c
    end.

Definition ev_ok (P : client_call -> Prop) (e : event) : Prop :=
  match e with EvCall c _ => P c | EvLog _ _ => True end.

(** [m] only appends to the trace, and only calls satisfying [P]. *)
Definition appends_with {A} (P : client_call -> Prop) (m : M A) : Prop :=
  forall tr, exists t, fst (m tr) = tr ++ t /\ Forall (ev_ok P) t.

(** When [m] returns normally it has made exactly [n] calls satisfying [p]. *)
Definition counts {A} (p : client_call -> bool) (n : nat) (m : M A) : Prop :=
  forall tr tr' a, m tr = (tr', Ok a) -> exists t, tr' = tr ++ t /\ count_calls p t = n.

(** One [name:count] entry of [_format_node_groups_list]. *)
Definition node_group_entry (py_str : value -> string) (ng : value) (s : string) : Prop :=
  exists n c, getitem_v ng "name" = Ok n /\ getitem_v ng "count" = Ok c
              /\ s = py_str n +++ ":" +++ py_str c.

(** The four fields [_format_cluster_output] writes. *)
Definition reformatted_fields : list string :=
  ["version"; "image"; "node_groups"; "anti_affinity"].

(** The value of a normal return, [d] otherwise. *)
Definition ok_part {A} (r : result A) (d : A) : A :=
  match r with Ok a => a | Err _ => d end.

(** The events of [[utils.get_resource(client.clusters, id) for id in ids]]
    when they answer [clusters]. *)
Definition fetch_events (ids clusters : list value) : list event :=
  map (fun p => EvCall (CGetResource "clusters" (fst p)) (Ok (snd p)))
      (combine ids clusters).

(** The events of DeleteCluster's loop: for each argument, the lookup of
    its id, then the delete call on that id. *)
Fixpoint lookup_delete_events (names : list string) (ids rs : list value) : list event :=
  match names, ids, rs with
  | n :: ns, i :: is, r :: rs' =>
      EvCall (CGetResourceId "clusters" (VStr n)) (Ok i)
      :: EvCall (CDelete i) (Ok r) :: lookup_delete_events ns is rs'
  | _, _, _ => []
  end.

(** The fetches of the node-group templates named [names], answering
    [tpls]. *)
Definition template_fetches (names : list string) (tpls : list value) : list event :=
  map (fun p => EvCall (CGetResource "node_group_templates" (VStr (fst p))) (Ok (snd p)))
      (combine names tpls).

(** *** ScaleCluster's request in the words of the specification *)

(** The node-group names of [--node-groups name:count ...], each once, in
    the order of their first occurrence. *)
Definition distinct_names (ps : list (string * string)) : list string :=
  fold_left (fun acc p => if existsb (String.eqb (fst p)) acc then acc else acc ++ [fst p])
            ps [].

(** The count given by the last occurrence of [n]. *)
Definition last_value (ps : list (string * string)) (n : string) : string :=
  fold_left (fun acc p => if String.eqb (fst p) n then snd p else acc) ps "".

(** A resolved group [(template, count)]: [true] and the resize entry when
    the template's name is among the cluster's node groups, [false] and the
    add entry otherwise. *)
Definition group_entry (py_int : string -> option Z) (existing : list value)
    (g : value * value) : result (bool * value) :=
  let* nm := getattr (fst g) "name" in
  let* c := py_int_v py_int (snd g) in
  if py_in nm existing then Ok (true, VDict [("name", nm); ("count", VInt c)])
  else
    let* i := getattr (fst g) "id" in
    Ok (false, VDict [("node_group_template_id", i); ("name", nm); ("count", VInt c)]).

(** The request: the add entries under [add_node_groups] and the resize
    entries under [resize_node_groups], a list left out when empty. *)
Definition claimed_scale_object (py_int : string -> option Z) (existing : list value)
    (groups : list (value * value)) : result pydict :=
  let* es := rmapM (group_entry py_int existing) groups in
  let add := map snd (filter (fun e => negb (fst e)) es) in
  let resize := map snd (filter fst es) in
  Ok ((match add with [] => [] | _ => [("add_node_groups", VList add)] end)
      ++ (match resize with [] => [] | _ => [("resize_node_groups", VList resize)] end)).

(** Which field of UpdateCluster's arguments an option sets. *)
Definition sets_name (o : update_opt) : bool :=
  match o with OptName _ => true | _ => false end.

Definition sets_description (o : update_opt) : bool :=
  match o with OptDescription _ => true | _ => false end.

Definition sets_public (o : update_opt) : bool :=
  match o with OptPublic | OptPrivate => true | _ => false end.

Definition sets_protected (o : update_opt) : bool :=
  match o with OptProtected | OptUnprotected => true | _ => false end.

(** ** Further readings of the code *)

(** The lookups CreateCluster makes from its flags: the cluster template,
    the image and the network. *)
Definition is_flag_lookup (c : client_call) : bool :=
  match c with
  | CGetResource m _ => String.eqb m "cluster_templates"
  | CGetResourceId m _ => String.eqb m "images"
  | CFindAttr _ _ => true
  | _ => false
  end.

Definition is_wait_delete (c : client_call) : bool :=
  match c with CWaitDelete _ => true | _ => false end.

Definition is_wait (c : client_call) : bool :=
  match c with CWaitStatus _ | CWaitDelete _ => true | _ => false end.

(** [m] returns normally and makes no call (it may log). *)
Definition quiet (m : M unit) : Prop :=
  forall tr, exists t, m tr = (t, Ok tt) /\ calls_of t = calls_of tr.

(** The events of DeleteCluster's [--wait] loop when the waits on [ids]
    report [oks]: each wait, followed by an error line when it failed. *)
Fixpoint delete_wait_events (ids oks : list value) : list event :=
  match ids, oks with
  | i :: is, ok :: oks' =>
      EvCall (CWaitDelete i) (Ok ok)
      :: (if py_truthy ok then [] else [EvLog "Error occurred during cluster deleting: %s" i])
      ++ delete_wait_events is oks'
  | _, _ => []
  end.

(** Two runs of a computation, the second in a world whose waits never
    fail ([fix_waits]), started from traces with the same calls: they make
    the same calls and end with the same outcome, which satisfies [Q]. *)
Definition same_outcome {A} (Q : A -> Prop) (m1 m2 : M A) : Prop :=
  forall tr1 tr2, calls_of tr1 = calls_of tr2 ->
    calls_of (fst (m1 tr1)) = calls_of (fst (m2 tr2))
    /\ snd (m1 tr1) = snd (m2 tr2)
    /\ (forall a, snd (m1 tr1) = Ok a -> Q a).

(** The value the last of the options [opts] that sets a field gives it,
    [d] when none does. *)
Definition last_set {A} (f : update_opt -> option A) (opts : list update_opt)
    (d : option A) : option A :=
  fold_left (fun acc o => match f o with Some x => Some x | None => acc end) opts d.

Definition name_of (o : update_opt) : option string :=
  match o with OptName s => Some s | _ => None end.

Definition description_of (o : update_opt) : option string :=
  match o with OptDescription s => Some s | _ => None end.

Definition public_of (o : update_opt) : option bool :=
  match o with OptPublic => Some true | OptPrivate => Some false | _ => None end.

Definition protected_of (o : update_opt) : option bool :=
  match o with OptProtected => Some true | OptUnprotected => Some false | _ => None end.

(** * Properties *)

Local Open Scope nat_scope.

Section Infrastructure.

Variable w : oracle.

Lemma call_eq (c : client_call) (tr : list event) :
  call w c tr = (tr ++ [EvCall c (w (calls_of tr) c)], w (calls_of tr) c).
Proof. reflexivity. Qed.

Lemma bind_inv {A B} (m : M A) (f : A -> M B) tr tr'' r :
  bind m f tr = (tr'', r) ->
  (exists tr' a, m tr = (tr', Ok a) /\ f a tr' = (tr'', r)) \/
  (exists e, m tr = (tr'', Err e) /\ r = Err e).
Proof.
  unfold bind. destruct (m tr) as [tr' [a|e]].
  - intros H. left. eauto.
  - intros H. inversion H; subst. right. eauto.
Qed.

Lemma calls_of_app (t1 t2 : list event) :
  calls_of (t1 ++ t2) = calls_of t1 ++ calls_of t2.
Proof.
  induction t1 as [|[c r|f v] t1 IH]; simpl; auto. rewrite IH; auto.
Qed.

Lemma count_calls_app p (t1 t2 : list event) :
  count_calls p (t1 ++ t2) = count_calls p t1 + count_calls p t2.
Proof.
  unfold count_calls. rewrite calls_of_app, filter_app, length_app. reflexivity.
Qed.

(** *** [appends_with] *)

Lemma aw_ret {A} P (a : A) : appends_with P (ret a).
Proof. intros tr. exists []. rewrite app_nil_r. auto. Qed.

Lemma aw_raise {A} P e : appends_with P (@raise A e).
Proof. intros tr. exists []. rewrite app_nil_r. auto. Qed.

Lemma aw_lift {A} P (r : result A) : appends_with P (lift r).
Proof. intros tr. exists []. rewrite app_nil_r. auto. Qed.

Lemma aw_log P fmt v : appends_with P (log_error fmt v).
Proof. intros tr. exists [EvLog fmt v]. split; [reflexivity|]. repeat constructor. Qed.

Lemma aw_call (P : client_call -> Prop) c : P c -> appends_with P (call w c).
Proof. intros Hc tr. eexists. split; [reflexivity|]. constructor; simpl; auto. Qed.

Lemma aw_bind {A B} P (m : M A) (f : A -> M B) :
  appends_with P m -> (forall a, appends_with P (f a)) -> appends_with P (bind m f).
Proof.
  intros Hm Hf tr. unfold bind. destruct (Hm tr) as [t1 [E1 F1]].
  destruct (m tr) as [tr1 [a|e]] eqn:Em; simpl in E1; subst tr1.
  - destruct (Hf a (tr ++ t1)) as [t2 [E2 F2]]. exists (t1 ++ t2).
    rewrite E2, app_assoc. split; auto. apply Forall_app; auto.
  - exists t1. auto.
Qed.

Lemma aw_mapM {A B} P (f : A -> M B) (l : list A) :
  (forall x, appends_with P (f x)) -> appends_with P (mapM f l).
Proof.
  intros Hf. induction l as [|x l IH]; simpl.
  - apply aw_ret.
  - apply aw_bind; auto. intros y. apply aw_bind; auto. intros; apply aw_ret.
Qed.

Lemma aw_iterM {A} P (f : A -> M unit) (l : list A) :
  (forall x, appends_with P (f x)) -> appends_with P (iterM f l).
Proof.
  intros Hf. induction l as [|x l IH]; simpl.
  - apply aw_ret.
  - apply aw_bind; auto.
Qed.

Lemma aw_if {A} P (b : bool) (m1 m2 : M A) :
  appends_with P m1 -> appends_with P m2 -> appends_with P (if b then m1 else m2).
Proof. destruct b; auto. Qed.

(** *** [counts] *)

Lemma counts_ret {A} p (a : A) : counts p 0 (ret a).
Proof. intros tr tr' a' H. inversion H; subst. exists []. rewrite app_nil_r. auto. Qed.

Lemma counts_raise {A} p n e : counts p n (@raise A e).
Proof. intros tr tr' a H. discriminate H. Qed.

Lemma counts_lift {A} p (r : result A) : counts p 0 (lift r).
Proof. intros tr tr' a H. inversion H; subst. exists []. rewrite app_nil_r. auto. Qed.

Lemma counts_log p fmt v : counts p 0 (log_error fmt v).
Proof.
  intros tr tr' a H. inversion H; subst. exists [EvLog fmt v]. auto.
Qed.

Lemma counts_call p c : counts p (if p c then 1 else 0)%nat (call w c).
Proof.
  intros tr tr' a H. inversion H; subst. eexists. split; [reflexivity|].
  unfold count_calls. simpl. destruct (p c); reflexivity.
Qed.

Lemma counts_bind {A B} p n k (m : M A) (f : A -> M B) :
  counts p n m -> (forall a, counts p k (f a)) -> counts p (n + k) (bind m f).
Proof.
  intros Hm Hf tr tr'' b H. apply bind_inv in H.
  destruct H as [(tr1 & a & E1 & E2)|(e & E1 & E2)]; [|discriminate E2].
  destruct (Hm _ _ _ E1) as [t1 [-> C1]].
  destruct (Hf _ _ _ _ E2) as [t2 [-> C2]].
  exists (t1 ++ t2). rewrite app_assoc, count_calls_app. auto.
Qed.

Lemma counts_if {A} p n (b : bool) (m1 m2 : M A) :
  counts p n m1 -> counts p n m2 -> counts p n (if b then m1 else m2).
Proof. destruct b; auto. Qed.

Lemma counts_mapM {A B} p k (f : A -> M B) (l : list A) :
  (forall x, counts p k (f x)) -> counts p (k * length l) (mapM f l).
Proof.
  intros Hf. induction l as [|x l IH]; simpl.
  - rewrite Nat.mul_0_r. apply counts_ret.
  - replace (k * S (length l))%nat with (k + (k * length l + 0))%nat by lia.
    apply counts_bind; auto. intros y. apply counts_bind; auto.
    intros; apply counts_ret.
Qed.

Lemma counts_iterM0 {A} p (f : A -> M unit) (l : list A) :
  (forall x, counts p 0 (f x)) -> counts p 0 (iterM f l).
Proof.
  intros Hf. induction l as [|x l IH]; simpl.
  - apply counts_ret.
  - change 0%nat with (0 + 0)%nat. apply counts_bind; auto.
Qed.


Lemma counts_eq {A} p n n' (m : M A) : counts p n m -> n = n' -> counts p n' m.
Proof. intros H <-. exact H. Qed.

Lemma count_calls_none p (t : list event) :
  Forall (ev_ok (fun c => p c = false)) t -> count_calls p t = 0.
Proof.
  unfold count_calls. induction 1 as [|[c r|f v] t Hx Ht IH]; simpl in *; auto.
  rewrite Hx. exact IH.
Qed.

Lemma counts_of_aw {A} p (m : M A) :
  appends_with (fun c => p c = false) m -> counts p 0 m.
Proof.
  intros H tr tr' a E. destruct (H tr) as [t [Et Ft]].
  rewrite E in Et. simpl in Et. exists t. split; auto.
  apply count_calls_none; auto.
Qed.

Lemma aw_weaken {A} (P Q : client_call -> Prop) (m : M A) :
  (forall c, P c -> Q c) -> appends_with P m -> appends_with Q m.
Proof.
  intros HPQ H tr. destruct (H tr) as [t [Et Ft]]. exists t. split; auto.
  eapply Forall_impl; [|exact Ft]. intros [c r|f v]; simpl; auto.
Qed.

Lemma aw_scale_loop (P : client_call -> Prop) pi existing items add resize :
  (forall r, P (CGetResource "node_group_templates" r)) ->
  appends_with P (scale_loop w pi existing items add resize).
Proof.
  intros HP. revert add resize.
  induction items as [|[name count] items IH]; intros add resize; simpl.
  - apply aw_ret.
  - apply aw_bind; [apply aw_call; auto|intros ng].
    apply aw_bind; [apply aw_lift|intros n].
    destruct (py_in n existing).
    + apply aw_bind; [apply aw_lift|intros c]. apply IH.
    + apply aw_bind; [apply aw_lift|intros i].
      apply aw_bind; [apply aw_lift|intros c]. apply IH.
Qed.

End Infrastructure.

Lemma truthy_opt_str_some (p : string) :
  p <> "" -> py_truthy (opt_str (Some p)) = true.
Proof. intros H. simpl. destruct (String.eqb_spec p ""); [congruence|reflexivity]. Qed.

Ltac aw_step :=
  match goal with
  | |- appends_with _ (bind _ _) => apply aw_bind; [|intro]
  | |- appends_with _ (call _ _) => apply aw_call; hnf; first [exact I | reflexivity]
  | |- appends_with _ (ret _) => apply aw_ret
  | |- appends_with _ (raise _) => apply aw_raise
  | |- appends_with _ (lift _) => apply aw_lift
  | |- appends_with _ (log_error _ _) => apply aw_log
  | |- appends_with _ (mapM _ _) => apply aw_mapM; intro
  | |- appends_with _ (iterM _ _) => apply aw_iterM; intro
  | |- appends_with _ (if _ then _ else _) => apply aw_if
  | |- appends_with _ (scale_loop _ _ _ _ _ _) =>
      apply aw_scale_loop; intro; hnf; first [exact I | reflexivity]
  | |- appends_with _ (load_json _ _ _) => unfold load_json
  | |- appends_with _ (create_batch _ _ _) => unfold create_batch
  | |- appends_with _ (create_single _ _ _ _ _) => unfold create_single
  | |- appends_with _ (match ?x with _ => _ end) => destruct x
  | |- appends_with _ (let _ := _ in _) => cbv zeta
  end.

Ltac aw := repeat aw_step.

Ltac cnt_step :=
  match goal with
  | |- counts _ _ (bind (call _ _) _) =>
      first [ apply (counts_bind _ 1 0); [apply counts_call | intro; apply counts_of_aw; aw]
            | apply (counts_bind _ 0 _); [apply counts_call | intro] ]
  | |- counts _ _ (bind _ _) => apply (counts_bind _ 0 _); [apply counts_of_aw; aw | intro]
  | |- counts _ _ (call _ _) => apply counts_call
  | |- counts _ _ (if _ then _ else _) => apply counts_if
  | |- counts _ _ (let _ := _ in _) => cbv zeta
  | |- counts _ _ (raise _) => apply counts_raise
  | |- counts _ _ (match ?x with _ => _ end) => destruct x
  end.

Ltac cnt := repeat cnt_step.

(** ** C1: argument-validation failures *)

(** C1 (amended).  [CreateCluster] without a (non-empty) [--json] and with
    one of [--name], [--cluster-template], [--image] missing or empty raises
    the [CommandError] before any call; [CreateCluster --json f] whose file
    reads as invalid JSON raises a [CommandError] naming [f] right after the
    file read, before any create call; [ScaleCluster --json f] does the same
    after its cluster lookup, provided that lookup succeeded. *)
Theorem validation_errors_raise_command_error :
  (forall w jl ps fl (a : create_args),
      py_truthy (opt_str a.(ca_json)) = false ->
      py_truthy (opt_str a.(ca_name)) = false
      \/ py_truthy (opt_str a.(ca_cluster_template)) = false
      \/ py_truthy (opt_str a.(ca_image)) = false ->
      create_take_action w jl ps fl a [] = ([], Err (CommandError create_missing_message)))
  /\
  (forall w jl ps fl (a : create_args) path blob e,
      a.(ca_json) = Some path -> path <> "" ->
      w [] (CReadBlob path) = Ok (VStr blob) ->
      jl blob = inl e ->
      create_take_action w jl ps fl a [] =
        ([EvCall (CReadBlob path) (Ok (VStr blob))],
         Err (CommandError (json_error_message path e))))
  /\
  (forall w jl ps fl pi (a : scale_args) path cl blob e,
      a.(sa_json) = Some path -> path <> "" ->
      w [] (CGetResource "clusters" (VStr a.(sa_cluster))) = Ok cl ->
      w [CGetResource "clusters" (VStr a.(sa_cluster))] (CReadBlob path) = Ok (VStr blob) ->
      jl blob = inl e ->
      scale_take_action w jl ps fl pi a [] =
        ([EvCall (CGetResource "clusters" (VStr a.(sa_cluster))) (Ok cl);
          EvCall (CReadBlob path) (Ok (VStr blob))],
         Err (CommandError (json_error_message path e)))).
Proof.
  split; [|split].
  - intros w jl ps fl a Hj Hmiss.
    unfold create_take_action, create_request. rewrite Hj.
    assert (Hc : negb (py_truthy (opt_str a.(ca_name)))
                 || negb (py_truthy (opt_str a.(ca_cluster_template)))
                 || negb (py_truthy (opt_str a.(ca_image))) = true).
    { destruct Hmiss as [H|[H|H]]; rewrite H; simpl; rewrite ?orb_true_r;
        reflexivity. }
    rewrite Hc. reflexivity.
  - intros w jl ps fl a path blob e Hj Hp Hw He.
    unfold create_take_action, create_request, load_json.
    rewrite Hj, (truthy_opt_str_some path Hp).
    unfold bind at 1 2 3. rewrite call_eq. simpl calls_of. rewrite Hw.
    unfold bind, lift, raise, ret; simpl; rewrite He; reflexivity.
  - intros w jl ps fl pi a path cl blob e Hj Hp Hcl Hw He.
    unfold scale_take_action, load_json.
    rewrite Hj, (truthy_opt_str_some path Hp).
    unfold bind at 1. rewrite call_eq. simpl calls_of. rewrite Hcl. simpl.
    unfold bind at 1 2 3 4. rewrite call_eq. simpl calls_of. rewrite Hw.
    unfold bind, lift, raise, ret; simpl; rewrite He; reflexivity.
Qed.

Lemma validation_errors_raise_command_error_witness :
  create_take_action (Demo.world true "a" "b" true) Demo.json_loads Demo.py_str
    Demo.format_list
    {| ca_name := Some "demo"; ca_cluster_template := None; ca_image := Some "ubuntu";
       ca_description := None; ca_user_keypair := None; ca_neutron_network := None;
       ca_count := None; ca_public := false; ca_protected := false;
       ca_transient := false; ca_json := None; ca_wait := false |} []
    = ([], Err (CommandError create_missing_message))
  /\ Demo.create (Demo.world true "a" "b" true) (Demo.create_flags None (Some "bad.json") false)
     = ([EvCall (CReadBlob "bad.json") (Ok (VStr "bad.json"))],
        Err (CommandError (json_error_message "bad.json" Demo.json_error)))
  /\ Demo.scale (Demo.world true "a" "b" true) (Demo.scale_json_args "bad.json")
     = ([EvCall (CGetResource "clusters" (VStr "demo")) (Ok (VDict Demo.cluster_record));
         EvCall (CReadBlob "bad.json") (Ok (VStr "bad.json"))],
        Err (CommandError (json_error_message "bad.json" Demo.json_error))).
Proof.
  split; [|split].
  - apply (proj1 validation_errors_raise_command_error); [reflexivity|].
    right; left; reflexivity.
  - apply (proj1 (proj2 validation_errors_raise_command_error));
      [reflexivity | discriminate | reflexivity | reflexivity].
  - apply (proj2 (proj2 validation_errors_raise_command_error));
      [reflexivity | discriminate | reflexivity | reflexivity | reflexivity].
Defined.

(** C1 (as stated, refuted).  [ScaleCluster --json bad.json] on a cluster
    the lookup does not find: the file holds invalid JSON, yet the error
    raised is the lookup's, not a [CommandError] naming the file. *)
Lemma scale_invalid_json_lookup_error_first :
  Demo.world true "a" "b" false [] (CReadBlob "bad.json") = Ok (VStr "bad.json")
  /\ Demo.json_loads "bad.json" = inl Demo.json_error
  /\ Demo.scale (Demo.world true "a" "b" false) (Demo.scale_json_args "bad.json")
     = ([EvCall (CGetResource "clusters" (VStr "demo")) (Err (ApiError "Cluster not found"))],
        Err (ApiError "Cluster not found")).
Proof. split; [|split]; vm_compute; reflexivity. Qed.

(** ** C2, C8: a failed wait in a batch creation *)

(** C2 (code defect).  With [--count 2 --wait], a wait that reports
    failure makes [CreateCluster] raise [KeyError('id')], where the same
    service with successful waits returns the name-to-id table. *)
Theorem create_batch_failed_wait_escalates :
  snd (Demo.create Demo.failing_world Demo.batch_wait_args) = Err (KeyError "id")
  /\ snd (Demo.create (fix_waits Demo.failing_world) Demo.batch_wait_args)
     = Ok [(VStr "demo-1", VStr "c1"); (VStr "demo-2", VStr "c2")].
Proof. split; vm_compute; reflexivity. Qed.

(** C8 (code defect).  The multi-cluster create answer carries [clusters]
    and no [id]; after the first wait reports failure the error branch's
    [data['id']] raises [KeyError('id')] before any error line is logged. *)
Theorem create_batch_error_branch_reads_missing_id :
  let res := Demo.create Demo.failing_world Demo.batch_wait_args in
  (exists kw, In (EvCall (CCreate kw)
                   (Ok (VDict [("clusters", VList [VStr "c1"; VStr "c2"])]))) (fst res))
  /\ dict_get "id" [("clusters", VList [VStr "c1"; VStr "c2"])] = None
  /\ In (EvCall (CWaitStatus (VStr "c1")) (Ok (VBool false))) (fst res)
  /\ (forall fmt v, ~ In (EvLog fmt v) (fst res))
  /\ snd res = Err (KeyError "id").
Proof.
  vm_compute. split; [|split; [|split; [|split]]].
  - eexists. right; right; right; left; reflexivity.
  - reflexivity.
  - right; right; right; right; right; right; left; reflexivity.
  - intros fmt v H. repeat destruct H as [H|H]; try discriminate H; exact H.
  - reflexivity.
Qed.

(** C7 (as stated, refuted).  [cluster delete c-a c-b] makes two
    [clusters.delete] calls. *)
Lemma delete_two_clusters_two_calls :
  let res := delete_take_action (Demo.world true "a" "b" true)
               {| da_cluster := ["c-a"; "c-b"]; da_wait := false |} [] in
  count_calls is_delete (fst res) = 2 /\ snd res = Ok tt.
Proof. vm_compute. split; reflexivity. Qed.

(** ** C7: the action calls of each command *)

(** C7 (amended).  On a normal return, [CreateCluster], [UpdateCluster]
    and [ScaleCluster] have made exactly one create, update or scale call
    (also with [--count] above 1 and with [--wait]); [ShowCluster] and
    [ListClusters] have made exactly one call in all; [DeleteCluster] has
    made one delete call per positional cluster argument. *)
Theorem action_calls_per_command :
  (forall w jl ps fl a tr out,
      create_take_action w jl ps fl a [] = (tr, Ok out) -> count_calls is_create tr = 1)
  /\ (forall w ps fl a tr out,
      update_take_action w ps fl a [] = (tr, Ok out) -> count_calls is_update tr = 1)
  /\ (forall w jl ps fl pi a tr out,
      scale_take_action w jl ps fl pi a [] = (tr, Ok out) -> count_calls is_scale tr = 1)
  /\ (forall w ps fl c tr out,
      show_take_action w ps fl c [] = (tr, Ok out) -> count_calls any_call tr = 1)
  /\ (forall w gbn pch a tr out,
      list_take_action w gbn pch a [] = (tr, Ok out) -> count_calls any_call tr = 1)
  /\ (forall w a tr u,
      delete_take_action w a [] = (tr, Ok u) -> count_calls is_delete tr = length a.(da_cluster)).
Proof.
  split; [|split; [|split; [|split; [|split]]]].
  - intros w jl ps fl a tr out H.
    assert (C : counts is_create 1 (create_take_action w jl ps fl a)).
    { unfold create_take_action. apply (counts_bind _ 1 0).
      - unfold create_request. cnt.
      - intros [data count]. apply counts_of_aw. aw. }
    destruct (C [] tr out H) as [t [-> Ht]]. exact Ht.
  - intros w ps fl a tr out H.
    assert (C : counts is_update 1 (update_take_action w ps fl a)).
    { unfold update_take_action. cnt. }
    destruct (C [] tr out H) as [t [-> Ht]]. exact Ht.
  - intros w jl ps fl pi a tr out H.
    assert (C : counts is_scale 1 (scale_take_action w jl ps fl pi a)).
    { unfold scale_take_action. apply (counts_bind _ 0 1); [apply counts_call|intros cl].
      apply (counts_bind _ 1 0).
      - cnt.
      - intros data. apply counts_of_aw. aw. }
    destruct (C [] tr out H) as [t [-> Ht]]. exact Ht.
  - intros w ps fl c tr out H.
    assert (C : counts any_call 1 (show_take_action w ps fl c)).
    { unfold show_take_action. cnt. }
    destruct (C [] tr out H) as [t [-> Ht]]. exact Ht.
  - intros w gbn pch a tr out H.
    assert (C : counts any_call 1 (list_take_action w gbn pch a)).
    { unfold list_take_action. cnt. }
    destruct (C [] tr out H) as [t [-> Ht]]. exact Ht.
  - intros w a tr u H.
    assert (C : counts is_delete (length a.(da_cluster)) (delete_take_action w a)).
    { unfold delete_take_action.
      apply (counts_eq _ (1 * length a.(da_cluster) + 0)); [|lia].
      apply counts_bind.
      - apply counts_mapM. intros x. cnt.
      - intros ids. apply counts_of_aw. aw. }
    destruct (C [] tr u H) as [t [-> Ht]]. exact Ht.
Qed.

Lemma action_calls_per_command_witness :
  count_calls is_create (fst (Demo.create Demo.ok_world Demo.batch_wait_args)) = 1
  /\ count_calls is_update
       (fst (update_take_action Demo.ok_world Demo.py_str Demo.format_list
               Demo.update_demo_args [])) = 1
  /\ count_calls is_scale (fst (Demo.scale Demo.ok_world Demo.scale_ng_args)) = 1
  /\ count_calls any_call
       (fst (show_take_action Demo.ok_world Demo.py_str Demo.format_list "demo" [])) = 1
  /\ count_calls any_call
       (fst (list_take_action Demo.ok_world Demo.get_by_name_substring
               Demo.prepare_column_headers Demo.list_demo_args [])) = 1
  /\ count_calls is_delete
       (fst (delete_take_action Demo.ok_world Demo.delete_demo_args [])) = 2.
Proof.
  split; [|split; [|split; [|split; [|split]]]].
  - apply (proj1 action_calls_per_command Demo.ok_world Demo.json_loads Demo.py_str
             Demo.format_list Demo.batch_wait_args _
             (ok_part (snd (Demo.create Demo.ok_world Demo.batch_wait_args)) [])).
    vm_compute. reflexivity.
  - apply (proj1 (proj2 action_calls_per_command) Demo.ok_world Demo.py_str
             Demo.format_list Demo.update_demo_args _
             (ok_part (snd (update_take_action Demo.ok_world Demo.py_str Demo.format_list
                              Demo.update_demo_args [])) [])).
    vm_compute. reflexivity.
  - apply (proj1 (proj2 (proj2 action_calls_per_command)) Demo.ok_world Demo.json_loads
             Demo.py_str Demo.format_list Demo.py_int Demo.scale_ng_args _
             (ok_part (snd (Demo.scale Demo.ok_world Demo.scale_ng_args)) [])).
    vm_compute. reflexivity.
  - apply (proj1 (proj2 (proj2 (proj2 action_calls_per_command))) Demo.ok_world
             Demo.py_str Demo.format_list "demo" _
             (ok_part (snd (show_take_action Demo.ok_world Demo.py_str Demo.format_list
                              "demo" [])) [])).
    vm_compute. reflexivity.
  - apply (proj1 (proj2 (proj2 (proj2 (proj2 action_calls_per_command)))) Demo.ok_world
             Demo.get_by_name_substring Demo.prepare_column_headers Demo.list_demo_args _
             (ok_part (snd (list_take_action Demo.ok_world Demo.get_by_name_substring
                              Demo.prepare_column_headers Demo.list_demo_args []))
                      ([], [], VNone))).
    vm_compute. reflexivity.
  - apply (proj2 (proj2 (proj2 (proj2 (proj2 action_calls_per_command)))) Demo.ok_world
             Demo.delete_demo_args _ tt).
    vm_compute. reflexivity.
Defined.

(** ** Dict lemmas *)

Lemma dict_get_set k k' v d :
  dict_get k' (dict_set k v d) = if String.eqb k' k then Some v else dict_get k' d.
Proof.
  induction d as [|[k0 v0] d IH]; simpl.
  - destruct (String.eqb k' k); reflexivity.
  - destruct (String.eqb_spec k k0) as [->|Hne]; simpl.
    + destruct (String.eqb k' k0); reflexivity.
    + rewrite IH. destruct (String.eqb_spec k' k) as [->|]; auto.
      destruct (String.eqb_spec k k0); congruence.
Qed.

Lemma dict_get_del k k' d :
  dict_get k' (dict_del k d) = if String.eqb k' k then None else dict_get k' d.
Proof.
  unfold dict_del. induction d as [|[k0 v0] d IH]; simpl.
  - destruct (String.eqb k' k); reflexivity.
  - destruct (String.eqb_spec k k0) as [->|Hne]; simpl.
    + rewrite IH. destruct (String.eqb_spec k' k0) as [->|]; auto.
    + rewrite IH. destruct (String.eqb_spec k' k0) as [->|]; auto.
      destruct (String.eqb_spec k0 k); congruence.
Qed.

Lemma dict_get_prepare f d fs :
  dict_get f (prepare_data d fs) = if existsb (String.eqb f) fs then dict_get f d else None.
Proof.
  induction fs as [|f0 fs IH]; simpl; auto.
  destruct (dict_get f0 d) eqn:E; simpl.
  - destruct (String.eqb_spec f f0) as [->|]; simpl; auto.
  - rewrite IH. destruct (String.eqb_spec f f0) as [->|]; simpl; auto.
    rewrite E. destruct (existsb _ fs); auto.
Qed.

Lemma keys_prepare d fs :
  map fst (prepare_data d fs) = filter (fun f => dict_in f d) fs.
Proof.
  induction fs as [|f fs IH]; simpl; auto.
  unfold dict_in at 1. destruct (dict_get f d); simpl; congruence.
Qed.

Lemma rmapM_ok {A B} (f : A -> result B) l ys :
  rmapM f l = Ok ys -> Forall2 (fun x y => f x = Ok y) l ys.
Proof.
  revert ys. induction l as [|x l IH]; simpl; intros ys H.
  - inversion H; constructor.
  - destruct (f x) as [y|e] eqn:E; [|discriminate]. simpl in H.
    destruct (rmapM f l) as [ys'|e] eqn:E'; [|discriminate]. simpl in H.
    inversion H; subst. constructor; auto.
Qed.

Lemma format_node_groups_list_ok ps ngs s :
  format_node_groups_list ps ngs = Ok s ->
  exists l strs, iter_value ngs = Ok l /\ Forall2 (node_group_entry ps) l strs
                 /\ s = String.concat ", " strs.
Proof.
  unfold format_node_groups_list. intros H.
  destruct (iter_value ngs) as [l|e]; [|discriminate]. simpl in H.
  destruct (rmapM _ l) as [strs|e] eqn:E; [|discriminate]. simpl in H.
  inversion H; subst. exists l, strs. split; [reflexivity|split; [|reflexivity]].
  apply rmapM_ok in E. eapply Forall2_impl; [|exact E].
  intros ng str Hng. unfold node_group_entry. cbv beta in Hng.
  destruct (getitem_v ng "name") as [n|e]; simpl in Hng; [|discriminate].
  destruct (getitem_v ng "count") as [c|e]; simpl in Hng; [|discriminate].
  inversion Hng. eauto.
Qed.

Lemma dict_pop_ok k d v d' :
  dict_pop k d = Ok (v, d') -> dict_get k d = Some v /\ d' = dict_del k d.
Proof.
  unfold dict_pop. destruct (dict_get k d); intros H; inversion H; auto.
Qed.

Lemma getitem_ok d k v : getitem d k = Ok v -> dict_get k d = Some v.
Proof. unfold getitem. destruct (dict_get k d); intros H; inversion H; auto. Qed.

Lemma filter_ext_in' {A} (p q : A -> bool) l :
  (forall a, In a l -> p a = q a) -> filter p l = filter q l.
Proof.
  induction l as [|a l IH]; simpl; intros H; auto.
  rewrite (H a (or_introl eq_refl)). rewrite IH; auto.
Qed.

Lemma filter_all_in {A} (p : A -> bool) l :
  (forall a, In a l -> p a = true) -> filter p l = l.
Proof.
  induction l as [|a l IH]; simpl; intros H; auto.
  rewrite (H a (or_introl eq_refl)). rewrite IH; auto.
Qed.

Arguments prepare_data : simpl never.

Ltac dget_in H :=
  repeat (first [rewrite dict_get_prepare in H|rewrite dict_get_set in H
                |rewrite dict_get_del in H]; simpl in H).

Ltac dget :=
  repeat progress (rewrite ?dict_get_prepare, ?dict_get_set, ?dict_get_del); simpl.

(** ** C4: reshaping a cluster record for display *)

(** C4 (amended).  When [_format_cluster_output] and [prepare_data]
    succeed on a cluster record, the output carries the record's
    [hadoop_version] as [version] and its [default_image_id] as [image],
    [node_groups] as the [", "]-joined [name:count] strings of the list in
    order, [anti_affinity] passed through [format_list], every other
    whitelisted field unchanged; its fields are exactly the fields of
    [CLUSTER_FIELDS] the reshaped record has, in [CLUSTER_FIELDS] order, so
    all of [CLUSTER_FIELDS] exactly when the record has every whitelisted
    field besides the four reformatted ones. *)
Theorem cluster_display_whitelist (ps : value -> string) (fl : value -> result value)
    (data out : pydict) :
  cluster_display ps fl data = Ok out ->
  (exists v, dict_get "hadoop_version" data = Some v /\ dict_get "version" out = Some v)
  /\ (exists i, dict_get "default_image_id" data = Some i /\ dict_get "image" out = Some i)
  /\ (exists ngs l strs, dict_get "node_groups" data = Some ngs /\ iter_value ngs = Ok l
       /\ Forall2 (node_group_entry ps) l strs
       /\ dict_get "node_groups" out = Some (VStr (String.concat ", " strs)))
  /\ (exists aa fa, dict_get "anti_affinity" data = Some aa /\ fl aa = Ok fa
       /\ dict_get "anti_affinity" out = Some fa)
  /\ (forall f, In f CLUSTER_FIELDS -> ~ In f reformatted_fields ->
       dict_get f out = dict_get f data)
  /\ (forall f, ~ In f CLUSTER_FIELDS -> dict_get f out = None)
  /\ map fst out = filter (fun f => existsb (String.eqb f) reformatted_fields
                                    || dict_in f data) CLUSTER_FIELDS
  /\ ((forall f, In f CLUSTER_FIELDS -> ~ In f reformatted_fields -> dict_in f data = true) ->
      map fst out = CLUSTER_FIELDS).
Proof.
  intros H. unfold cluster_display, format_cluster_output in H.
  destruct (dict_pop "hadoop_version" data) as [[v d1]|e] eqn:E1;
    cbn [rbind fst snd] in H; [|discriminate].
  destruct (dict_pop "default_image_id" (dict_set "version" v d1)) as [[i d3]|e] eqn:E2;
    cbn [rbind fst snd] in H; [|discriminate].
  destruct (getitem (dict_set "image" i d3) "node_groups") as [ngs|e] eqn:E3;
    cbn [rbind fst snd] in H; [|discriminate].
  destruct (format_node_groups_list ps ngs) as [s|e] eqn:E4;
    cbn [rbind fst snd] in H; [|discriminate].
  destruct (getitem (dict_set "node_groups" (VStr s) (dict_set "image" i d3)) "anti_affinity")
    as [aa|e] eqn:E5; cbn [rbind fst snd] in H; [|discriminate].
  destruct (fl aa) as [fa|e] eqn:E6; cbn [rbind fst snd] in H; [|discriminate].
  injection H as H. subst out.
  apply dict_pop_ok in E1. destruct E1 as [Ehv ->].
  apply dict_pop_ok in E2. destruct E2 as [Edi ->].
  apply getitem_ok in E3. apply getitem_ok in E5.
  dget_in Edi. dget_in E3. dget_in E5.
  (* every whitelisted field of the reshaped record *)
  assert (Hin : forall f, In f CLUSTER_FIELDS ->
    dict_in f (dict_set "anti_affinity" fa (dict_set "node_groups" (VStr s)
      (dict_set "image" i (dict_del "default_image_id"
        (dict_set "version" v (dict_del "hadoop_version" data))))))
    = existsb (String.eqb f) reformatted_fields || dict_in f data).
  { intros f Hf. unfold dict_in. simpl in Hf.
    repeat destruct Hf as [<-|Hf]; try contradiction; dget; reflexivity. }
  split; [|split; [|split; [|split; [|split; [|split; [|split]]]]]].
  - exists v. split; [exact Ehv|]. dget. reflexivity.
  - exists i. split; [exact Edi|]. dget. reflexivity.
  - destruct (format_node_groups_list_ok _ _ _ E4) as (l & strs & Hl & Hf & ->).
    exists ngs, l, strs. split; [exact E3|]. split; [exact Hl|]. split; [exact Hf|].
    dget. reflexivity.
  - exists aa, fa. split; [exact E5|]. split; [exact E6|]. dget. reflexivity.
  - intros f Hf Hn. simpl in Hf.
    repeat destruct Hf as [<-|Hf]; try contradiction;
      try (exfalso; apply Hn; simpl; tauto); dget; reflexivity.
  - intros f Hf. rewrite dict_get_prepare.
    destruct (existsb (String.eqb f) CLUSTER_FIELDS) eqn:Ex; [|reflexivity].
    exfalso. apply Hf. apply existsb_exists in Ex. destruct Ex as [x [Hx Exf]].
    apply String.eqb_eq in Exf. subst x. exact Hx.
  - rewrite keys_prepare. apply filter_ext_in'. exact Hin.
  - intros Hall. rewrite keys_prepare. apply filter_all_in.
    intros f Hf. rewrite (Hin f Hf).
    destruct (existsb (String.eqb f) reformatted_fields) eqn:Ex; [reflexivity|].
    simpl. apply Hall; [exact Hf|]. intros Hr.
    assert (existsb (String.eqb f) reformatted_fields = true) as Ht.
    { apply existsb_exists. exists f. split; [exact Hr|apply String.eqb_refl]. }
    congruence.
Qed.

Lemma cluster_display_whitelist_witness :
  cluster_display Demo.py_str Demo.format_list Demo.cluster_record
    = Ok (ok_part (cluster_display Demo.py_str Demo.format_list Demo.cluster_record) [])
  /\ map fst (ok_part (cluster_display Demo.py_str Demo.format_list Demo.cluster_record) [])
     = CLUSTER_FIELDS.
Proof.
  assert (H : cluster_display Demo.py_str Demo.format_list Demo.cluster_record
    = Ok (ok_part (cluster_display Demo.py_str Demo.format_list Demo.cluster_record) [])).
  { vm_compute. reflexivity. }
  split; [exact H|].
  apply (proj2 (proj2 (proj2 (proj2 (proj2 (proj2 (proj2
           (cluster_display_whitelist _ _ _ _ H)))))))).
  intros f Hf Hn. simpl in Hf.
  repeat destruct Hf as [<-|Hf]; try contradiction;
    try (exfalso; apply Hn; simpl; tauto); vm_compute; reflexivity.
Defined.

(** C4 counterexample: a displayed record that lacks a whitelisted field
    (here a cluster without [neutron_management_network]) is shown without
    it, so the output does not carry every field of [CLUSTER_FIELDS]. *)
Lemma display_omits_absent_whitelisted_field :
  exists out,
    cluster_display Demo.py_str Demo.format_list Demo.record_without_network = Ok out
    /\ In "neutron_management_network" CLUSTER_FIELDS
    /\ ~ In "neutron_management_network" (map fst out).
Proof.
  eexists. split; [vm_compute; reflexivity|].
  split; [simpl; tauto|].
  simpl. intuition discriminate.
Qed.

(** ** Stepping through a normal return *)

Lemma call_ok w c tr tr' a :
  call w c tr = (tr', Ok a) -> tr' = tr ++ [EvCall c (Ok a)] /\ w (calls_of tr) c = Ok a.
Proof. unfold call. intros H. injection H as <- E. rewrite E. auto. Qed.

Lemma lift_ok {A} (r : result A) tr tr' a : lift r tr = (tr', Ok a) -> tr' = tr /\ r = Ok a.
Proof. unfold lift. intros H. injection H as <- ->. auto. Qed.

Lemma ret_ok {A} (x : A) tr tr' a : ret x tr = (tr', Ok a) -> tr' = tr /\ x = a.
Proof. unfold ret. intros H. injection H as <- ->. auto. Qed.

Lemma aw_ext {A} P (m : M A) tr tr' r :
  appends_with P m -> m tr = (tr', r) -> exists t, tr' = tr ++ t.
Proof. intros Hm E. destruct (Hm tr) as [t [Et _]]. rewrite E in Et. simpl in Et. eauto. Qed.

Ltac bstep H E :=
  let Hr := fresh "Hr" in
  apply bind_inv in H; destruct H as [(?t & ?x & E & H)|(? & _ & Hr)]; [|discriminate Hr].

Ltac bstepn H E t x :=
  let Hr := fresh "Hr" in
  apply bind_inv in H; destruct H as [(t & x & E & H)|(? & _ & Hr)]; [|discriminate Hr].

Ltac extn E p :=
  apply (aw_ext (fun _ => True)) in E;
  [destruct E as [p E]; rewrite <- ?app_assoc in E; subst | aw].

Ltac ext E :=
  apply (aw_ext (fun _ => True)) in E;
  [let p := fresh "p" in destruct E as [p E]; rewrite <- ?app_assoc in E; subst | aw].

Lemma mapM_fetch_ok w ids tr tr' cls :
  mapM (fun id => call w (CGetResource "clusters" id)) ids tr = (tr', Ok cls) ->
  length cls = length ids /\ tr' = tr ++ fetch_events ids cls.
Proof.
  revert tr tr' cls. induction ids as [|id ids IH]; simpl; intros tr tr' cls H.
  - apply ret_ok in H. destruct H as [-> <-]. rewrite app_nil_r. auto.
  - bstep H E1. apply call_ok in E1. destruct E1 as [-> _].
    bstep H E2. apply IH in E2. destruct E2 as [Hl ->].
    apply ret_ok in H. destruct H as [-> <-]. simpl. split; [congruence|].
    rewrite <- app_assoc. reflexivity.
Qed.

Lemma create_request_ok w jl a tr tr1 data count :
  create_request w jl a tr = (tr1, Ok (data, count)) ->
  exists pre kw rv, tr1 = tr ++ pre ++ [EvCall (CCreate kw) (Ok rv)]
    /\ to_dict rv = Ok data
    /\ count = match dict_get "count" kw with Some c => c | None => opt_int a.(ca_count) end.
Proof.
  unfold create_request. intros H.
  destruct (py_truthy (opt_str (ca_json a))).
  - bstep H E1. ext E1.
    bstep H E2. ext E2. cbv beta zeta in H.
    bstep H E3. apply call_ok in E3. destruct E3 as [-> _].
    bstep H E4. apply lift_ok in E4. destruct E4 as [-> E4].
    apply ret_ok in H. destruct H as [-> Hp]. injection Hp as <- <-.
    eexists _, _, _. split; [rewrite <- app_assoc; reflexivity|]. split; [exact E4|reflexivity].
  - destruct (negb _ || _ || _); [unfold raise in H; discriminate H|].
    bstep H E1. ext E1. bstep H E2. ext E2. bstep H E3. ext E3. bstep H E4. ext E4.
    bstep H E5. ext E5. bstep H E6. ext E6.
    bstep H E7. apply call_ok in E7. destruct E7 as [-> _].
    bstep H E8. apply lift_ok in E8. destruct E8 as [-> E8].
    apply ret_ok in H. destruct H as [-> Hp]. injection Hp as <- <-.
    eexists _, _, _. split; [rewrite <- app_assoc; reflexivity|]. split; [exact E8|reflexivity].
Qed.

Lemma create_single_ok w ps fl wait data tr tr' out :
  create_single w ps fl wait data tr = (tr', Ok out) ->
  exists d o, cluster_display ps fl d = Ok o /\ out = keys_str o.
Proof.
  unfold create_single. intros H.
  bstep H E1. bstep H E2. apply lift_ok in E2. destruct E2 as [_ E2].
  apply ret_ok in H. destruct H as [_ <-]. eauto.
Qed.

(** ** C3: the batch branch of CreateCluster *)

(** C3 (amended).  On a normal return of [CreateCluster.take_action], the
    effective count is the create payload's ['count'] when it has one and
    [--count] otherwise.  When that count is truthy and above 1, the
    clusters named by the ids of the answer's ['clusters'] are fetched one
    per id, in order, right after the create call, and the result is
    [name_map] of them: the name-to-id dict, where a later cluster with the
    name of an earlier one overwrites its entry; the single-cluster
    reshaping is not used.  Otherwise the result is a reshaped
    single-cluster table. *)
Theorem create_count_branches w jl ps fl a tr tr' out :
  create_take_action w jl ps fl a tr = (tr', Ok out) ->
  exists tr1 pre kw rv data count,
    tr1 = tr ++ pre ++ [EvCall (CCreate kw) (Ok rv)] /\ to_dict rv = Ok data
    /\ count = match dict_get "count" kw with Some c => c | None => opt_int a.(ca_count) end
    /\ (py_truthy count = true -> py_gt1 count = Ok true ->
        exists ids clusters rest,
          (let* c := getitem data "clusters" in iter_value c) = Ok ids
          /\ length clusters = length ids
          /\ tr' = tr1 ++ fetch_events ids clusters ++ rest
          /\ name_map clusters = Ok out)
    /\ (py_truthy count = false \/ py_gt1 count = Ok false ->
        exists d o, cluster_display ps fl d = Ok o /\ out = keys_str o).
Proof.
  unfold create_take_action. intros H.
  bstep H E1. destruct x as [data count].
  destruct (create_request_ok _ _ _ _ _ _ _ E1) as (pre & kw & rv & Et & Hd & Hc).
  exists t, pre, kw, rv, data, count.
  split; [exact Et|]. split; [exact Hd|]. split; [exact Hc|].
  cbv beta iota in H. clear Et E1.
  split.
  - intros Ht Hg. rewrite Ht in H.
    bstep H E2. apply lift_ok in E2. destruct E2 as [-> E2]. rewrite Hg in E2.
    injection E2 as <-. unfold create_batch in H.
    bstep H E3. apply lift_ok in E3. destruct E3 as [-> E3].
    bstep H E4. apply mapM_fetch_ok in E4. destruct E4 as [Hl ->].
    bstep H E5. apply (aw_ext (fun _ => True)) in E5; [|aw]. destruct E5 as [rest ->].
    apply lift_ok in H. destruct H as [-> H].
    exists x, x0, rest. split; [exact E3|]. split; [exact Hl|].
    split; [rewrite <- app_assoc; reflexivity|exact H].
  - intros Hb. destruct (py_truthy count).
    + destruct Hb as [Hb|Hb]; [discriminate Hb|].
      bstep H E2. apply lift_ok in E2. destruct E2 as [-> E2]. rewrite Hb in E2.
      injection E2 as <-. eapply create_single_ok. exact H.
    + eapply create_single_ok. exact H.
Qed.

(** C3 counterexample: [cluster create ... --count 2] whose two clusters
    [c1] and [c2] both come back named [a]: both ids are fetched, and the
    result holds one entry. *)
Lemma batch_same_name_single_entry :
  let r := Demo.create (Demo.world true "a" "a" true)
                       (Demo.create_flags (Some 2%Z) None false) in
  skipn 4 (fst r)
    = fetch_events [VStr "c1"; VStr "c2"]
        [VDict [("id", VStr "c1"); ("name", VStr "a")];
         VDict [("id", VStr "c2"); ("name", VStr "a")]]
  /\ snd r = Ok [(VStr "a", VStr "c2")].
Proof. vm_compute. split; reflexivity. Qed.

Lemma create_count_branches_witness :
  let a := Demo.create_flags (Some 2%Z) None false in
  let r := Demo.create Demo.ok_world a in
  create_take_action Demo.ok_world Demo.json_loads Demo.py_str Demo.format_list a []
    = (fst r, Ok (ok_part (snd r) []))
  /\ exists tr1 pre kw rv data count,
    tr1 = [] ++ pre ++ [EvCall (CCreate kw) (Ok rv)] /\ to_dict rv = Ok data
    /\ count = match dict_get "count" kw with Some c => c | None => opt_int a.(ca_count) end
    /\ (py_truthy count = true -> py_gt1 count = Ok true ->
        exists ids clusters rest,
          (let* c := getitem data "clusters" in iter_value c) = Ok ids
          /\ length clusters = length ids
          /\ fst r = tr1 ++ fetch_events ids clusters ++ rest
          /\ name_map clusters = Ok (ok_part (snd r) []))
    /\ (py_truthy count = false \/ py_gt1 count = Ok false ->
        exists d o, cluster_display Demo.py_str Demo.format_list d = Ok o
                    /\ ok_part (snd r) [] = keys_str o).
Proof.
  intros a r.
  assert (H : create_take_action Demo.ok_world Demo.json_loads Demo.py_str Demo.format_list a []
                = (fst r, Ok (ok_part (snd r) []))).
  { vm_compute. reflexivity. }
  split; [exact H|].
  exact (create_count_branches _ _ _ _ _ _ _ _ H).
Defined.

(** ** C5: the JSON document is the create payload *)

Lemma in_bind_cases {A B} (m : M A) (f : A -> M B) tr ev :
  In ev (fst (bind m f tr)) ->
  In ev (fst (m tr)) \/ exists tr1 a, m tr = (tr1, Ok a) /\ In ev (fst (f a tr1)).
Proof. unfold bind. destruct (m tr) as [tr1 [a|e]]; simpl; eauto. Qed.

Lemma in_aw {A} P (m : M A) tr c rr :
  appends_with P m -> In (EvCall c rr) (fst (m tr)) -> In (EvCall c rr) tr \/ P c.
Proof.
  intros Hm Hin. destruct (Hm tr) as [t [Et Ft]]. rewrite Et in Hin.
  apply in_app_or in Hin. destruct Hin as [Hin|Hin]; [left; exact Hin|right].
  rewrite Forall_forall in Ft. exact (Ft _ Hin).
Qed.

Lemma load_json_ok w jl p tr tr' t :
  load_json w jl p tr = (tr', Ok t) ->
  exists blob, w (calls_of tr) (CReadBlob p) = Ok (VStr blob) /\ jl blob = inr t
               /\ tr' = tr ++ [EvCall (CReadBlob p) (Ok (VStr blob))].
Proof.
  unfold load_json. intros H.
  bstep H E1. apply call_ok in E1. destruct E1 as [-> E1].
  bstep H E2. apply lift_ok in E2. destruct E2 as [-> E2].
  destruct x; try discriminate E2. injection E2 as <-.
  destruct (jl s) as [e|t'] eqn:Ej; [unfold raise in H; discriminate H|].
  apply ret_ok in H. destruct H as [-> <-]. eauto.
Qed.

Lemma create_request_json_creates w jl a p tr kw rr :
  a.(ca_json) = Some p -> p <> "" ->
  In (EvCall (CCreate kw) rr) (fst (create_request w jl a tr)) ->
  In (EvCall (CCreate kw) rr) tr
  \/ exists blob doc, w (calls_of tr) (CReadBlob p) = Ok (VStr blob)
                     /\ jl blob = inr (VDict doc) /\ kw = rename_network doc.
Proof.
  intros Hj Hp Hin. unfold create_request in Hin.
  rewrite Hj, (truthy_opt_str_some p Hp) in Hin.
  apply in_bind_cases in Hin.
  destruct Hin as [Hin|(tr2 & t & E2 & Hin)].
  { apply (in_aw (fun c => is_create c = false)) in Hin; [|aw].
    destruct Hin as [Hin|Hin]; [left; exact Hin|discriminate Hin]. }
  destruct (load_json_ok _ _ _ _ _ _ E2) as (blob & Eb & Ej & ->).
  assert (Hback : In (EvCall (CCreate kw) rr)
                     (tr ++ [EvCall (CReadBlob p) (Ok (VStr blob))]) ->
                  In (EvCall (CCreate kw) rr) tr).
  { intros H. apply in_app_or in H. destruct H as [H|[H|[]]]; [exact H|discriminate H]. }
  apply in_bind_cases in Hin.
  destruct Hin as [Hin|(tr3 & d & E3 & Hin)]; [left; exact (Hback Hin)|].
  apply lift_ok in E3. destruct E3 as [-> E3].
  destruct t; try discriminate E3. injection E3 as ->.
  cbv beta zeta in Hin. apply in_bind_cases in Hin.
  destruct Hin as [Hin|(tr4 & r0 & E4 & Hin)].
  - unfold call in Hin. simpl in Hin. apply in_app_or in Hin.
    destruct Hin as [Hin|[Hin|[]]]; [left; exact (Hback Hin)|].
    injection Hin as Hk _. right. exists blob, d. split; [exact Eb|split; [exact Ej|congruence]].
  - apply call_ok in E4. destruct E4 as [-> _].
    apply (in_aw (fun c => is_create c = false)) in Hin; [|aw].
    destruct Hin as [Hin|Hin]; [|discriminate Hin].
    apply in_app_or in Hin. destruct Hin as [Hin|[Hin|[]]]; [left; exact (Hback Hin)|].
    injection Hin as Hk _. right. exists blob, d. split; [exact Eb|split; [exact Ej|congruence]].
Qed.

(** C5.  [CreateCluster --json f] with a non-empty [f]: the run does not
    depend on [--name], [--cluster-template], [--image], [--description],
    [--user-keypair], [--neutron-network], [--public], [--protected] and
    [--transient] (two invocations that agree on [--json], [--count] and
    [--wait] behave identically), and every create call it makes carries
    the parsed document read from [f], with [neutron_management_network]
    renamed to [net_id]. *)
Theorem json_overrides_flags w jl ps fl a a' p tr :
  a.(ca_json) = Some p -> p <> "" ->
  a'.(ca_json) = a.(ca_json) -> a'.(ca_count) = a.(ca_count) -> a'.(ca_wait) = a.(ca_wait) ->
  create_take_action w jl ps fl a' tr = create_take_action w jl ps fl a tr
  /\ forall kw rr,
       In (EvCall (CCreate kw) rr) (fst (create_take_action w jl ps fl a tr)) ->
       In (EvCall (CCreate kw) rr) tr
       \/ exists blob doc, w (calls_of tr) (CReadBlob p) = Ok (VStr blob)
                           /\ jl blob = inr (VDict doc) /\ kw = rename_network doc.
Proof.
  intros Hj Hp Hj' Hc Hw. split.
  - unfold create_take_action, create_request.
    rewrite Hj', Hc, Hw, Hj, (truthy_opt_str_some p Hp). reflexivity.
  - intros kw rr Hin. unfold create_take_action in Hin.
    apply in_bind_cases in Hin. destruct Hin as [Hin|(tr1 & pr & E & Hin)].
    + exact (create_request_json_creates _ _ _ _ _ _ _ Hj Hp Hin).
    + cbv beta in Hin.
      apply (in_aw (fun c => is_create c = false)) in Hin; [|aw].
      destruct Hin as [Hin|Hin]; [|discriminate Hin].
      apply (create_request_json_creates w jl a p tr kw rr Hj Hp).
      rewrite E. exact Hin.
Qed.

Lemma json_overrides_flags_witness :
  let a := Demo.create_flags None (Some "doc-net") false in
  let a' := {| ca_name := None; ca_cluster_template := Some "other-tmpl";
               ca_image := None; ca_description := Some "ignored";
               ca_user_keypair := Some "key"; ca_neutron_network := None;
               ca_count := None; ca_public := true; ca_protected := true;
               ca_transient := true; ca_json := Some "doc-net"; ca_wait := false |} in
  create_take_action Demo.ok_world Demo.json_loads Demo.py_str Demo.format_list a' []
    = create_take_action Demo.ok_world Demo.json_loads Demo.py_str Demo.format_list a []
  /\ forall kw rr,
       In (EvCall (CCreate kw) rr)
          (fst (create_take_action Demo.ok_world Demo.json_loads Demo.py_str
                  Demo.format_list a [])) ->
       In (EvCall (CCreate kw) rr) []
       \/ exists blob doc, Demo.ok_world (calls_of []) (CReadBlob "doc-net") = Ok (VStr blob)
                           /\ Demo.json_loads blob = inr (VDict doc)
                           /\ kw = rename_network doc.
Proof.
  intros a a'.
  apply (json_overrides_flags Demo.ok_world Demo.json_loads Demo.py_str Demo.format_list
           a a' "doc-net" []); [reflexivity|discriminate|reflexivity|reflexivity|reflexivity].
Defined.

(** ** C6: name-or-ID lookups come before the acting call *)

Lemma mapM_delete_ok w names tr tr' ids :
  mapM (fun cluster =>
          cluster_id <- call w (CGetResourceId "clusters" (VStr cluster)) ;;
          call w (CDelete cluster_id) ;;;
          ret cluster_id) names tr = (tr', Ok ids) ->
  exists rs, length ids = length names /\ length rs = length names
             /\ tr' = tr ++ lookup_delete_events names ids rs.
Proof.
  revert tr tr' ids. induction names as [|n ns IH]; simpl; intros tr tr' ids H.
  - apply ret_ok in H. destruct H as [-> <-]. exists []. rewrite app_nil_r. auto.
  - bstep H E1. bstep E1 E11. apply call_ok in E11. destruct E11 as [-> _].
    bstep E1 E12. apply call_ok in E12. destruct E12 as [-> _].
    apply ret_ok in E1. destruct E1 as [-> <-].
    bstep H E2. apply IH in E2. destruct E2 as (rs & Hl & Hr & ->).
    apply ret_ok in H. destruct H as [-> <-].
    exists (x1 :: rs). simpl. split; [congruence|]. split; [congruence|].
    rewrite <- !app_assoc. reflexivity.
Qed.

Lemma create_request_flags_ok w jl a tr tr1 p :
  py_truthy (opt_str a.(ca_json)) = false ->
  create_request w jl a tr = (tr1, Ok p) ->
  exists ct iid pl ver tid pre kw rv,
    tr1 = tr ++ [EvCall (CGetResource "cluster_templates" (opt_str a.(ca_cluster_template))) (Ok ct);
                 EvCall (CGetResourceId "images" (opt_str a.(ca_image))) (Ok iid)]
             ++ pre ++ [EvCall (CCreate kw) (Ok rv)]
    /\ getattr ct "plugin_name" = Ok pl /\ getattr ct "hadoop_version" = Ok ver
    /\ getattr ct "id" = Ok tid
    /\ dict_get "plugin_name" kw = Some pl /\ dict_get "hadoop_version" kw = Some ver
    /\ dict_get "cluster_template_id" kw = Some tid /\ dict_get "default_image_id" kw = Some iid.
Proof.
  unfold create_request. intros Hf H. rewrite Hf in H.
  destruct (negb _ || _ || _); [unfold raise in H; discriminate H|].
  bstep H E1. apply call_ok in E1. destruct E1 as [-> _].
  bstep H E2. apply lift_ok in E2. destruct E2 as [-> E2].
  bstep H E3. apply lift_ok in E3. destruct E3 as [-> E3].
  bstep H E4. apply lift_ok in E4. destruct E4 as [-> E4].
  bstep H E5. apply call_ok in E5. destruct E5 as [-> _].
  bstep H E6. ext E6.
  bstep H E7. apply call_ok in E7. destruct E7 as [-> _].
  bstep H E8. apply lift_ok in E8. destruct E8 as [-> _].
  apply ret_ok in H. destruct H as [-> _].
  exists x, x3, x0, x1, x2, p0. eexists _, x5.
  split; [rewrite <- !app_assoc; reflexivity|].
  repeat split; first [assumption | reflexivity].
Qed.

Lemma aw_split {A} P (m : M A) tr tr' r :
  appends_with P m -> m tr = (tr', r) -> exists t, tr' = tr ++ t /\ Forall (ev_ok P) t.
Proof. intros Hm E. destruct (Hm tr) as [t [Et Ft]]. rewrite E in Et. simpl in Et. eauto. Qed.

Lemma update_ok w ps fl a tr tr' out :
  update_take_action w ps fl a tr = (tr', Ok out) ->
  exists cid r, tr' = tr ++ [EvCall (CGetResourceId "clusters" (VStr a.(ua_cluster))) (Ok cid);
                            EvCall (CUpdate cid (update_kwargs a)) (Ok r)].
Proof.
  unfold update_take_action. intros H.
  bstepn H E1 t1 cid. apply call_ok in E1. destruct E1 as [-> _].
  bstepn H E2 t2 r. apply call_ok in E2. destruct E2 as [-> _].
  bstep H E3. apply lift_ok in E3. destruct E3 as [-> _].
  bstep H E4. apply lift_ok in E4. destruct E4 as [-> _].
  bstep H E5. apply lift_ok in E5. destruct E5 as [-> _].
  apply ret_ok in H. destruct H as [-> _].
  exists cid, r. rewrite <- app_assoc. reflexivity.
Qed.

Lemma scale_ok w jl ps fl pi a tr tr' out :
  scale_take_action w jl ps fl pi a tr = (tr', Ok out) ->
  exists cl cid o r pre post,
    tr' = tr ++ [EvCall (CGetResource "clusters" (VStr a.(sa_cluster))) (Ok cl)]
             ++ pre ++ [EvCall (CScale cid o) (Ok r)] ++ post
    /\ getattr cl "id" = Ok cid.
Proof.
  unfold scale_take_action. intros H.
  bstepn H E1 t1 cl. apply call_ok in E1. destruct E1 as [-> _].
  bstepn H E2 t2 data.
  assert (HS : exists cid o r pre,
            t2 = tr ++ [EvCall (CGetResource "clusters" (VStr a.(sa_cluster))) (Ok cl)]
                    ++ pre ++ [EvCall (CScale cid o) (Ok r)]
            /\ getattr cl "id" = Ok cid).
  { destruct (py_truthy (opt_str (sa_json a))).
    - bstepn E2 F1 u1 tpl. extn F1 q1.
      bstepn E2 F2 u2 cid. apply lift_ok in F2. destruct F2 as [-> F2].
      bstepn E2 F3 u3 r. apply call_ok in F3. destruct F3 as [-> _].
      apply lift_ok in E2. destruct E2 as [-> _].
      exists cid, tpl, r, q1. split; [rewrite <- !app_assoc; reflexivity|exact F2].
    - bstepn E2 F1 u1 sng. apply lift_ok in F1. destruct F1 as [-> _].
      bstepn E2 F2 u2 cng. apply lift_ok in F2. destruct F2 as [-> _].
      bstepn E2 F3 u3 lists. extn F3 q3.
      bstepn E2 F4 u4 cid. apply lift_ok in F4. destruct F4 as [-> F4].
      bstepn E2 F5 u5 r. apply call_ok in F5. destruct F5 as [-> _].
      bstepn E2 F6 u6 c. apply lift_ok in F6. destruct F6 as [-> _].
      apply lift_ok in E2. destruct E2 as [-> _].
      exists cid, (VDict (scale_object (fst lists) (snd lists))), r, q3.
      split; [rewrite <- !app_assoc; reflexivity|exact F4]. }
  destruct HS as (cid & o & r & pre & -> & Hc).
  bstepn H E3 t3 d3. extn E3 post.
  bstepn H E4 t4 o4. apply lift_ok in E4. destruct E4 as [-> _].
  apply ret_ok in H. destruct H as [-> _].
  exists cl, cid, o, r, pre, post. split; [rewrite <- ?app_assoc; reflexivity|exact Hc].
Qed.

(** C6.  On a normal return: DeleteCluster looks each positional argument
    up with [get_resource_id] and deletes the id it got, argument after
    argument, with no other delete call; CreateCluster without [--json]
    fetches the cluster template and looks up the image before the create
    call, whose payload carries the template's [plugin_name],
    [hadoop_version] and [id] and the image's id; UpdateCluster looks the
    cluster up first and updates the id it got; ScaleCluster fetches the
    cluster first and scales that cluster's [id]. *)
Theorem lookups_before_action :
  (forall w a tr tr' u,
     delete_take_action w a tr = (tr', Ok u) ->
     exists ids rs rest,
       length ids = length a.(da_cluster) /\ length rs = length a.(da_cluster)
       /\ tr' = tr ++ lookup_delete_events a.(da_cluster) ids rs ++ rest
       /\ Forall (ev_ok (fun c => is_delete c = false)) rest)
  /\ (forall w jl ps fl a tr tr' out,
       py_truthy (opt_str a.(ca_json)) = false ->
       create_take_action w jl ps fl a tr = (tr', Ok out) ->
       exists ct iid pl ver tid pre kw rv post,
         tr' = tr ++ [EvCall (CGetResource "cluster_templates"
                                (opt_str a.(ca_cluster_template))) (Ok ct);
                      EvCall (CGetResourceId "images" (opt_str a.(ca_image))) (Ok iid)]
                  ++ pre ++ [EvCall (CCreate kw) (Ok rv)] ++ post
         /\ getattr ct "plugin_name" = Ok pl /\ getattr ct "hadoop_version" = Ok ver
         /\ getattr ct "id" = Ok tid
         /\ dict_get "plugin_name" kw = Some pl /\ dict_get "hadoop_version" kw = Some ver
         /\ dict_get "cluster_template_id" kw = Some tid
         /\ dict_get "default_image_id" kw = Some iid)
  /\ (forall w ps fl a tr tr' out,
       update_take_action w ps fl a tr = (tr', Ok out) ->
       exists cid r,
         tr' = tr ++ [EvCall (CGetResourceId "clusters" (VStr a.(ua_cluster))) (Ok cid);
                      EvCall (CUpdate cid (update_kwargs a)) (Ok r)])
  /\ (forall w jl ps fl pi a tr tr' out,
       scale_take_action w jl ps fl pi a tr = (tr', Ok out) ->
       exists cl cid o r pre post,
         tr' = tr ++ [EvCall (CGetResource "clusters" (VStr a.(sa_cluster))) (Ok cl)]
                  ++ pre ++ [EvCall (CScale cid o) (Ok r)] ++ post
         /\ getattr cl "id" = Ok cid).
Proof.
  split; [|split; [|split]].
  - intros w a tr tr' u H. unfold delete_take_action in H.
    bstepn H E1 t1 ids. apply mapM_delete_ok in E1. destruct E1 as (rs & Hl & Hr & ->).
    cbv beta in H. apply (aw_split (fun c => is_delete c = false)) in H; [|aw].
    destruct H as [rest [-> F]]. exists ids, rs, rest.
    split; [exact Hl|]. split; [exact Hr|]. split; [rewrite <- app_assoc; reflexivity|exact F].
  - intros w jl ps fl a tr tr' out Hf H. unfold create_take_action in H.
    bstepn H E1 t1 pr. destruct pr as [data count].
    destruct (create_request_flags_ok _ _ _ _ _ _ Hf E1)
      as (ct & iid & pl & ver & tid & pre & kw & rv & -> & H1 & H2 & H3 & H4 & H5 & H6 & H7).
    cbv beta iota in H. apply (aw_ext (fun _ => True)) in H; [|aw].
    destruct H as [post ->].
    exists ct, iid, pl, ver, tid, pre, kw, rv, post.
    split; [rewrite <- !app_assoc; reflexivity|]. auto 10.
  - intros w ps fl a tr tr' out H. exact (update_ok _ _ _ _ _ _ _ H).
  - intros w jl ps fl pi a tr tr' out H. exact (scale_ok _ _ _ _ _ _ _ _ _ H).
Qed.

Lemma lookups_before_action_witness :
  let d := delete_take_action Demo.ok_world Demo.delete_demo_args [] in
  let c := create_take_action Demo.ok_world Demo.json_loads Demo.py_str Demo.format_list
             (Demo.create_flags None None false) [] in
  let u := update_take_action Demo.ok_world Demo.py_str Demo.format_list
             Demo.update_demo_args [] in
  let s := Demo.scale Demo.ok_world Demo.scale_ng_args in
  (d = (fst d, Ok tt)
   /\ exists ids rs rest, length ids = 2 /\ length rs = 2
      /\ fst d = [] ++ lookup_delete_events ["c-a"; "c-b"] ids rs ++ rest
      /\ Forall (ev_ok (fun c => is_delete c = false)) rest)
  /\ (c = (fst c, Ok (ok_part (snd c) []))
      /\ exists ct iid pl ver tid pre kw rv post,
         fst c = [] ++ [EvCall (CGetResource "cluster_templates" (VStr "vanilla-tmpl")) (Ok ct);
                        EvCall (CGetResourceId "images" (VStr "ubuntu")) (Ok iid)]
                    ++ pre ++ [EvCall (CCreate kw) (Ok rv)] ++ post
         /\ getattr ct "plugin_name" = Ok pl /\ getattr ct "hadoop_version" = Ok ver
         /\ getattr ct "id" = Ok tid
         /\ dict_get "plugin_name" kw = Some pl /\ dict_get "hadoop_version" kw = Some ver
         /\ dict_get "cluster_template_id" kw = Some tid
         /\ dict_get "default_image_id" kw = Some iid)
  /\ (u = (fst u, Ok (ok_part (snd u) []))
      /\ exists cid r,
         fst u = [] ++ [EvCall (CGetResourceId "clusters" (VStr "demo")) (Ok cid);
                        EvCall (CUpdate cid (update_kwargs Demo.update_demo_args)) (Ok r)])
  /\ (s = (fst s, Ok (ok_part (snd s) []))
      /\ exists cl cid o r pre post,
         fst s = [] ++ [EvCall (CGetResource "clusters" (VStr "demo")) (Ok cl)]
                    ++ pre ++ [EvCall (CScale cid o) (Ok r)] ++ post
         /\ getattr cl "id" = Ok cid).
Proof.
  intros d c u s.
  assert (Hd : d = (fst d, Ok tt)) by (vm_compute; reflexivity).
  assert (Hc : c = (fst c, Ok (ok_part (snd c) []))) by (vm_compute; reflexivity).
  assert (Hu : u = (fst u, Ok (ok_part (snd u) []))) by (vm_compute; reflexivity).
  assert (Hs : s = (fst s, Ok (ok_part (snd s) []))) by (vm_compute; reflexivity).
  split; [split; [exact Hd|]|split; [split; [exact Hc|]|split; [split; [exact Hu|]|split; [exact Hs|]]]].
  - exact (proj1 lookups_before_action Demo.ok_world Demo.delete_demo_args [] _ _ Hd).
  - exact (proj1 (proj2 lookups_before_action) Demo.ok_world Demo.json_loads Demo.py_str
             Demo.format_list (Demo.create_flags None None false) [] _ _ eq_refl Hc).
  - exact (proj1 (proj2 (proj2 lookups_before_action)) Demo.ok_world Demo.py_str
             Demo.format_list Demo.update_demo_args [] _ _ Hu).
  - exact (proj2 (proj2 (proj2 lookups_before_action)) Demo.ok_world Demo.json_loads
             Demo.py_str Demo.format_list Demo.py_int Demo.scale_ng_args [] _ _ Hs).
Defined.

(** ** C9: ScaleCluster's request from [--node-groups] *)

Lemma existsb_eqb_false_not_in k (l : list string) :
  existsb (String.eqb k) l = false -> ~ In k l.
Proof.
  intros H Hin. assert (existsb (String.eqb k) l = true) as Ht.
  { apply existsb_exists. exists k. split; [exact Hin|apply String.eqb_refl]. }
  congruence.
Qed.

Lemma distinct_names_snoc ps q :
  distinct_names (ps ++ [q])
  = if existsb (String.eqb (fst q)) (distinct_names ps) then distinct_names ps
    else distinct_names ps ++ [fst q].
Proof. unfold distinct_names. rewrite fold_left_app. reflexivity. Qed.

Lemma last_value_snoc ps q n :
  last_value (ps ++ [q]) n = if String.eqb (fst q) n then snd q else last_value ps n.
Proof. unfold last_value. rewrite fold_left_app. reflexivity. Qed.

Lemma distinct_names_nodup ps : NoDup (distinct_names ps).
Proof.
  induction ps as [|q ps IH] using rev_ind; [constructor|].
  rewrite distinct_names_snoc.
  destruct (existsb (String.eqb (fst q)) (distinct_names ps)) eqn:E; [exact IH|].
  apply (Permutation_NoDup (Permutation_cons_append _ _)).
  constructor; [apply existsb_eqb_false_not_in; exact E|exact IH].
Qed.

Lemma dict_set_map k v (g : string -> value) (D : list string) :
  NoDup D ->
  dict_set k v (map (fun n => (n, g n)) D)
  = if existsb (String.eqb k) D
    then map (fun n => (n, if String.eqb k n then v else g n)) D
    else map (fun n => (n, g n)) D ++ [(k, v)].
Proof.
  induction D as [|n D IH]; intros Hnd; simpl; [reflexivity|].
  inversion Hnd as [|? ? Hn Hnd']; subst.
  destruct (String.eqb_spec k n) as [->|Hkn]; simpl.
  - f_equal. apply map_ext_in. intros m Hm.
    destruct (String.eqb_spec n m) as [->|]; [contradiction|reflexivity].
  - rewrite (IH Hnd'). destruct (existsb (String.eqb k) D); reflexivity.
Qed.

Lemma node_group_dict ps :
  fold_left (fun d p => dict_set (fst p) (VStr (snd p)) d) ps []
  = map (fun n => (n, VStr (last_value ps n))) (distinct_names ps).
Proof.
  assert (Hg : forall Q P,
            fold_left (fun d p => dict_set (fst p) (VStr (snd p)) d) Q
              (map (fun n => (n, VStr (last_value P n))) (distinct_names P))
            = map (fun n => (n, VStr (last_value (P ++ Q) n))) (distinct_names (P ++ Q))).
  { induction Q as [|q Q IH]; intros P; simpl.
    - rewrite app_nil_r. reflexivity.
    - rewrite dict_set_map by apply distinct_names_nodup.
      replace (P ++ q :: Q) with ((P ++ [q]) ++ Q) by (rewrite <- app_assoc; reflexivity).
      rewrite <- IH. f_equal. rewrite distinct_names_snoc.
      destruct (existsb (String.eqb (fst q)) (distinct_names P)) eqn:E.
      + apply map_ext. intros n. rewrite last_value_snoc.
        destruct (String.eqb (fst q) n); reflexivity.
      + rewrite map_app. simpl. rewrite last_value_snoc, String.eqb_refl. f_equal.
        apply map_ext_in. intros n Hn. rewrite last_value_snoc.
        destruct (String.eqb_spec (fst q) n) as [<-|]; [|reflexivity].
        exfalso. exact (existsb_eqb_false_not_in _ _ E Hn). }
  exact (Hg ps []).
Qed.

Lemma group_entry_resize pi existing ng v nm c :
  getattr ng "name" = Ok nm -> py_int_v pi v = Ok c -> py_in nm existing = true ->
  group_entry pi existing (ng, v) = Ok (true, VDict [("name", nm); ("count", VInt c)]).
Proof.
  intros H1 H2 H3. unfold group_entry. cbn [fst snd].
  rewrite H1. cbn [rbind]. rewrite H2. cbn [rbind]. rewrite H3. reflexivity.
Qed.

Lemma group_entry_add pi existing ng v nm i c :
  getattr ng "name" = Ok nm -> getattr ng "id" = Ok i -> py_int_v pi v = Ok c ->
  py_in nm existing = false ->
  group_entry pi existing (ng, v)
  = Ok (false, VDict [("node_group_template_id", i); ("name", nm); ("count", VInt c)]).
Proof.
  intros H1 H2 H3 H4. unfold group_entry. cbn [fst snd].
  rewrite H1. cbn [rbind]. rewrite H3. cbn [rbind]. rewrite H4, H2. reflexivity.
Qed.

Lemma scale_loop_ok w pi existing (f : string -> string) D add resize tr tr' add' resize' :
  scale_loop w pi existing (map (fun n => (n, VStr (f n))) D) add resize tr
    = (tr', Ok (add', resize')) ->
  exists tpls es, length tpls = length D /\ tr' = tr ++ template_fetches D tpls
    /\ rmapM (group_entry pi existing) (combine tpls (map (fun n => VStr (f n)) D)) = Ok es
    /\ add' = add ++ map snd (filter (fun e => negb (fst e)) es)
    /\ resize' = resize ++ map snd (filter fst es).
Proof.
  revert add resize tr. induction D as [|n D IH]; intros add resize tr H.
  - apply ret_ok in H. destruct H as [-> Hp]. injection Hp as <- <-.
    exists [], []. rewrite !app_nil_r. auto.
  - cbn [map scale_loop] in H.
    bstepn H E1 t1 ng. apply call_ok in E1. destruct E1 as [-> _].
    bstepn H E2 t2 nm. apply lift_ok in E2. destruct E2 as [-> E2].
    destruct (py_in nm existing) eqn:Ein.
    + bstepn H E3 t3 c. apply lift_ok in E3. destruct E3 as [-> E3].
      apply IH in H. destruct H as (tpls & es & Hl & -> & Hr & -> & ->).
      exists (ng :: tpls), ((true, VDict [("name", nm); ("count", VInt c)]) :: es).
      split; [simpl; congruence|]. split; [rewrite <- app_assoc; reflexivity|].
      split; [|split; [reflexivity|rewrite <- app_assoc; reflexivity]].
      cbn [combine map rmapM]. rewrite (group_entry_resize _ _ _ _ _ _ E2 E3 Ein).
      cbn [rbind]. rewrite Hr. reflexivity.
    + bstepn H E3 t3 i. apply lift_ok in E3. destruct E3 as [-> E3].
      bstepn H E4 t4 c. apply lift_ok in E4. destruct E4 as [-> E4].
      apply IH in H. destruct H as (tpls & es & Hl & -> & Hr & -> & ->).
      exists (ng :: tpls),
        ((false, VDict [("node_group_template_id", i); ("name", nm); ("count", VInt c)]) :: es).
      split; [simpl; congruence|]. split; [rewrite <- app_assoc; reflexivity|].
      split; [|split; [rewrite <- app_assoc; reflexivity|reflexivity]].
      cbn [combine map rmapM]. rewrite (group_entry_add _ _ _ _ _ _ _ E2 E3 E4 Ein).
      cbn [rbind]. rewrite Hr. reflexivity.
Qed.

Lemma node_group_pairs_ok args items :
  node_group_pairs (Some args) = Ok items ->
  exists pairs, Forall2 (fun x p => split_colon x = Some p) args pairs
    /\ items = map (fun n => (n, VStr (last_value pairs n))) (distinct_names pairs).
Proof.
  unfold node_group_pairs. intros H.
  destruct (rmapM _ args) as [pairs|e] eqn:E; cbn [rbind] in H; [|discriminate H].
  injection H as <-. exists pairs. split; [|apply node_group_dict].
  apply rmapM_ok in E. eapply Forall2_impl; [|exact E].
  intros x p Hx. cbv beta in Hx. destruct (split_colon x); [congruence|discriminate Hx].
Qed.

Lemma scale_object_eq add resize :
  scale_object add resize
  = (match add with [] => [] | _ => [("add_node_groups", VList add)] end)
    ++ (match resize with [] => [] | _ => [("resize_node_groups", VList resize)] end).
Proof. destruct add, resize; reflexivity. Qed.

(** C9.  On a normal return of [ScaleCluster] without [--json], the
    [--node-groups] arguments split at their first [:] into name/count
    pairs; the node-group template of each distinct name is fetched once,
    in the order of first occurrence, right after the cluster; and the
    scale request is [claimed_scale_object]: each group carries the count
    of the last occurrence of its name, goes to [resize_node_groups] when
    the template's name is among the cluster's node groups and to
    [add_node_groups] otherwise, and a list that ends up empty is left
    out. *)
Theorem scale_request_last_occurrence w jl ps fl pi a args tr tr' out :
  py_truthy (opt_str a.(sa_json)) = false -> a.(sa_node_groups) = Some args ->
  scale_take_action w jl ps fl pi a tr = (tr', Ok out) ->
  exists cl existing pairs tpls cid od r post,
    Forall2 (fun x p => split_colon x = Some p) args pairs
    /\ cluster_node_group_names cl = Ok existing
    /\ length tpls = length (distinct_names pairs)
    /\ tr' = tr ++ [EvCall (CGetResource "clusters" (VStr a.(sa_cluster))) (Ok cl)]
               ++ template_fetches (distinct_names pairs) tpls
               ++ [EvCall (CScale cid (VDict od)) (Ok r)] ++ post
    /\ claimed_scale_object pi existing
         (combine tpls (map (fun n => VStr (last_value pairs n)) (distinct_names pairs)))
       = Ok od.
Proof.
  unfold scale_take_action. intros Hj Hng H.
  bstepn H E1 t1 cl. apply call_ok in E1. destruct E1 as [-> _].
  bstepn H E2 t2 data. rewrite Hj in E2.
  bstepn E2 F1 u1 sng. apply lift_ok in F1. destruct F1 as [-> F1].
  rewrite Hng in F1. destruct (node_group_pairs_ok _ _ F1) as (pairs & Hp & ->).
  bstepn E2 F2 u2 cng. apply lift_ok in F2. destruct F2 as [-> F2].
  bstepn E2 F3 u3 lists. destruct lists as [add resize].
  apply scale_loop_ok in F3. destruct F3 as (tpls & es & Hl & -> & Hr & -> & ->).
  bstepn E2 F4 u4 cid. apply lift_ok in F4. destruct F4 as [-> F4].
  bstepn E2 F5 u5 r. apply call_ok in F5. destruct F5 as [-> _].
  bstepn E2 F6 u6 c. apply lift_ok in F6. destruct F6 as [-> _].
  apply lift_ok in E2. destruct E2 as [-> _].
  bstepn H E3 t3 d3. extn E3 post.
  bstepn H E4 t4 o4. apply lift_ok in E4. destruct E4 as [-> _].
  apply ret_ok in H. destruct H as [-> _].
  exists cl, cng, pairs, tpls, cid, (scale_object ([] ++ map snd (filter (fun e => negb (fst e)) es))
                                                  ([] ++ map snd (filter fst es))), r, post.
  split; [exact Hp|]. split; [exact F2|]. split; [exact Hl|].
  split; [rewrite <- ?app_assoc; reflexivity|].
  unfold claimed_scale_object. rewrite Hr. cbn [rbind]. rewrite scale_object_eq. reflexivity.
Qed.

Lemma scale_request_last_occurrence_witness :
  let s := Demo.scale Demo.ok_world Demo.scale_ng_args in
  py_truthy (opt_str Demo.scale_ng_args.(sa_json)) = false
  /\ Demo.scale_ng_args.(sa_node_groups) = Some ["worker:4"; "edge:1"; "worker:5"]
  /\ s = (fst s, Ok (ok_part (snd s) []))
  /\ exists cl existing pairs tpls cid od r post,
       Forall2 (fun x p => split_colon x = Some p) ["worker:4"; "edge:1"; "worker:5"] pairs
       /\ cluster_node_group_names cl = Ok existing
       /\ length tpls = length (distinct_names pairs)
       /\ fst s = [] ++ [EvCall (CGetResource "clusters" (VStr "demo")) (Ok cl)]
                    ++ template_fetches (distinct_names pairs) tpls
                    ++ [EvCall (CScale cid (VDict od)) (Ok r)] ++ post
       /\ claimed_scale_object Demo.py_int existing
            (combine tpls (map (fun n => VStr (last_value pairs n)) (distinct_names pairs)))
          = Ok od.
Proof.
  intros s.
  assert (Hs : s = (fst s, Ok (ok_part (snd s) []))) by (vm_compute; reflexivity).
  split; [reflexivity|]. split; [reflexivity|]. split; [exact Hs|].
  exact (scale_request_last_occurrence Demo.ok_world Demo.json_loads Demo.py_str
           Demo.format_list Demo.py_int Demo.scale_ng_args ["worker:4"; "edge:1"; "worker:5"]
           [] _ _ eq_refl eq_refl Hs).
Defined.

(** ** C10: UpdateCluster always sends the four fields *)

Lemma parse_public_exclusive opts a sp sq :
  (In OptPublic opts \/ sp = Some true) -> (In OptPrivate opts \/ sp = Some false) ->
  parse_update_opts opts a sp sq = None.
Proof.
  revert a sp sq. induction opts as [|o os IH]; intros a sp sq H1 H2; simpl in *.
  - destruct H1 as [H1|H1]; [contradiction|].
    destruct H2 as [H2|H2]; [contradiction|]. congruence.
  - destruct o.
    + apply IH; intuition discriminate.
    + apply IH; intuition discriminate.
    + destruct sp as [[|]|]; [| reflexivity |]; apply IH; intuition discriminate.
    + destruct sp as [[|]|]; [reflexivity | |]; apply IH; intuition discriminate.
    + destruct sq as [[|]|]; [| reflexivity |]; apply IH; intuition discriminate.
    + destruct sq as [[|]|]; [reflexivity | |]; apply IH; intuition discriminate.
Qed.

Lemma parse_protected_exclusive opts a sp sq :
  (In OptProtected opts \/ sq = Some true) -> (In OptUnprotected opts \/ sq = Some false) ->
  parse_update_opts opts a sp sq = None.
Proof.
  revert a sp sq. induction opts as [|o os IH]; intros a sp sq H1 H2; simpl in *.
  - destruct H1 as [H1|H1]; [contradiction|].
    destruct H2 as [H2|H2]; [contradiction|]. congruence.
  - destruct o.
    + apply IH; intuition discriminate.
    + apply IH; intuition discriminate.
    + destruct sp as [[|]|]; [| reflexivity |]; apply IH; intuition discriminate.
    + destruct sp as [[|]|]; [reflexivity | |]; apply IH; intuition discriminate.
    + destruct sq as [[|]|]; [| reflexivity |]; apply IH; intuition discriminate.
    + destruct sq as [[|]|]; [reflexivity | |]; apply IH; intuition discriminate.
Qed.

Lemma parse_fields opts a sp sq a' :
  parse_update_opts opts a sp sq = Some a' ->
  a'.(ua_cluster) = a.(ua_cluster)
  /\ (a'.(ua_name) = None <-> a.(ua_name) = None /\ existsb sets_name opts = false)
  /\ (a'.(ua_description) = None
      <-> a.(ua_description) = None /\ existsb sets_description opts = false)
  /\ (a'.(ua_is_public) = None <-> a.(ua_is_public) = None /\ existsb sets_public opts = false)
  /\ (a'.(ua_is_protected) = None
      <-> a.(ua_is_protected) = None /\ existsb sets_protected opts = false).
Proof.
  revert a sp sq. induction opts as [|o os IH]; intros a sp sq H; simpl in H.
  - injection H as <-. simpl. intuition auto.
  - destruct o;
      [ idtac | idtac | destruct sp as [[|]|] | destruct sp as [[|]|]
      | destruct sq as [[|]|] | destruct sq as [[|]|] ];
      simpl in H; try discriminate H;
      specialize (IH _ _ _ H); simpl in *; intuition discriminate.
Qed.

Lemma update_call_payload w ps fl a tr tr' r cid kw rr :
  update_take_action w ps fl a tr = (tr', r) ->
  In (EvCall (CUpdate cid kw) rr) tr' ->
  In (EvCall (CUpdate cid kw) rr) tr \/ kw = update_kwargs a.
Proof.
  intros H Hin.
  replace tr' with (fst (update_take_action w ps fl a tr)) in Hin by (rewrite H; reflexivity).
  unfold update_take_action in Hin. apply in_bind_cases in Hin.
  destruct Hin as [Hin|(tr1 & x & E1 & Hin)].
  - unfold call in Hin. simpl in Hin. apply in_app_or in Hin.
    destruct Hin as [Hin|[Hin|Hin]]; [left; exact Hin|discriminate Hin|contradiction].
  - apply call_ok in E1. destruct E1 as [-> _].
    assert (Hback : In (EvCall (CUpdate cid kw) rr)
                       (tr ++ [EvCall (CGetResourceId "clusters" (VStr a.(ua_cluster))) (Ok x)]) ->
                    In (EvCall (CUpdate cid kw) rr) tr).
    { intros Hb. apply in_app_or in Hb. destruct Hb as [Hb|[Hb|Hb]]; [exact Hb|discriminate Hb|contradiction]. }
    apply in_bind_cases in Hin. destruct Hin as [Hin|(tr2 & y & E2 & Hin)].
    + unfold call in Hin. simpl in Hin. apply in_app_or in Hin.
      destruct Hin as [Hin|[Hin|Hin]]; [left; exact (Hback Hin)| |contradiction].
      right. injection Hin. intros. congruence.
    + apply call_ok in E2. destruct E2 as [-> _]. cbv beta in Hin.
      apply (in_aw (fun c => is_update c = false)) in Hin; [|aw].
      destruct Hin as [Hin|Hin]; [|discriminate Hin].
      apply in_app_or in Hin.
      destruct Hin as [Hin|[Hin|Hin]]; [left; exact (Hback Hin)| |contradiction].
      right. injection Hin. intros. congruence.
Qed.

(** C10.  [--public]/[--private] exclude each other, and so do
    [--protected]/[--unprotected]; and every update call of an
    UpdateCluster run carries exactly the four fields [name],
    [description], [is_public], [is_protected], in that order, each the
    parsed value of its option and [None] exactly when none of its options
    was given. *)
Theorem update_sends_all_four :
  (forall cluster opts,
     In OptPublic opts -> In OptPrivate opts -> parse_update cluster opts = None)
  /\ (forall cluster opts,
        In OptProtected opts -> In OptUnprotected opts -> parse_update cluster opts = None)
  /\ (forall cluster opts a w ps fl tr tr' r cid kw rr,
        parse_update cluster opts = Some a ->
        update_take_action w ps fl a tr = (tr', r) ->
        In (EvCall (CUpdate cid kw) rr) tr' -> ~ In (EvCall (CUpdate cid kw) rr) tr ->
        map fst kw = ["name"; "description"; "is_public"; "is_protected"]
        /\ dict_get "name" kw = Some (opt_str a.(ua_name))
        /\ dict_get "description" kw = Some (opt_str a.(ua_description))
        /\ dict_get "is_public" kw = Some (opt_bool a.(ua_is_public))
        /\ dict_get "is_protected" kw = Some (opt_bool a.(ua_is_protected))
        /\ (dict_get "name" kw = Some VNone <-> existsb sets_name opts = false)
        /\ (dict_get "description" kw = Some VNone
            <-> existsb sets_description opts = false)
        /\ (dict_get "is_public" kw = Some VNone <-> existsb sets_public opts = false)
        /\ (dict_get "is_protected" kw = Some VNone
            <-> existsb sets_protected opts = false)).
Proof.
  split; [|split].
  - intros cluster opts H1 H2. apply parse_public_exclusive; auto.
  - intros cluster opts H1 H2. apply parse_protected_exclusive; auto.
  - intros cluster opts a w ps fl tr tr' r cid kw rr Hp Hu Hin Hnot.
    destruct (update_call_payload _ _ _ _ _ _ _ _ _ _ Hu Hin) as [Hin' | ->];
      [contradiction|].
    unfold parse_update in Hp. apply parse_fields in Hp. simpl in Hp.
    destruct Hp as (_ & Hn & Hd & Hpu & Hpr).
    split; [reflexivity|]. split; [reflexivity|]. split; [reflexivity|].
    split; [reflexivity|]. split; [reflexivity|].
    simpl.
    destruct (ua_name a), (ua_description a), (ua_is_public a), (ua_is_protected a);
      simpl; intuition (try discriminate; auto).
Qed.

Lemma update_sends_all_four_witness :
  let opts := [OptName "renamed"; OptPublic] in
  let t := fst (update_take_action Demo.ok_world Demo.py_str Demo.format_list
                  Demo.update_demo_args []) in
  let kw := update_kwargs Demo.update_demo_args in
  let rr := match last t (EvLog "" VNone) with EvCall _ r => r | _ => Ok VNone end in
  parse_update "demo" [OptPublic; OptName "x"; OptPrivate] = None
  /\ parse_update "demo" [OptUnprotected; OptProtected] = None
  /\ parse_update "demo" opts = Some Demo.update_demo_args
  /\ In (EvCall (CUpdate (VStr "id-demo") kw) rr) t
  /\ map fst kw = ["name"; "description"; "is_public"; "is_protected"]
  /\ dict_get "name" kw = Some (opt_str (Some "renamed"))
  /\ dict_get "description" kw = Some (opt_str None)
  /\ dict_get "is_public" kw = Some (opt_bool (Some true))
  /\ dict_get "is_protected" kw = Some (opt_bool None)
  /\ (dict_get "name" kw = Some VNone <-> existsb sets_name opts = false)
  /\ (dict_get "description" kw = Some VNone <-> existsb sets_description opts = false)
  /\ (dict_get "is_public" kw = Some VNone <-> existsb sets_public opts = false)
  /\ (dict_get "is_protected" kw = Some VNone <-> existsb sets_protected opts = false).
Proof.
  intros opts t kw rr.
  assert (Hp : parse_update "demo" opts = Some Demo.update_demo_args) by reflexivity.
  assert (Hin : In (EvCall (CUpdate (VStr "id-demo") kw) rr) t)
    by (vm_compute; right; left; reflexivity).
  split; [apply (proj1 update_sends_all_four); simpl; tauto|].
  split; [apply (proj1 (proj2 update_sends_all_four)); simpl; tauto|].
  split; [exact Hp|]. split; [exact Hin|].
  exact (proj2 (proj2 update_sends_all_four) "demo" opts Demo.update_demo_args
           Demo.ok_world Demo.py_str Demo.format_list [] t _ _ _ _ Hp
           (surjective_pairing _) Hin (fun H => H)).
Defined.

(** * Further properties of clusters.py *)

(** ** [x.split(':', 1)] in ScaleCluster *)

(** [split_colon] splits at the first [':']: it answers [(a, b)] exactly
    when the string is [a ++ ":" ++ b] with no [':'] in [a], and fails
    exactly when the string has no [':']. *)
Theorem split_colon_first_colon :
  (forall s a b, split_colon s = Some (a, b)
                 <-> s = a +++ ":" +++ b /\ ~ In ":"%char (list_ascii_of_string a))
  /\ (forall s, split_colon s = None <-> ~ In ":"%char (list_ascii_of_string s)).
Proof.
  split.
  - intros s. induction s as [|c s IH]; intros a b; simpl.
    + split; [discriminate|]. intros [H _]. destruct a; discriminate H.
    + destruct (Ascii.eqb_spec c ":"%char) as [->|Hc].
      * split.
        -- intros H. injection H as <- <-. simpl. split; [reflexivity|tauto].
        -- intros [H Hn]. destruct a as [|c' a]; simpl in H.
           ++ injection H as <-. reflexivity.
           ++ injection H as <- _. simpl in Hn. tauto.
      * destruct (split_colon s) as [[x y]|] eqn:E.
        -- split.
           ++ intros H. injection H as <- <-.
              destruct (proj1 (IH x y) eq_refl) as [-> Hn]. simpl.
              split; [reflexivity|]. intros [H|H]; [congruence|tauto].
           ++ intros [H Hn]. destruct a as [|c' a]; simpl in H; injection H as Hc' Hs.
              ** congruence.
              ** subst c'. simpl in Hn.
                 assert (E' : Some (x, y) = Some (a, b)) by (apply IH; tauto).
                 injection E' as -> ->. reflexivity.
        -- split; [discriminate|]. intros [H Hn].
           destruct a as [|c' a]; simpl in H; injection H as Hc' Hs.
           ++ congruence.
           ++ subst c'. simpl in Hn.
              assert (E' : @None (string * string) = Some (a, b)) by (apply IH; tauto).
              discriminate E'.
  - intros s. induction s as [|c s IH]; simpl.
    + split; [intros _ H; exact H|reflexivity].
    + destruct (Ascii.eqb_spec c ":"%char) as [->|Hc].
      * split; [discriminate|]. intros H. exfalso. apply H. left. reflexivity.
      * destruct (split_colon s) as [[x y]|] eqn:E.
        -- split; [discriminate|]. intros H. exfalso.
           destruct (in_dec Ascii.ascii_dec ":"%char (list_ascii_of_string s)) as [Hi|Hi].
           ++ apply H. right. exact Hi.
           ++ apply IH in Hi. discriminate Hi.
        -- split; [|reflexivity]. intros _ [H|H]; [congruence|].
           exact (proj1 IH eq_refl H).
Qed.

(** ** [_format_cluster_output] *)

(** The reshaping fails on the first field it needs that the record lacks,
    in the order of the code: [KeyError('hadoop_version')], then
    [KeyError('default_image_id')], then [KeyError('node_groups')], then
    the error of formatting the node groups, then
    [KeyError('anti_affinity')]. *)
Theorem format_cluster_output_key_errors ps fl data :
  (dict_get "hadoop_version" data = None ->
   format_cluster_output ps fl data = Err (KeyError "hadoop_version"))
  /\ (dict_get "hadoop_version" data <> None ->
      dict_get "default_image_id" data = None ->
      format_cluster_output ps fl data = Err (KeyError "default_image_id"))
  /\ (dict_get "hadoop_version" data <> None ->
      dict_get "default_image_id" data <> None ->
      dict_get "node_groups" data = None ->
      format_cluster_output ps fl data = Err (KeyError "node_groups"))
  /\ (forall ng e,
        dict_get "hadoop_version" data <> None ->
        dict_get "default_image_id" data <> None ->
        dict_get "node_groups" data = Some ng ->
        format_node_groups_list ps ng = Err e ->
        format_cluster_output ps fl data = Err e)
  /\ (forall ng s,
        dict_get "hadoop_version" data <> None ->
        dict_get "default_image_id" data <> None ->
        dict_get "node_groups" data = Some ng ->
        format_node_groups_list ps ng = Ok s ->
        dict_get "anti_affinity" data = None ->
        format_cluster_output ps fl data = Err (KeyError "anti_affinity")).
Proof.
  unfold format_cluster_output, dict_pop, getitem.
  split; [|split; [|split; [|split]]].
  - intros H. rewrite H. reflexivity.
  - intros H1 H2. destruct (dict_get "hadoop_version" data) as [v|]; [|congruence].
    simpl. dget. rewrite H2. reflexivity.
  - intros H1 H2 H3.
    destruct (dict_get "hadoop_version" data) as [v|]; [|congruence].
    simpl. dget. destruct (dict_get "default_image_id" data) as [i|]; [|congruence].
    simpl. dget. rewrite H3. reflexivity.
  - intros ng e H1 H2 H3 H4.
    destruct (dict_get "hadoop_version" data) as [v|]; [|congruence].
    simpl. dget. destruct (dict_get "default_image_id" data) as [i|]; [|congruence].
    simpl. dget. rewrite H3. simpl. rewrite H4. reflexivity.
  - intros ng s H1 H2 H3 H4 H5.
    destruct (dict_get "hadoop_version" data) as [v|]; [|congruence].
    simpl. dget. destruct (dict_get "default_image_id" data) as [i|]; [|congruence].
    simpl. dget. rewrite H3. simpl. rewrite H4. simpl. dget. rewrite H5. reflexivity.
Qed.

Lemma format_cluster_output_key_errors_witness :
  let r := Demo.cluster_record in
  let bad_ng := VList [VDict [("name", VStr "master")]] in
  format_cluster_output Demo.py_str Demo.format_list (dict_del "hadoop_version" r)
    = Err (KeyError "hadoop_version")
  /\ format_cluster_output Demo.py_str Demo.format_list (dict_del "default_image_id" r)
     = Err (KeyError "default_image_id")
  /\ format_cluster_output Demo.py_str Demo.format_list (dict_del "node_groups" r)
     = Err (KeyError "node_groups")
  /\ format_cluster_output Demo.py_str Demo.format_list (dict_set "node_groups" bad_ng r)
     = Err (KeyError "count")
  /\ format_cluster_output Demo.py_str Demo.format_list (dict_del "anti_affinity" r)
     = Err (KeyError "anti_affinity").
Proof.
  intros r bad_ng.
  split; [|split; [|split; [|split]]].
  - apply (proj1 (format_cluster_output_key_errors Demo.py_str Demo.format_list
                    (dict_del "hadoop_version" r))).
    vm_compute. reflexivity.
  - apply (proj1 (proj2 (format_cluster_output_key_errors Demo.py_str Demo.format_list
                           (dict_del "default_image_id" r)))); vm_compute; congruence.
  - apply (proj1 (proj2 (proj2 (format_cluster_output_key_errors Demo.py_str
                                  Demo.format_list (dict_del "node_groups" r)))));
      vm_compute; congruence.
  - apply (proj1 (proj2 (proj2 (proj2 (format_cluster_output_key_errors Demo.py_str
                                         Demo.format_list (dict_set "node_groups" bad_ng r)))))
             bad_ng); vm_compute; congruence.
  - apply (proj2 (proj2 (proj2 (proj2 (format_cluster_output_key_errors Demo.py_str
                                         Demo.format_list (dict_del "anti_affinity" r)))))
             Demo.node_groups_value "master:1, worker:3"); vm_compute; congruence.
Defined.

(** On success the reshaped record carries [hadoop_version]'s value as
    [version] and [default_image_id]'s as [image], no longer has
    [hadoop_version] nor [default_image_id], and every field other than
    those and [node_groups], [anti_affinity] is the record's own. *)
Theorem format_cluster_output_fields ps fl data out :
  format_cluster_output ps fl data = Ok out ->
  dict_get "version" out = dict_get "hadoop_version" data
  /\ dict_get "image" out = dict_get "default_image_id" data
  /\ dict_get "hadoop_version" out = None
  /\ dict_get "default_image_id" out = None
  /\ (forall k, ~ In k ["hadoop_version"; "default_image_id"; "version"; "image";
                        "node_groups"; "anti_affinity"] ->
                dict_get k out = dict_get k data).
Proof.
  unfold format_cluster_output, dict_pop, getitem. intros H.
  destruct (dict_get "hadoop_version" data) as [v|] eqn:Ev; [|discriminate H].
  simpl in H. dget_in H.
  destruct (dict_get "default_image_id" data) as [i|] eqn:Ei; [|discriminate H].
  simpl in H. dget_in H.
  destruct (dict_get "node_groups" data) as [ng|] eqn:En; [|discriminate H].
  simpl in H. destruct (format_node_groups_list ps ng) as [s|e]; [|discriminate H].
  simpl in H. dget_in H.
  destruct (dict_get "anti_affinity" data) as [aa|] eqn:Ea; [|discriminate H].
  simpl in H. destruct (fl aa) as [fa|e]; [|discriminate H].
  simpl in H. injection H as <-.
  split; [dget; reflexivity|]. split; [dget; reflexivity|].
  split; [dget; reflexivity|]. split; [dget; reflexivity|].
  intros k Hk. dget.
  repeat match goal with
         | |- context [String.eqb k ?x] =>
             destruct (String.eqb_spec k x) as [->|];
             [exfalso; apply Hk; simpl; tauto|]
         end.
  reflexivity.
Qed.

Lemma format_cluster_output_fields_witness :
  let out := ok_part (format_cluster_output Demo.py_str Demo.format_list
                        Demo.cluster_record) [] in
  format_cluster_output Demo.py_str Demo.format_list Demo.cluster_record = Ok out
  /\ dict_get "version" out = Some (VStr "2.7.1")
  /\ dict_get "image" out = Some (VStr "img-1")
  /\ dict_get "hadoop_version" out = None
  /\ dict_get "default_image_id" out = None
  /\ dict_get "status" out = Some (VStr "Active").
Proof.
  intros out.
  assert (Hf : format_cluster_output Demo.py_str Demo.format_list Demo.cluster_record
               = Ok out) by (vm_compute; reflexivity).
  destruct (format_cluster_output_fields Demo.py_str Demo.format_list Demo.cluster_record
              out Hf) as (H1 & H2 & H3 & H4 & H5).
  split; [exact Hf|]. split; [rewrite H1; reflexivity|]. split; [rewrite H2; reflexivity|].
  split; [exact H3|]. split; [exact H4|].
  rewrite H5; [reflexivity|]. simpl. intuition discriminate.
Defined.

(** ** [template['net_id'] = template.pop('neutron_management_network')] *)

(** With [--json], the document's [neutron_management_network] value moves
    to [net_id] (overwriting a [net_id] the document had); the document
    keeps no [neutron_management_network] and every other field as it
    was. *)
Theorem rename_network_fields t :
  dict_get "neutron_management_network" (rename_network t) = None
  /\ dict_get "net_id" (rename_network t)
     = match dict_get "neutron_management_network" t with
       | Some v => Some v
       | None => dict_get "net_id" t
       end
  /\ (forall k, k <> "net_id" -> k <> "neutron_management_network" ->
                dict_get k (rename_network t) = dict_get k t).
Proof.
  unfold rename_network.
  destruct (dict_get "neutron_management_network" t) as [v|] eqn:E.
  - split; [dget; reflexivity|]. split; [dget; reflexivity|].
    intros k H1 H2. dget.
    destruct (String.eqb_spec k "net_id"); [congruence|].
    destruct (String.eqb_spec k "neutron_management_network"); [congruence|].
    reflexivity.
  - split; [exact E|]. split; [reflexivity|]. reflexivity.
Qed.

Lemma rename_network_fields_witness :
  let t := [("name", VStr "c"); ("net_id", VStr "old");
            ("neutron_management_network", VStr "net-9")] in
  dict_get "net_id" (rename_network t) = Some (VStr "net-9")
  /\ dict_get "neutron_management_network" (rename_network t) = None
  /\ dict_get "name" (rename_network t) = Some (VStr "c").
Proof.
  intros t. destruct (rename_network_fields t) as (H1 & H2 & H3).
  split; [rewrite H2; reflexivity|]. split; [exact H1|].
  rewrite H3; [reflexivity|discriminate|discriminate].
Defined.

(** ** Failed waits in DeleteCluster, ScaleCluster and single-cluster
    CreateCluster *)

Section WaitOutcome.

Variable w : oracle.

Lemma so_ret {A} (Q : A -> Prop) (a : A) : Q a -> same_outcome Q (ret a) (ret a).
Proof. intros Hq tr1 tr2 Hc. simpl. split; [exact Hc|]. split; [reflexivity|]. congruence. Qed.

Lemma so_lift {A} (r : result A) : same_outcome (fun a => r = Ok a) (lift r) (lift r).
Proof. intros tr1 tr2 Hc. simpl. auto. Qed.

Lemma so_raise {A} (Q : A -> Prop) e : same_outcome Q (raise e) (raise e).
Proof. intros tr1 tr2 Hc. simpl. split; [exact Hc|]. split; [reflexivity|discriminate]. Qed.

Lemma so_weaken {A} (Q R : A -> Prop) (m1 m2 : M A) :
  same_outcome Q m1 m2 -> (forall a, Q a -> R a) -> same_outcome R m1 m2.
Proof.
  intros H HQR tr1 tr2 Hc. destruct (H tr1 tr2 Hc) as (C & E & HQ). auto.
Qed.

Lemma so_call c : is_wait c = false -> same_outcome (fun _ => True) (call w c) (call (fix_waits w) c).
Proof.
  intros Hw tr1 tr2 Hc. unfold call. simpl.
  assert (E : fix_waits w (calls_of tr2) c = w (calls_of tr2) c)
    by (destruct c; try discriminate Hw; reflexivity).
  rewrite E, <- Hc, !calls_of_app, Hc. auto.
Qed.

Lemma so_bind {A B} (Q : A -> Prop) (R : B -> Prop) (m1 m2 : M A) (f1 f2 : A -> M B) :
  same_outcome Q m1 m2 -> (forall a, Q a -> same_outcome R (f1 a) (f2 a)) ->
  same_outcome R (bind m1 f1) (bind m2 f2).
Proof.
  intros Hm Hf tr1 tr2 Hc. destruct (Hm tr1 tr2 Hc) as (Hc' & Hr & HQ). unfold bind.
  destruct (m1 tr1) as [t1 r1], (m2 tr2) as [t2 r2]. simpl in *. subst r2.
  destruct r1 as [a|e].
  - exact (Hf a (HQ a eq_refl) t1 t2 Hc').
  - simpl. split; [exact Hc'|]. split; [reflexivity|discriminate].
Qed.

Lemma so_mapM {A B} (f1 f2 : A -> M B) (l : list A) :
  (forall x, same_outcome (fun _ => True) (f1 x) (f2 x)) ->
  same_outcome (fun _ => True) (mapM f1 l) (mapM f2 l).
Proof.
  intros Hf. induction l as [|x l IH]; simpl.
  - apply so_ret. exact I.
  - apply so_bind with (Q := fun _ => True); [apply Hf|intros y _].
    apply so_bind with (Q := fun _ => True); [exact IH|intros ys _].
    apply so_ret. exact I.
Qed.

Lemma so_iterM {A} (f1 f2 : A -> M unit) (l : list A) :
  (forall x, same_outcome (fun _ => True) (f1 x) (f2 x)) ->
  same_outcome (fun _ => True) (iterM f1 l) (iterM f2 l).
Proof.
  intros Hf. induction l as [|x l IH]; simpl.
  - apply so_ret. exact I.
  - apply so_bind with (Q := fun _ => True); [apply Hf|intros u _]. exact IH.
Qed.

Lemma bind_call_eq {B} (w' : oracle) c (K : value -> M B) tr :
  bind (call w' c) K tr
  = match w' (calls_of tr) c with
    | Ok v => K v (tr ++ [EvCall c (Ok v)])
    | Err e => (tr ++ [EvCall c (Err e)], Err e)
    end.
Proof. unfold bind, call. destruct (w' (calls_of tr) c); reflexivity. Qed.

Lemma fix_waits_wait c h : is_wait c = true ->
  fix_waits w h c = match w h c with Ok _ => Ok (VBool true) | Err e => Err e end.
Proof. intros Hw. destruct c; try discriminate Hw; reflexivity. Qed.

Lemma quiet_log fmt v : quiet (log_error fmt v).
Proof. intros tr. eexists. split; [reflexivity|]. rewrite calls_of_app. simpl. apply app_nil_r. Qed.

Lemma quiet_bind_lift {A} (r : result A) a (k : A -> M unit) :
  r = Ok a -> quiet (k a) -> quiet (x <- lift r ;; k x).
Proof. intros -> Hk tr. exact (Hk tr). Qed.

(** A wait whose failure only leads to quiet code. *)
Lemma so_wait c (k1 k2 : M unit) :
  is_wait c = true -> quiet k1 ->
  same_outcome (fun _ => True)
    (ok <- call w c ;; if py_truthy ok then ret tt else k1)
    (ok <- call (fix_waits w) c ;; if py_truthy ok then ret tt else k2).
Proof.
  intros Hw Hq tr1 tr2 Hc. rewrite !bind_call_eq, (fix_waits_wait c _ Hw), <- Hc.
  destruct (w (calls_of tr1) c) as [v|e]; simpl.
  - destruct (py_truthy v).
    + simpl. rewrite !calls_of_app, Hc. auto.
    + destruct (Hq (tr1 ++ [EvCall c (Ok v)])) as (t & Ek & Ec). rewrite Ek. simpl.
      rewrite Ec, !calls_of_app, Hc. auto.
  - rewrite !calls_of_app, Hc. split; [reflexivity|]. split; [reflexivity|discriminate].
Qed.

Lemma so_wait_seq {B} (R : B -> Prop) c (k1 k2 : M unit) (rest1 rest2 : M B) :
  is_wait c = true -> quiet k1 -> same_outcome R rest1 rest2 ->
  same_outcome R
    (ok <- call w c ;; ((if py_truthy ok then ret tt else k1) ;;; rest1))
    (ok <- call (fix_waits w) c ;; ((if py_truthy ok then ret tt else k2) ;;; rest2)).
Proof.
  intros Hw Hq Hr tr1 tr2 Hc. rewrite !bind_call_eq, (fix_waits_wait c _ Hw), <- Hc.
  destruct (w (calls_of tr1) c) as [v|e]; simpl.
  - assert (Hc' : calls_of (tr1 ++ [EvCall c (Ok v)])
                  = calls_of (tr2 ++ [EvCall c (Ok (VBool true))]))
      by (rewrite !calls_of_app, Hc; reflexivity).
    destruct (py_truthy v).
    + exact (Hr _ _ Hc').
    + destruct (Hq (tr1 ++ [EvCall c (Ok v)])) as (t & Ek & Ec).
      assert (E1 : (k1 ;;; rest1) (tr1 ++ [EvCall c (Ok v)]) = rest1 t)
        by (unfold bind; rewrite Ek; reflexivity).
      change ((ret tt ;;; rest2) (tr2 ++ [EvCall c (Ok (VBool true))]))
        with (rest2 (tr2 ++ [EvCall c (Ok (VBool true))])).
      rewrite E1. apply Hr. rewrite Ec. exact Hc'.
  - rewrite !calls_of_app, Hc. split; [reflexivity|]. split; [reflexivity|discriminate].
Qed.

Lemma so_scale_loop pi existing items add resize :
  same_outcome (fun _ => True) (scale_loop w pi existing items add resize)
    (scale_loop (fix_waits w) pi existing items add resize).
Proof.
  revert add resize. induction items as [|[name count] items IH]; intros add resize; simpl.
  - apply so_ret. exact I.
  - apply so_bind with (Q := fun _ => True); [apply so_call; reflexivity|intros ng _].
    apply so_bind with (Q := fun _ => True);
      [eapply so_weaken; [apply so_lift|intros; exact I]|intros n _].
    destruct (py_in n existing).
    + apply so_bind with (Q := fun _ => True);
        [eapply so_weaken; [apply so_lift|intros; exact I]|intros c _]. apply IH.
    + apply so_bind with (Q := fun _ => True);
        [eapply so_weaken; [apply so_lift|intros; exact I]|intros i _].
      apply so_bind with (Q := fun _ => True);
        [eapply so_weaken; [apply so_lift|intros; exact I]|intros c _]. apply IH.
Qed.

End WaitOutcome.

Ltac so_step :=
  match goal with
  | |- same_outcome _ (bind (call _ _) _) (bind (call _ _) _) =>
      apply so_bind with (Q := fun _ => True); [apply so_call; reflexivity|intros ? _]
  | |- same_outcome _ (bind (lift ?r) _) (bind (lift ?r) _) =>
      let H := fresh "Hl" in
      apply so_bind with (Q := fun a => r = Ok a); [apply so_lift|intros ? H]
  | |- same_outcome _ (bind (scale_loop _ _ _ _ _ _) _) _ =>
      apply so_bind with (Q := fun _ => True); [apply so_scale_loop|intros ? _]
  | |- same_outcome _ (bind (load_json _ _ _) _) _ =>
      apply so_bind with (Q := fun _ => True); [unfold load_json|intros ? _]
  | |- same_outcome _ (bind (if ?b then _ else _) _) _ =>
      apply so_bind with (Q := fun _ => True); [destruct b|intros ? _]
  | |- same_outcome _ (ret _) (ret _) => apply so_ret; try exact I
  | |- same_outcome _ (lift ?r) (lift ?r) =>
      apply so_weaken with (Q := fun a => r = Ok a); [apply so_lift|intros; try exact I; eauto]
  | |- same_outcome _ (call _ _) (call _ _) =>
      apply so_weaken with (Q := fun _ => True); [apply so_call; reflexivity|intros; exact I]
  | |- same_outcome _ (raise _) (raise _) => apply so_raise
  | |- same_outcome _ (if ?b then _ else _) (if ?b then _ else _) => destruct b
  | |- same_outcome _ (match ?x with _ => _ end) (match ?x with _ => _ end) => destruct x
  | |- same_outcome _ (let _ := _ in _) _ => cbv zeta
  end.

Lemma so_create_request w jl a :
  same_outcome (fun _ => True) (create_request w jl a) (create_request (fix_waits w) jl a).
Proof. unfold create_request. repeat so_step. Qed.

Lemma so_create_single w ps fl wait data :
  same_outcome (fun _ => True) (create_single w ps fl wait data)
    (create_single (fix_waits w) ps fl wait data).
Proof.
  unfold create_single.
  apply so_bind with (Q := fun _ => True); [|intros d _; repeat so_step].
  destruct wait; [|apply so_ret; exact I].
  so_step. apply so_wait_seq; [reflexivity| |repeat so_step].
  match goal with
  | Hl : getitem data "id" = Ok ?d |- _ =>
      apply quiet_bind_lift with (a := d); [exact Hl|apply quiet_log]
  end.
Qed.

Lemma bind_ok_eq {A B} (m : M A) (f : A -> M B) tr t x :
  m tr = (t, Ok x) -> bind m f tr = f x t.
Proof. unfold bind. intros ->. reflexivity. Qed.

(** DeleteCluster and ScaleCluster never fail because a wait failed: each
    makes the same calls and ends with the same outcome (the same error or
    the same displayed data) as in the same world with every wait
    succeeding. *)
Theorem waits_never_change_outcome :
  (forall w a tr,
     calls_of (fst (delete_take_action w a tr))
     = calls_of (fst (delete_take_action (fix_waits w) a tr))
     /\ snd (delete_take_action w a tr) = snd (delete_take_action (fix_waits w) a tr))
  /\ (forall w jl ps fl pi a tr,
        calls_of (fst (scale_take_action w jl ps fl pi a tr))
        = calls_of (fst (scale_take_action (fix_waits w) jl ps fl pi a tr))
        /\ snd (scale_take_action w jl ps fl pi a tr)
           = snd (scale_take_action (fix_waits w) jl ps fl pi a tr)).
Proof.
  split.
  - intros w a tr.
    assert (H : same_outcome (fun _ => True) (delete_take_action w a)
                  (delete_take_action (fix_waits w) a)).
    { unfold delete_take_action.
      apply so_bind with (Q := fun _ => True); [apply so_mapM; intros x; repeat so_step|].
      intros ids _. destruct (da_wait a); [|apply so_ret; exact I].
      apply so_iterM. intros i. apply so_wait; [reflexivity|apply quiet_log]. }
    destruct (H tr tr eq_refl) as (H1 & H2 & _). auto.
  - intros w jl ps fl pi a tr.
    assert (H : same_outcome (fun _ => True) (scale_take_action w jl ps fl pi a)
                  (scale_take_action (fix_waits w) jl ps fl pi a)).
    { unfold scale_take_action.
      apply so_bind with (Q := fun _ => True); [apply so_call; reflexivity|intros cl _].
      apply so_bind with (Q := fun _ => exists cid, getattr cl "id" = Ok cid).
      - destruct (py_truthy (opt_str (sa_json a))); repeat so_step.
      - intros data [cid Hcid].
        apply so_bind with (Q := fun _ => True); [|intros d _; repeat so_step].
        destruct (sa_wait a); [|apply so_ret; exact I].
        so_step. apply so_wait_seq; [reflexivity| |repeat so_step].
        apply quiet_bind_lift with (a := cid); [exact Hcid|apply quiet_log]. }
    destruct (H tr tr eq_refl) as (H1 & H2 & _). auto.
Qed.

(** Outside the batch branch, CreateCluster never fails because its wait
    failed: once the create call has answered a record and the effective
    count is falsy or not above 1, the run makes the same calls and ends
    with the same outcome as in the same world with the wait succeeding. *)
Theorem create_single_wait_not_escalated w jl ps fl a tr tr1 data count :
  create_request w jl a tr = (tr1, Ok (data, count)) ->
  (py_truthy count = false \/ py_gt1 count = Ok false) ->
  calls_of (fst (create_take_action w jl ps fl a tr))
  = calls_of (fst (create_take_action (fix_waits w) jl ps fl a tr))
  /\ snd (create_take_action w jl ps fl a tr)
     = snd (create_take_action (fix_waits w) jl ps fl a tr).
Proof.
  intros H Hc.
  destruct (so_create_request w jl a tr tr eq_refl) as (C1 & R1 & _).
  rewrite H in C1, R1. simpl in C1, R1.
  destruct (create_request (fix_waits w) jl a tr) as [tr2 r2] eqn:E2.
  simpl in C1, R1. subst r2.
  unfold create_take_action.
  rewrite (bind_ok_eq _ _ _ _ _ H), (bind_ok_eq _ _ _ _ _ E2).
  destruct (so_create_single w ps fl (ca_wait a) data tr1 tr2 C1) as (S1 & S2 & _).
  destruct Hc as [Hc|Hc]; rewrite ?Hc.
  - auto.
  - destruct (py_truthy count); exact (conj S1 S2).
Qed.

Lemma create_single_wait_not_escalated_witness :
  let a := Demo.create_flags None None true in
  let p := create_request Demo.failing_world Demo.json_loads a [] in
  let d := ok_part (snd p) ([], VNone) in
  create_request Demo.failing_world Demo.json_loads a [] = (fst p, Ok (fst d, snd d))
  /\ snd (Demo.create Demo.failing_world a)
     = snd (Demo.create (fix_waits Demo.failing_world) a).
Proof.
  intros a p d.
  assert (H : create_request Demo.failing_world Demo.json_loads a [] = (fst p, Ok (fst d, snd d)))
    by (vm_compute; reflexivity).
  split; [exact H|].
  exact (proj2 (create_single_wait_not_escalated Demo.failing_world Demo.json_loads
                  Demo.py_str Demo.format_list a [] (fst p) (fst d) (snd d) H
                  (or_introl eq_refl))).
Defined.

Lemma iter_wait_delete_cases w ids tr tr' r :
  iterM (fun cluster_id =>
           ok <- call w (CWaitDelete cluster_id) ;;
           if py_truthy ok then ret tt
           else log_error "Error occurred during cluster deleting: %s" cluster_id) ids tr
  = (tr', r) ->
  (r = Ok tt /\ exists oks, length oks = length ids /\ tr' = tr ++ delete_wait_events ids oks)
  \/ (exists pre i post oks e, ids = pre ++ i :: post /\ length oks = length pre /\ r = Err e
        /\ tr' = tr ++ delete_wait_events pre oks ++ [EvCall (CWaitDelete i) (Err e)]).
Proof.
  revert tr. induction ids as [|i is IH]; simpl; intros tr H.
  - unfold ret in H. injection H as <- <-. left. split; [reflexivity|].
    exists []. rewrite app_nil_r. auto.
  - destruct (bind_inv _ _ _ _ _ H) as [(t1 & u & E1 & H2) | (e & E1 & ->)].
    + cbv beta in E1. rewrite bind_call_eq in E1.
      destruct (w (calls_of tr) (CWaitDelete i)) as [ok|e] eqn:Ew; [|discriminate E1].
      assert (Ht1 : t1 = tr ++ EvCall (CWaitDelete i) (Ok ok)
                         :: (if py_truthy ok then []
                             else [EvLog "Error occurred during cluster deleting: %s" i])).
      { destruct (py_truthy ok); unfold ret, log_error in E1; injection E1 as <- _;
          rewrite <- ?app_assoc; reflexivity. }
      subst t1. apply IH in H2.
      destruct H2 as [[-> (oks & Hl & ->)] | (pre & j & post & oks & e & -> & Hl & -> & ->)].
      * left. split; [reflexivity|]. exists (ok :: oks). split; [simpl; congruence|].
        simpl. rewrite <- !app_assoc. reflexivity.
      * right. exists (i :: pre), j, post, (ok :: oks), e.
        split; [reflexivity|]. split; [simpl; congruence|]. split; [reflexivity|].
        simpl. rewrite <- !app_assoc. reflexivity.
    + cbv beta in E1. rewrite bind_call_eq in E1.
      destruct (w (calls_of tr) (CWaitDelete i)) as [ok|e'] eqn:Ew.
      * destruct (py_truthy ok); unfold ret, log_error in E1; discriminate E1.
      * injection E1 as <- <-. right. exists [], i, is, [], e'.
        simpl. auto.
Qed.

Lemma mapM_delete_err w names tr tr' e :
  mapM (fun cluster =>
          cluster_id <- call w (CGetResourceId "clusters" (VStr cluster)) ;;
          call w (CDelete cluster_id) ;;;
          ret cluster_id) names tr = (tr', Err e) ->
  exists pre n post ids rs last,
    names = pre ++ n :: post /\ length ids = length pre /\ length rs = length pre
    /\ tr' = tr ++ lookup_delete_events pre ids rs ++ last
    /\ (last = [EvCall (CGetResourceId "clusters" (VStr n)) (Err e)]
        \/ exists i, last = [EvCall (CGetResourceId "clusters" (VStr n)) (Ok i);
                             EvCall (CDelete i) (Err e)]).
Proof.
  revert tr. induction names as [|n ns IH]; simpl; intros tr H.
  - unfold ret in H. discriminate H.
  - destruct (bind_inv _ _ _ _ _ H) as [(t1 & y & E1 & H2) | (e1 & E1 & He)].
    + bstep E1 E11. apply call_ok in E11. destruct E11 as [-> _].
      bstep E1 E12. apply call_ok in E12. destruct E12 as [-> _].
      apply ret_ok in E1. destruct E1 as [-> <-].
      destruct (bind_inv _ _ _ _ _ H2) as [(t2 & ys & E2 & H3) | (e2 & E2 & He2)].
      * unfold ret in H3. discriminate H3.
      * injection He2 as <-. apply IH in E2.
        destruct E2 as (pre & m & post & ids & rs & last & -> & Hl1 & Hl2 & -> & Hlast).
        exists (n :: pre), m, post, (x :: ids), (x0 :: rs), last.
        split; [reflexivity|]. split; [simpl; congruence|]. split; [simpl; congruence|].
        split; [simpl; rewrite <- !app_assoc; reflexivity|exact Hlast].
    + injection He as <-. cbv beta in E1. rewrite bind_call_eq in E1.
      destruct (w (calls_of tr) (CGetResourceId "clusters" (VStr n))) as [i|e2] eqn:Ew.
      * rewrite bind_call_eq in E1.
        destruct (w (calls_of (tr ++ [EvCall (CGetResourceId "clusters" (VStr n)) (Ok i)]))
                    (CDelete i)) as [d|e3].
        -- unfold ret in E1. discriminate E1.
        -- injection E1 as <- He3. subst e3.
           exists [], n, ns, [], [], [EvCall (CGetResourceId "clusters" (VStr n)) (Ok i);
                                      EvCall (CDelete i) (Err e)].
           simpl. rewrite <- app_assoc. simpl. eauto 10.
      * injection E1 as <- He2. subst e2. exists [], n, ns, [], [],
          [EvCall (CGetResourceId "clusters" (VStr n)) (Err e)]. simpl. auto 10.
Qed.

(** DeleteCluster, on a normal return: after the lookup and delete of
    every argument, with [--wait] it waits for each deleted id in order; a
    wait that reports failure only logs
    ["Error occurred during cluster deleting: %s"] with that id, and the
    loop goes on to the next id. *)
Theorem delete_normal_trace w a tr tr' u :
  delete_take_action w a tr = (tr', Ok u) ->
  exists ids rs oks,
    length ids = length a.(da_cluster) /\ length rs = length a.(da_cluster)
    /\ length oks = length ids
    /\ tr' = tr ++ lookup_delete_events a.(da_cluster) ids rs
                ++ (if a.(da_wait) then delete_wait_events ids oks else []).
Proof.
  intros H. unfold delete_take_action in H.
  bstepn H E1 t1 ids. apply mapM_delete_ok in E1. destruct E1 as (rs & Hl & Hr & ->).
  cbv beta in H. destruct (da_wait a).
  - apply iter_wait_delete_cases in H.
    destruct H as [[_ (oks & Ho & ->)] | (pre & i & post & oks & e & _ & _ & He & _)];
      [|discriminate He].
    exists ids, rs, oks. rewrite <- app_assoc. auto.
  - apply ret_ok in H. destruct H as [-> _].
    exists ids, rs, ids. rewrite app_nil_r. auto.
Qed.

(** DeleteCluster stops at the first failing call and raises its error:
    either the lookup or the delete of some argument failed, after the
    lookups and deletes of the arguments before it and with nothing after
    it; or every argument was deleted, [--wait] was given, and the wait of
    some id failed after the waits of the ids before it. *)
Theorem delete_stops_at_first_failure w a tr tr' e :
  delete_take_action w a tr = (tr', Err e) ->
  (exists pre n post ids rs last,
     a.(da_cluster) = pre ++ n :: post /\ length ids = length pre /\ length rs = length pre
     /\ tr' = tr ++ lookup_delete_events pre ids rs ++ last
     /\ (last = [EvCall (CGetResourceId "clusters" (VStr n)) (Err e)]
         \/ exists i, last = [EvCall (CGetResourceId "clusters" (VStr n)) (Ok i);
                              EvCall (CDelete i) (Err e)]))
  \/ (a.(da_wait) = true
      /\ exists ids rs pre i post oks,
           length ids = length a.(da_cluster) /\ length rs = length a.(da_cluster)
           /\ ids = pre ++ i :: post /\ length oks = length pre
           /\ tr' = tr ++ lookup_delete_events a.(da_cluster) ids rs
                       ++ delete_wait_events pre oks ++ [EvCall (CWaitDelete i) (Err e)]).
Proof.
  intros H. unfold delete_take_action in H.
  destruct (bind_inv _ _ _ _ _ H) as [(t1 & ids & E1 & H2) | (e1 & E1 & He)].
  - apply mapM_delete_ok in E1. destruct E1 as (rs & Hl & Hr & ->).
    cbv beta in H2. destruct (da_wait a).
    + apply iter_wait_delete_cases in H2.
      destruct H2 as [[He _] | (pre & i & post & oks & e1 & -> & Ho & He & ->)];
        [discriminate He|].
      injection He as <-. right. split; [reflexivity|].
      exists (pre ++ i :: post), rs, pre, i, post, oks.
      rewrite <- app_assoc. auto 10.
    + unfold ret in H2. discriminate H2.
  - injection He as <-. left. exact (mapM_delete_err _ _ _ _ _ E1).
Qed.

Lemma delete_normal_trace_witness :
  let w := Demo.world false "a" "b" true in
  let a := Demo.delete_demo_args in
  let d := delete_take_action w a [] in
  d = (fst d, Ok tt)
  /\ exists ids rs oks,
       length ids = length a.(da_cluster) /\ length rs = length a.(da_cluster)
       /\ length oks = length ids
       /\ fst d = [] ++ lookup_delete_events a.(da_cluster) ids rs
                    ++ (if a.(da_wait) then delete_wait_events ids oks else []).
Proof.
  intros w a d.
  assert (H : d = (fst d, Ok tt)) by (vm_compute; reflexivity).
  split; [exact H|].
  exact (delete_normal_trace w a [] (fst d) tt H).
Defined.

Lemma delete_stops_at_first_failure_witness :
  let w := Demo.world true "a" "b" false in
  let a := Demo.delete_demo_args in
  let d := delete_take_action w a [] in
  let e := ApiError "Cluster not found" in
  d = (fst d, Err e)
  /\ ((exists pre n post ids rs last,
         a.(da_cluster) = pre ++ n :: post /\ length ids = length pre /\ length rs = length pre
         /\ fst d = [] ++ lookup_delete_events pre ids rs ++ last
         /\ (last = [EvCall (CGetResourceId "clusters" (VStr n)) (Err e)]
             \/ exists i, last = [EvCall (CGetResourceId "clusters" (VStr n)) (Ok i);
                                  EvCall (CDelete i) (Err e)]))
      \/ (a.(da_wait) = true
          /\ exists ids rs pre i post oks,
               length ids = length a.(da_cluster) /\ length rs = length a.(da_cluster)
               /\ ids = pre ++ i :: post /\ length oks = length pre
               /\ fst d = [] ++ lookup_delete_events a.(da_cluster) ids rs
                            ++ delete_wait_events pre oks ++ [EvCall (CWaitDelete i) (Err e)])).
Proof.
  intros w a d e.
  assert (H : d = (fst d, Err e)) by (vm_compute; reflexivity).
  split; [exact H|].
  exact (delete_stops_at_first_failure w a [] (fst d) e H).
Defined.

Lemma parse_opts_none_iff opts a sp sq :
  parse_update_opts opts a sp sq = None
  <-> ((In OptPublic opts \/ sp = Some true) /\ (In OptPrivate opts \/ sp = Some false))
      \/ ((In OptProtected opts \/ sq = Some true) /\ (In OptUnprotected opts \/ sq = Some false)).
Proof.
  split.
  - revert a sp sq. induction opts as [|o os IH]; intros a sp sq H; simpl in H.
    + discriminate H.
    + destruct o;
        [ idtac | idtac | destruct sp as [[|]|] | destruct sp as [[|]|]
        | destruct sq as [[|]|] | destruct sq as [[|]|] ];
        simpl in H;
        first [ simpl; firstorder congruence
              | specialize (IH _ _ _ H); simpl; firstorder congruence ].
  - intros [[H1 H2]|[H1 H2]].
    + apply parse_public_exclusive; assumption.
    + apply parse_protected_exclusive; assumption.
Qed.

Lemma parse_opts_last_set opts a sp sq a' :
  parse_update_opts opts a sp sq = Some a' ->
  a'.(ua_cluster) = a.(ua_cluster)
  /\ a'.(ua_name) = last_set name_of opts a.(ua_name)
  /\ a'.(ua_description) = last_set description_of opts a.(ua_description)
  /\ a'.(ua_is_public) = last_set public_of opts a.(ua_is_public)
  /\ a'.(ua_is_protected) = last_set protected_of opts a.(ua_is_protected).
Proof.
  revert a sp sq. induction opts as [|o os IH]; intros a sp sq H; simpl in H.
  - injection H as <-. auto.
  - destruct o;
      [ idtac | idtac | destruct sp as [[|]|] | destruct sp as [[|]|]
      | destruct sq as [[|]|] | destruct sq as [[|]|] ];
      simpl in H; try discriminate H; exact (IH _ _ _ H).
Qed.

(** UpdateCluster's parser fails (argparse error) exactly when both
    options of a mutually exclusive group are given: [--public] with
    [--private], or [--protected] with [--unprotected]; any other
    combination, repetitions included, parses. *)
Theorem parse_update_none_iff cluster opts :
  parse_update cluster opts = None
  <-> (In OptPublic opts /\ In OptPrivate opts)
      \/ (In OptProtected opts /\ In OptUnprotected opts).
Proof.
  unfold parse_update. rewrite parse_opts_none_iff. firstorder congruence.
Qed.

(** When UpdateCluster's arguments parse, the positional [cluster] is
    kept and each of [name], [description], [is_public], [is_protected]
    holds the value of the last option that sets it ([--private] and
    [--unprotected] give [False]), and [None] when no option sets it. *)
Theorem parse_update_last_wins cluster opts a :
  parse_update cluster opts = Some a ->
  a.(ua_cluster) = cluster
  /\ a.(ua_name) = last_set name_of opts None
  /\ a.(ua_description) = last_set description_of opts None
  /\ a.(ua_is_public) = last_set public_of opts None
  /\ a.(ua_is_protected) = last_set protected_of opts None.
Proof.
  unfold parse_update. intros H. exact (parse_opts_last_set _ _ _ _ _ H).
Qed.

Lemma parse_update_last_wins_witness :
  let opts := [OptName "first"; OptPublic; OptDescription "d"; OptName "second";
               OptPublic; OptUnprotected] in
  let a := {| ua_cluster := "c"; ua_name := Some "second"; ua_description := Some "d";
              ua_is_public := Some true; ua_is_protected := Some false |} in
  parse_update "c" opts = Some a
  /\ a.(ua_cluster) = "c"
  /\ a.(ua_name) = last_set name_of opts None
  /\ a.(ua_description) = last_set description_of opts None
  /\ a.(ua_is_public) = last_set public_of opts None
  /\ a.(ua_is_protected) = last_set protected_of opts None.
Proof.
  intros opts a.
  assert (H : parse_update "c" opts = Some a) by (vm_compute; reflexivity).
  split; [exact H|]. exact (parse_update_last_wins "c" opts a H).
Defined.

Lemma rmapM_split_err l e :
  rmapM (fun x => match split_colon x with
                  | Some p => Ok p
                  | None => Err (ValueError "dictionary update sequence element has length 1; 2 is required")
                  end) l = Err e
  <-> Exists (fun x => split_colon x = None) l
      /\ e = ValueError "dictionary update sequence element has length 1; 2 is required".
Proof.
  induction l as [|x l IH]; simpl.
  - split; [discriminate|]. intros [H _]. inversion H.
  - destruct (split_colon x) as [p|] eqn:E; simpl.
    + destruct (rmapM _ l) as [ys|e'] eqn:E'; simpl.
      * split; [discriminate|]. intros [H He].
        inversion H as [? ? Hx|? ? Hl]; subst; [congruence|].
        pose proof (proj2 IH (conj Hl eq_refl)) as Hc. discriminate Hc.
      * split.
        -- intros H. injection H as <-. destruct (proj1 IH eq_refl) as [Hl He].
           split; [right; exact Hl|exact He].
        -- intros [H ->]. inversion H as [? ? Hx|? ? Hl]; subst; [congruence|].
           exact (proj2 IH (conj Hl eq_refl)).
    + split.
      * intros H. injection H as <-. split; [left; exact E|reflexivity].
      * intros [_ ->]. reflexivity.
Qed.

(** [dict(map(lambda x: x.split(':', 1), parsed_args.node_groups))] fails
    exactly in two ways: with no [--node-groups] (the list is [None]) it
    raises [TypeError]; otherwise it raises the [ValueError] of [dict] on a
    one-element sequence exactly when some argument does not split,
    i.e. holds no [:]. *)
Theorem node_group_pairs_errors ngs e :
  node_group_pairs ngs = Err e
  <-> (ngs = None /\ e = TypeError)
      \/ (exists l, ngs = Some l /\ Exists (fun x => split_colon x = None) l
                    /\ e = ValueError "dictionary update sequence element has length 1; 2 is required").
Proof.
  destruct ngs as [l|]; simpl.
  - destruct (rmapM _ l) as [ps|e'] eqn:E; simpl.
    + split; [discriminate|]. intros [[H _]|(l' & H & Hx & ->)]; [discriminate H|].
      injection H as <-. pose proof (proj2 (rmapM_split_err l _) (conj Hx eq_refl)) as Hc.
      rewrite E in Hc. discriminate Hc.
    + rewrite rmapM_split_err in E. destruct E as [Hx ->]. split.
      * intros H. injection H as <-. right. exists l. auto.
      * intros [[H _]|(l' & H & _ & ->)]; [discriminate H|reflexivity].
  - split.
    + intros H. injection H as <-. left. auto.
    + intros [[_ ->]|(l' & H & _)]; [reflexivity|discriminate H].
Qed.

(** ScaleCluster without [--json]: when the [--node-groups] arguments do
    not make a dict, the command raises that error right after fetching
    the cluster (or the fetch's own error), before any node-group template
    is fetched and before any scale call. *)
Theorem scale_node_group_errors_first w jl ps fl pi a tr e :
  py_truthy (opt_str a.(sa_json)) = false ->
  node_group_pairs a.(sa_node_groups) = Err e ->
  exists r, scale_take_action w jl ps fl pi a tr
            = (tr ++ [EvCall (CGetResource "clusters" (VStr a.(sa_cluster))) r],
               match r with Ok _ => Err e | Err e' => Err e' end).
Proof.
  intros Hj He. unfold scale_take_action. rewrite bind_call_eq.
  destruct (w (calls_of tr) (CGetResource "clusters" (VStr a.(sa_cluster)))) as [cl|e'].
  - exists (Ok cl). rewrite Hj. unfold bind at 2, lift at 1. rewrite He. reflexivity.
  - exists (Err e'). reflexivity.
Qed.

Lemma scale_node_group_errors_first_witness :
  let a := {| sa_cluster := "demo"; sa_node_groups := Some ["worker:4"; "edge"];
              sa_json := None; sa_wait := true |} in
  let e := ValueError "dictionary update sequence element has length 1; 2 is required" in
  py_truthy (opt_str a.(sa_json)) = false
  /\ node_group_pairs a.(sa_node_groups) = Err e
  /\ exists r, Demo.scale Demo.ok_world a
               = ([] ++ [EvCall (CGetResource "clusters" (VStr a.(sa_cluster))) r],
                  match r with Ok _ => Err e | Err e' => Err e' end).
Proof.
  intros a e.
  assert (Hj : py_truthy (opt_str a.(sa_json)) = false) by reflexivity.
  assert (He : node_group_pairs a.(sa_node_groups) = Err e) by (vm_compute; reflexivity).
  split; [exact Hj|]. split; [exact He|].
  exact (scale_node_group_errors_first Demo.ok_world Demo.json_loads Demo.py_str
           Demo.format_list Demo.py_int a [] e Hj He).
Defined.

(** ScaleCluster with a non-empty [--json]: the [--node-groups] arguments
    play no part; the command behaves the same whatever they are. *)
Theorem scale_json_ignores_node_groups w jl ps fl pi a ngs :
  py_truthy (opt_str a.(sa_json)) = true ->
  scale_take_action w jl ps fl pi a
  = scale_take_action w jl ps fl pi
      {| sa_cluster := a.(sa_cluster); sa_node_groups := ngs;
         sa_json := a.(sa_json); sa_wait := a.(sa_wait) |}.
Proof.
  intros Hj. unfold scale_take_action. cbn [sa_cluster sa_node_groups sa_json sa_wait].
  rewrite Hj. reflexivity.
Qed.

Lemma scale_json_ignores_node_groups_witness :
  let a := Demo.scale_json_args "doc-count-2" in
  let ngs := Some ["worker:4"] in
  py_truthy (opt_str a.(sa_json)) = true
  /\ scale_take_action Demo.ok_world Demo.json_loads Demo.py_str Demo.format_list Demo.py_int a
     = scale_take_action Demo.ok_world Demo.json_loads Demo.py_str Demo.format_list Demo.py_int
         {| sa_cluster := a.(sa_cluster); sa_node_groups := ngs;
            sa_json := a.(sa_json); sa_wait := a.(sa_wait) |}.
Proof.
  intros a ngs.
  assert (Hj : py_truthy (opt_str a.(sa_json)) = true) by reflexivity.
  split; [exact Hj|].
  exact (scale_json_ignores_node_groups Demo.ok_world Demo.json_loads Demo.py_str
           Demo.format_list Demo.py_int a ngs Hj).
Defined.

(** ScaleCluster with a non-empty [--json] path, on a normal return: after
    fetching the cluster it reads the file, and its next call is the scale
    call on the fetched cluster's [id], whose request is the parsed JSON
    document as it is. *)
Theorem scale_json_sends_document w jl ps fl pi a p tr tr' out :
  a.(sa_json) = Some p -> p <> "" ->
  scale_take_action w jl ps fl pi a tr = (tr', Ok out) ->
  exists cl blob t cid r post,
    tr' = tr ++ [EvCall (CGetResource "clusters" (VStr a.(sa_cluster))) (Ok cl);
                 EvCall (CReadBlob p) (Ok (VStr blob));
                 EvCall (CScale cid t) (Ok r)] ++ post
    /\ jl blob = inr t /\ getattr cl "id" = Ok cid.
Proof.
  intros Hj Hp H. unfold scale_take_action in H.
  bstepn H E1 t1 cl. apply call_ok in E1. destruct E1 as [-> _].
  bstepn H E2 t2 data. rewrite Hj, (truthy_opt_str_some p Hp) in E2. cbv iota beta in E2.
  bstepn E2 F1 u1 t. apply load_json_ok in F1. destruct F1 as (blob & _ & Hjl & ->).
  bstepn E2 F2 u2 cid. apply lift_ok in F2. destruct F2 as [-> Hcid].
  bstepn E2 F3 u3 r. apply call_ok in F3. destruct F3 as [-> _].
  apply lift_ok in E2. destruct E2 as [-> _].
  bstepn H E3 t3 d3. extn E3 post.
  bstepn H E4 t4 o4. apply lift_ok in E4. destruct E4 as [-> _].
  apply ret_ok in H. destruct H as [-> _].
  exists cl, blob, t, cid, r, post. split; [|auto].
  rewrite <- ?app_assoc. reflexivity.
Qed.

Lemma scale_json_sends_document_witness :
  let w : oracle := fun h c => match c with
                               | CScale _ _ => Ok (VDict Demo.cluster_record)
                               | _ => Demo.ok_world h c
                               end in
  let a := Demo.scale_json_args "doc-count-2" in
  let s := Demo.scale w a in
  s = (fst s, Ok (ok_part (snd s) []))
  /\ exists cl blob t cid r post,
       fst s = [] ++ [EvCall (CGetResource "clusters" (VStr a.(sa_cluster))) (Ok cl);
                      EvCall (CReadBlob "doc-count-2") (Ok (VStr blob));
                      EvCall (CScale cid t) (Ok r)] ++ post
       /\ Demo.json_loads blob = inr t /\ getattr cl "id" = Ok cid.
Proof.
  intros w a s.
  assert (H : s = (fst s, Ok (ok_part (snd s) []))) by (vm_compute; reflexivity).
  split; [exact H|].
  exact (scale_json_sends_document w Demo.json_loads Demo.py_str Demo.format_list
           Demo.py_int a "doc-count-2" [] (fst s) (ok_part (snd s) []) eq_refl
           ltac:(discriminate) H).
Defined.

(** CreateCluster with a non-empty [--json]: of the other arguments only
    [--count] and [--wait] play a part; two invocations with the same
    [--json], [--count] and [--wait] behave the same, whatever their
    [--name], [--cluster-template], [--image], [--description],
    [--user-keypair], [--neutron-network], [--transient], [--public] and
    [--protected]. *)
Theorem create_json_ignores_flags w jl ps fl a b :
  a.(ca_json) = b.(ca_json) -> a.(ca_count) = b.(ca_count) -> a.(ca_wait) = b.(ca_wait) ->
  py_truthy (opt_str a.(ca_json)) = true ->
  create_take_action w jl ps fl a = create_take_action w jl ps fl b.
Proof.
  intros Hj Hc Hw Ht. unfold create_take_action, create_request.
  rewrite <- Hj, <- Hc, <- Hw, Ht. reflexivity.
Qed.

Lemma create_json_ignores_flags_witness :
  let a := Demo.create_flags (Some 1%Z) (Some "doc-net") false in
  let b := {| ca_name := None; ca_cluster_template := Some "other-tmpl";
              ca_image := None; ca_description := Some "ignored";
              ca_user_keypair := Some "key"; ca_neutron_network := None;
              ca_count := Some 1%Z; ca_public := true; ca_protected := true;
              ca_transient := true; ca_json := Some "doc-net"; ca_wait := false |} in
  a.(ca_json) = b.(ca_json) /\ a.(ca_count) = b.(ca_count) /\ a.(ca_wait) = b.(ca_wait)
  /\ py_truthy (opt_str a.(ca_json)) = true
  /\ create_take_action Demo.ok_world Demo.json_loads Demo.py_str Demo.format_list a
     = create_take_action Demo.ok_world Demo.json_loads Demo.py_str Demo.format_list b.
Proof.
  intros a b.
  assert (H1 : a.(ca_json) = b.(ca_json)) by reflexivity.
  assert (H2 : a.(ca_count) = b.(ca_count)) by reflexivity.
  assert (H3 : a.(ca_wait) = b.(ca_wait)) by reflexivity.
  assert (H4 : py_truthy (opt_str a.(ca_json)) = true) by reflexivity.
  split; [exact H1|]. split; [exact H2|]. split; [exact H3|]. split; [exact H4|].
  exact (create_json_ignores_flags Demo.ok_world Demo.json_loads Demo.py_str Demo.format_list
           a b H1 H2 H3 H4).
Defined.

(** CreateCluster: when the effective count is truthy but not a number
    (a JSON [count] that is a non-empty string, list or object), the
    comparison [count > 1] raises [TypeError] right after the create call,
    which has already been made; nothing follows it. *)
Theorem create_count_type_error w jl ps fl a tr tr1 data count :
  create_request w jl a tr = (tr1, Ok (data, count)) ->
  py_truthy count = true ->
  match count with VStr _ | VList _ | VDict _ => True | _ => False end ->
  create_take_action w jl ps fl a tr = (tr1, Err TypeError)
  /\ exists pre kw rv, tr1 = tr ++ pre ++ [EvCall (CCreate kw) (Ok rv)]
                       /\ dict_get "count" kw = Some count.
Proof.
  intros Hr Ht Hk. split.
  - unfold create_take_action. rewrite (bind_ok_eq _ _ _ _ _ Hr). cbv beta iota.
    rewrite Ht. destruct count; try contradiction; reflexivity.
  - destruct (create_request_ok _ _ _ _ _ _ _ Hr) as (pre & kw & rv & -> & _ & Hc).
    exists pre, kw, rv. split; [reflexivity|].
    destruct (dict_get "count" kw) as [c|]; [congruence|].
    subst count. destruct (ca_count a); simpl in Hk; contradiction.
Qed.

Lemma create_count_type_error_witness :
  let jl := fun _ : string => @inr string value
                                (VDict [("name", VStr "batch"); ("count", VStr "2")]) in
  let a := Demo.create_flags None (Some "doc") false in
  let p := create_request Demo.ok_world jl a [] in
  let d := ok_part (snd p) ([], VNone) in
  create_request Demo.ok_world jl a [] = (fst p, Ok (fst d, snd d))
  /\ py_truthy (snd d) = true
  /\ create_take_action Demo.ok_world jl Demo.py_str Demo.format_list a [] = (fst p, Err TypeError)
  /\ exists pre kw rv, fst p = [] ++ pre ++ [EvCall (CCreate kw) (Ok rv)]
                       /\ dict_get "count" kw = Some (snd d).
Proof.
  intros jl a p d.
  assert (H : create_request Demo.ok_world jl a [] = (fst p, Ok (fst d, snd d)))
    by (vm_compute; reflexivity).
  assert (Ht : py_truthy (snd d) = true) by (vm_compute; reflexivity).
  assert (Hk : match snd d with VStr _ | VList _ | VDict _ => True | _ => False end)
    by (vm_compute; exact I).
  split; [exact H|]. split; [exact Ht|].
  exact (create_count_type_error Demo.ok_world jl Demo.py_str Demo.format_list a [] (fst p)
           (fst d) (snd d) H Ht Hk).
Defined.

(** CreateCluster without [--json], up to a normal answer of the create
    call: the template and image lookups come first; then, only when
    [--neutron-network] is given, one [find_attr('networks', ...)] call
    whose answer's ['id'] is the [net_id] (otherwise [net_id] is [None]);
    then the create call, whose keyword arguments are, in this order, the
    flags and the looked-up values; the effective count is [--count]. *)
Theorem create_flags_request w jl a tr tr1 data count :
  py_truthy (opt_str a.(ca_json)) = false ->
  create_request w jl a tr = (tr1, Ok (data, count)) ->
  exists ct iid pl ver tid net_id mid rv,
    tr1 = tr ++ [EvCall (CGetResource "cluster_templates" (opt_str a.(ca_cluster_template))) (Ok ct);
                 EvCall (CGetResourceId "images" (opt_str a.(ca_image))) (Ok iid)]
             ++ mid
             ++ [EvCall (CCreate [("name", opt_str a.(ca_name));
                                  ("plugin_name", pl);
                                  ("hadoop_version", ver);
                                  ("cluster_template_id", tid);
                                  ("default_image_id", iid);
                                  ("description", opt_str a.(ca_description));
                                  ("is_transient", VBool a.(ca_transient));
                                  ("user_keypair_id", opt_str a.(ca_user_keypair));
                                  ("net_id", net_id);
                                  ("count", opt_int a.(ca_count));
                                  ("is_public", VBool a.(ca_public));
                                  ("is_protected", VBool a.(ca_protected))]) (Ok rv)]
    /\ getattr ct "plugin_name" = Ok pl /\ getattr ct "hadoop_version" = Ok ver
    /\ getattr ct "id" = Ok tid
    /\ (if py_truthy (opt_str a.(ca_neutron_network))
        then exists n, mid = [EvCall (CFindAttr "networks" (opt_str a.(ca_neutron_network))) (Ok n)]
                       /\ getitem_v n "id" = Ok net_id
        else mid = [] /\ net_id = VNone)
    /\ to_dict rv = Ok data /\ count = opt_int a.(ca_count).
Proof.
  unfold create_request. intros Hf H. rewrite Hf in H.
  destruct (negb _ || _ || _); [unfold raise in H; discriminate H|].
  bstepn H E1 t1 ct. apply call_ok in E1. destruct E1 as [-> _].
  bstepn H E2 t2 pl. apply lift_ok in E2. destruct E2 as [-> E2].
  bstepn H E3 t3 ver. apply lift_ok in E3. destruct E3 as [-> E3].
  bstepn H E4 t4 tid. apply lift_ok in E4. destruct E4 as [-> E4].
  bstepn H E5 t5 iid. apply call_ok in E5. destruct E5 as [-> _].
  bstepn H E6 t6 net_id.
  assert (HN : exists mid, t6 = ((tr ++ [EvCall (CGetResource "cluster_templates"
                                                   (opt_str a.(ca_cluster_template))) (Ok ct)])
                                 ++ [EvCall (CGetResourceId "images" (opt_str a.(ca_image))) (Ok iid)])
                                ++ mid
               /\ (if py_truthy (opt_str a.(ca_neutron_network))
                   then exists n, mid = [EvCall (CFindAttr "networks"
                                                  (opt_str a.(ca_neutron_network))) (Ok n)]
                                  /\ getitem_v n "id" = Ok net_id
                   else mid = [] /\ net_id = VNone)).
  { destruct (py_truthy (opt_str a.(ca_neutron_network))).
    - bstepn E6 F1 u1 n. apply call_ok in F1. destruct F1 as [-> _].
      apply lift_ok in E6. destruct E6 as [-> E6].
      eexists. split; [reflexivity|]. exists n. auto.
    - apply ret_ok in E6. destruct E6 as [-> <-].
      exists []. rewrite app_nil_r. auto. }
  destruct HN as (mid & -> & Hmid).
  bstepn H E7 t7 rv. apply call_ok in E7. destruct E7 as [-> _].
  bstepn H E8 t8 d8. apply lift_ok in E8. destruct E8 as [-> E8].
  apply ret_ok in H. destruct H as [-> Hp]. injection Hp as <- <-.
  exists ct, iid, pl, ver, tid, net_id, mid, rv.
  split; [rewrite <- !app_assoc; reflexivity|]. auto 10.
Qed.

Lemma create_flags_request_witness :
  let a := Demo.create_flags None None false in
  let p := create_request Demo.ok_world Demo.json_loads a [] in
  let d := ok_part (snd p) ([], VNone) in
  py_truthy (opt_str a.(ca_json)) = false
  /\ create_request Demo.ok_world Demo.json_loads a [] = (fst p, Ok (fst d, snd d))
  /\ exists ct iid pl ver tid net_id mid rv,
    fst p = [] ++ [EvCall (CGetResource "cluster_templates" (opt_str a.(ca_cluster_template))) (Ok ct);
                   EvCall (CGetResourceId "images" (opt_str a.(ca_image))) (Ok iid)]
               ++ mid
               ++ [EvCall (CCreate [("name", opt_str a.(ca_name));
                                    ("plugin_name", pl);
                                    ("hadoop_version", ver);
                                    ("cluster_template_id", tid);
                                    ("default_image_id", iid);
                                    ("description", opt_str a.(ca_description));
                                    ("is_transient", VBool a.(ca_transient));
                                    ("user_keypair_id", opt_str a.(ca_user_keypair));
                                    ("net_id", net_id);
                                    ("count", opt_int a.(ca_count));
                                    ("is_public", VBool a.(ca_public));
                                    ("is_protected", VBool a.(ca_protected))]) (Ok rv)]
    /\ getattr ct "plugin_name" = Ok pl /\ getattr ct "hadoop_version" = Ok ver
    /\ getattr ct "id" = Ok tid
    /\ (if py_truthy (opt_str a.(ca_neutron_network))
        then exists n, mid = [EvCall (CFindAttr "networks" (opt_str a.(ca_neutron_network))) (Ok n)]
                       /\ getitem_v n "id" = Ok net_id
        else mid = [] /\ net_id = VNone)
    /\ to_dict rv = Ok (fst d) /\ snd d = opt_int a.(ca_count).
Proof.
  intros a p d.
  assert (Hf : py_truthy (opt_str a.(ca_json)) = false) by reflexivity.
  assert (H : create_request Demo.ok_world Demo.json_loads a [] = (fst p, Ok (fst d, snd d)))
    by (vm_compute; reflexivity).
  split; [exact Hf|]. split; [exact H|].
  exact (create_flags_request Demo.ok_world Demo.json_loads a [] (fst p) (fst d) (snd d) Hf H).
Defined.

Lemma bind_lift_ok {A B} (r : result A) (f : A -> M B) tr x :
  r = Ok x -> bind (lift r) f tr = f x tr.
Proof. intros ->. reflexivity. Qed.

Lemma bind_lift_err {A B} (r : result A) (f : A -> M B) tr e :
  r = Err e -> bind (lift r) f tr = (tr, Err e).
Proof. intros ->. reflexivity. Qed.

Lemma bind_err_eq {A B} (m : M A) (f : A -> M B) tr t e :
  m tr = (t, Err e) -> bind m f tr = (t, Err e).
Proof. unfold bind. intros ->. reflexivity. Qed.

Lemma node_group_pairs_split args pairs :
  Forall2 (fun x p => split_colon x = Some p) args pairs ->
  node_group_pairs (Some args)
  = Ok (map (fun n => (n, VStr (last_value pairs n))) (distinct_names pairs)).
Proof.
  intros H. unfold node_group_pairs. rewrite <- node_group_dict.
  assert (E : rmapM (fun x => match split_colon x with
                              | Some p => Ok p
                              | None => Err (ValueError "dictionary update sequence element has length 1; 2 is required")
                              end) args = Ok pairs).
  { induction H as [|x p xs ps Hx _ IH]; [reflexivity|]. simpl. rewrite Hx, IH. reflexivity. }
  rewrite E. reflexivity.
Qed.

Lemma scale_loop_bad_count w pi existing items add resize tr n c :
  In (n, VStr c) items -> pi c = None ->
  exists t e, scale_loop w pi existing items add resize tr = (tr ++ t, Err e)
              /\ Forall (ev_ok (fun c => is_scale c = false)) t.
Proof.
  intros Hin Hc. revert add resize tr.
  induction items as [|[name count] items IH]; intros add resize tr; [contradiction|].
  assert (Hnext : forall z, py_int_v pi count = Ok z -> In (n, VStr c) items).
  { intros z Hz. destruct Hin as [Hin|Hin]; [|exact Hin].
    injection Hin as -> ->. simpl in Hz. rewrite Hc in Hz. discriminate Hz. }
  cbn [scale_loop]. rewrite bind_call_eq.
  destruct (w (calls_of tr) (CGetResource "node_group_templates" (VStr name))) as [ng|e] eqn:Ew;
    [|exists [EvCall (CGetResource "node_group_templates" (VStr name)) (Err e)], e;
      split; [reflexivity|repeat constructor]].
  set (ev := EvCall (CGetResource "node_group_templates" (VStr name)) (Ok ng)).
  assert (Hstep : forall m : M (list value * list value),
             (exists t e, m (tr ++ [ev]) = ((tr ++ [ev]) ++ t, Err e)
                          /\ Forall (ev_ok (fun c => is_scale c = false)) t) ->
             exists t e, m (tr ++ [ev]) = (tr ++ t, Err e)
                         /\ Forall (ev_ok (fun c => is_scale c = false)) t).
  { intros m (t & e & Em & F). exists (ev :: t), e. rewrite Em, <- app_assoc.
    split; [reflexivity|]. constructor; [reflexivity|exact F]. }
  apply Hstep.
  assert (Herr : forall e, exists t e',
             ((tr ++ [ev]), @Err (list value * list value) e)
             = ((tr ++ [ev]) ++ t, Err e')
             /\ Forall (ev_ok (fun c => is_scale c = false)) t).
  { intros e. exists [], e. rewrite app_nil_r. auto. }
  destruct (getattr ng "name") as [nm|e] eqn:Eg; [|exact (Herr e)].
  rewrite (bind_lift_ok _ _ _ nm eq_refl).
  destruct (py_in nm existing).
  - destruct (py_int_v pi count) as [z|e] eqn:Ep; [|exact (Herr e)].
    rewrite (bind_lift_ok _ _ _ z eq_refl). apply IH. exact (Hnext z eq_refl).
  - destruct (getattr ng "id") as [i|e] eqn:Ei; [|exact (Herr e)].
    rewrite (bind_lift_ok _ _ _ i eq_refl).
    destruct (py_int_v pi count) as [z|e] eqn:Ep; [|exact (Herr e)].
    rewrite (bind_lift_ok _ _ _ z eq_refl). apply IH. exact (Hnext z eq_refl).
Qed.

(** ScaleCluster without [--json]: [int(count)] is taken of the count of
    the last occurrence of each name; when that count is not an integer
    literal for some name, the command raises an error and makes no scale
    call. *)
Theorem scale_rejects_non_integer_count w jl ps fl pi a args pairs n tr :
  py_truthy (opt_str a.(sa_json)) = false -> a.(sa_node_groups) = Some args ->
  Forall2 (fun x p => split_colon x = Some p) args pairs ->
  In n (distinct_names pairs) -> pi (last_value pairs n) = None ->
  exists t e, scale_take_action w jl ps fl pi a tr = (tr ++ t, Err e)
              /\ Forall (ev_ok (fun c => is_scale c = false)) t.
Proof.
  intros Hj Hng Hsplit Hn Hc. unfold scale_take_action. rewrite bind_call_eq.
  destruct (w (calls_of tr) (CGetResource "clusters" (VStr a.(sa_cluster)))) as [cl|e];
    [|exists [EvCall (CGetResource "clusters" (VStr a.(sa_cluster))) (Err e)], e;
      split; [reflexivity|repeat constructor]].
  set (tr1 := tr ++ [EvCall (CGetResource "clusters" (VStr a.(sa_cluster))) (Ok cl)]).
  assert (HD : exists t e,
             (scale_node_groups <- lift (node_group_pairs a.(sa_node_groups)) ;;
              cluster_node_groups <- lift (cluster_node_group_names cl) ;;
              lists <- scale_loop w pi cluster_node_groups scale_node_groups [] [] ;;
              cid <- lift (getattr cl "id") ;;
              r <- call w (CScale cid (VDict (scale_object (fst lists) (snd lists)))) ;;
              c <- lift (getattr r "cluster") ;;
              lift (as_dict c)) tr1 = (tr1 ++ t, Err e)
             /\ Forall (ev_ok (fun c => is_scale c = false)) t).
  { rewrite Hng, (bind_lift_ok _ _ _ _ (node_group_pairs_split _ _ Hsplit)).
    destruct (cluster_node_group_names cl) as [existing|e] eqn:Ecl;
      [|exists [], e; rewrite app_nil_r; split; [reflexivity|constructor]].
    rewrite (bind_lift_ok _ _ _ existing eq_refl).
    assert (Hin : In (n, VStr (last_value pairs n))
                     (map (fun n => (n, VStr (last_value pairs n))) (distinct_names pairs)))
      by (apply (in_map (fun n => (n, VStr (last_value pairs n)))); exact Hn).
    destruct (scale_loop_bad_count w pi existing _ [] [] tr1 _ _ Hin Hc) as (t & e & Hl & F).
    exists t, e. split; [|exact F]. apply bind_err_eq. exact Hl. }
  destruct HD as (t & e & HD & F).
  exists ([EvCall (CGetResource "clusters" (VStr a.(sa_cluster))) (Ok cl)] ++ t), e.
  split; [|constructor; [reflexivity|exact F]].
  rewrite app_assoc. apply bind_err_eq. rewrite Hj. exact HD.
Qed.

Lemma scale_rejects_non_integer_count_witness :
  let a := {| sa_cluster := "demo"; sa_node_groups := Some ["worker:x"; "edge:2"];
              sa_json := None; sa_wait := false |} in
  let pairs := [("worker", "x"); ("edge", "2")] in
  py_truthy (opt_str a.(sa_json)) = false
  /\ Forall2 (fun x p => split_colon x = Some p) ["worker:x"; "edge:2"] pairs
  /\ In "worker" (distinct_names pairs) /\ Demo.py_int (last_value pairs "worker") = None
  /\ exists t e, Demo.scale Demo.ok_world a = ([] ++ t, Err e)
                 /\ Forall (ev_ok (fun c => is_scale c = false)) t.
Proof.
  intros a pairs.
  assert (Hj : py_truthy (opt_str a.(sa_json)) = false) by reflexivity.
  assert (Hs : Forall2 (fun x p => split_colon x = Some p) ["worker:x"; "edge:2"] pairs)
    by (repeat constructor).
  assert (Hn : In "worker" (distinct_names pairs)) by (vm_compute; left; reflexivity).
  assert (Hc : Demo.py_int (last_value pairs "worker") = None) by (vm_compute; reflexivity).
  split; [exact Hj|]. split; [exact Hs|]. split; [exact Hn|]. split; [exact Hc|].
  exact (scale_rejects_non_integer_count Demo.ok_world Demo.json_loads Demo.py_str
           Demo.format_list Demo.py_int a ["worker:x"; "edge:2"] pairs "worker" []
           Hj eq_refl Hs Hn Hc).
Defined.
